(** * msh_vec_math.h: vectors, matrices and quaternions

    A shallow embedding of the parts of [msh_vec_math.h] that the
    specification talks about, followed by the properties themselves.

    The header computes on [msh_scalar_t], a C floating-point type.  The
    operations on it are kept behind the interface [Scalar]; the functions
    of the header are written once over that interface, each expression
    with the shape (operands, order, association) it has in the C text.
    The interface is then instantiated with IEEE-754 binary32 (the default
    build, [typedef float msh_scalar_t]) from the specification of
    floating-point arithmetic in [SpecFloat], so that the functions can be
    run on concrete inputs and the statements that depend on rounding,
    signed zeros, infinities and NaN are settled on the real arithmetic. *)

From Stdlib Require Import ZArith Bool Lia.
From Stdlib Require Import Floats.SpecFloat.

Set Implicit Arguments.

(* ====================================================================== *)
(** * The scalar interface *)
(* ====================================================================== *)

(** Arithmetic and comparisons of one C floating-point type. *)
Class Scalar (F : Type) : Type := {
  s_zero : F;                (* the literal 0.0f *)
  s_one : F;                 (* the literal 1.0f *)
  s_of_int32 : Z -> F;       (* the cast (float)i of an int32_t *)
  s_add : F -> F -> F;
  s_sub : F -> F -> F;
  s_mul : F -> F -> F;
  s_div : F -> F -> F;
  s_neg : F -> F;
  s_eqb : F -> F -> bool;    (* == *)
  s_gtb : F -> F -> bool;    (* >  *)
  s_leb : F -> F -> bool     (* <= *)
}.

(** What the header takes from the C [double] type [D] when it computes on
    [msh_scalar_t] values [F]: the usual arithmetic conversion of an
    operand, the cast back, double literals, [fabs] and [FLT_EPSILON]. *)
Class CDouble (F D : Type) : Type := {
  promote : F -> D;          (* implicit conversion to double *)
  demote : D -> F;           (* the cast (msh_scalar_t)d *)
  d_half : D;                (* the literal 0.5 *)
  d_1em6 : D;                (* the literal 1e-6 *)
  c_fabs : D -> D;           (* fabs *)
  flt_epsilon : F            (* FLT_EPSILON, through MSH_FLT_EPSILON *)
}.

(** [fminf] and [fmaxf] of <math.h>. *)
Class MinMax (F : Type) : Type := {
  c_fminf : F -> F -> F;
  c_fmaxf : F -> F -> F
}.

(** The transcendental functions of <math.h> the quaternion code calls. *)
Class Trig (F D : Type) : Type := {
  c_sin : D -> D;            (* sin   *)
  c_cosf : F -> F;           (* cosf  *)
  c_acosf : F -> F           (* acosf *)
}.

Declare Scope scalar_scope.
Delimit Scope scalar_scope with S.
Infix "+" := s_add : scalar_scope.
Infix "-" := s_sub : scalar_scope.
Infix "*" := s_mul : scalar_scope.
Infix "/" := s_div : scalar_scope.
Notation "- x" := (s_neg x) : scalar_scope.
Infix "==" := s_eqb (at level 70, no associativity) : scalar_scope.
Infix ">" := s_gtb : scalar_scope.
Infix "<=" := s_leb : scalar_scope.

(* ====================================================================== *)
(** * Value types *)
(* ====================================================================== *)

Section Types.
Variable F : Type.

(** [msh_vec2_t], [msh_vec3_t], [msh_vec4_t]: the named view of the unions. *)
Record msh_vec2_t : Type := msh_vec2 { v2_x : F; v2_y : F }.
Record msh_vec3_t : Type := msh_vec3 { v3_x : F; v3_y : F; v3_z : F }.
Record msh_vec4_t : Type :=
    msh_vec4 { v4_x : F; v4_y : F; v4_z : F; v4_w : F }.

(** [msh_quat_t]: stored (x, y, z, w). *)
Record msh_quat_t : Type := msh_quat { q_x : F; q_y : F; q_z : F; q_w : F }.

(** [msh_mat2_t], [msh_mat3_t], [msh_mat4_t]: the flat [data] view,
      column-major; field [mN_i] is [data[i]]. *)
Record msh_mat2_t : Type :=
    msh_mat2 { m2_0 : F; m2_1 : F; m2_2 : F; m2_3 : F }.
Record msh_mat3_t : Type :=
    msh_mat3 { m3_0 : F; m3_1 : F; m3_2 : F;
               m3_3 : F; m3_4 : F; m3_5 : F;
               m3_6 : F; m3_7 : F; m3_8 : F }.
Record msh_mat4_t : Type :=
    msh_mat4 { m4_0 : F; m4_1 : F; m4_2 : F; m4_3 : F;
               m4_4 : F; m4_5 : F; m4_6 : F; m4_7 : F;
               m4_8 : F; m4_9 : F; m4_10 : F; m4_11 : F;
               m4_12 : F; m4_13 : F; m4_14 : F; m4_15 : F }.

(** The second view of the quaternion union: [im] overlays (x, y, z) and
      [re] overlays w. *)
Definition q_im (q : msh_quat_t) : msh_vec3_t :=
    msh_vec3 (q_x q) (q_y q) (q_z q).
Definition q_re (q : msh_quat_t) : F := q_w q.
Definition quat_of_im_re (im : msh_vec3_t) (re : F) : msh_quat_t :=
    msh_quat (v3_x im) (v3_y im) (v3_z im) re.
End Types.

Arguments msh_vec2 {F}.
Arguments msh_vec3 {F}.
Arguments msh_vec4 {F}.
Arguments msh_quat {F}.
Arguments msh_mat2 {F}.
Arguments msh_mat3 {F}.
Arguments msh_mat4 {F}.

(* ====================================================================== *)
(** * C integers used as truth values *)
(* ====================================================================== *)

(** The [int] a C comparison or [&&] yields. *)
Definition c_bool (b : bool) : Z := if b then 1%Z else 0%Z.

(** [r && c] for an [int] [r] and a comparison [c]: the right operand is
    only looked at when [r] is nonzero, and the result is 0 or 1. *)
Definition c_and (r : Z) (c : bool) : Z :=
  if Z.eqb r 0 then 0%Z else c_bool c.

(* ====================================================================== *)
(** * Vector implementation *)
(* ====================================================================== *)

Section Vectors.
Context {F : Type} {SF : Scalar F}.
Local Open Scope scalar_scope.

Definition msh_vec3_add (a b : msh_vec3_t F) : msh_vec3_t F :=
    msh_vec3 (v3_x a + v3_x b) (v3_y a + v3_y b) (v3_z a + v3_z b).

Definition msh_vec2_scalar_add (v : msh_vec2_t F) (s : F) : msh_vec2_t F :=
    msh_vec2 (v2_x v + s) (v2_y v + s).

Definition msh_vec3_scalar_add (v : msh_vec3_t F) (s : F) : msh_vec3_t F :=
    msh_vec3 (v3_x v + s) (v3_y v + s) (v3_z v + s).

Definition msh_vec4_scalar_add (v : msh_vec4_t F) (s : F) : msh_vec4_t F :=
    msh_vec4 (v4_x v + s) (v4_y v + s) (v4_z v + s) (v4_w v + s).

Definition msh_vec2_scalar_sub (v : msh_vec2_t F) (s : F) : msh_vec2_t F :=
    msh_vec2 (v2_x v - s) (v2_y v - s).

Definition msh_vec3_scalar_sub (v : msh_vec3_t F) (s : F) : msh_vec3_t F :=
    msh_vec3 (v3_x v - s) (v3_y v - s) (v3_z v - s).

Definition msh_vec4_scalar_sub (v : msh_vec4_t F) (s : F) : msh_vec4_t F :=
    msh_vec4 (v4_x v - s) (v4_y v - s) (v4_z v - s) (v4_w v - s).

Definition msh_vec3_scalar_mul (v : msh_vec3_t F) (s : F) : msh_vec3_t F :=
    msh_vec3 (v3_x v * s) (v3_y v * s) (v3_z v * s).

Definition msh_vec2_dot (a b : msh_vec2_t F) : F :=
    v2_x a * v2_x b + v2_y a * v2_y b.

Definition msh_vec3_dot (a b : msh_vec3_t F) : F :=
    v3_x a * v3_x b + v3_y a * v3_y b + v3_z a * v3_z b.

Definition msh_vec4_dot (a b : msh_vec4_t F) : F :=
    v4_x a * v4_x b + v4_y a * v4_y b + v4_z a * v4_z b + v4_w a * v4_w b.

(** "Inner product is just an alias for dot product": the bodies are
      written out a second time in the header. *)
Definition msh_vec2_inner_product (a b : msh_vec2_t F) : F :=
    v2_x a * v2_x b + v2_y a * v2_y b.

Definition msh_vec3_inner_product (a b : msh_vec3_t F) : F :=
    v3_x a * v3_x b + v3_y a * v3_y b + v3_z a * v3_z b.

Definition msh_vec4_inner_product (a b : msh_vec4_t F) : F :=
    v4_x a * v4_x b + v4_y a * v4_y b + v4_z a * v4_z b + v4_w a * v4_w b.

Section Clamp.
Context {MM : MinMax F}.

Definition msh_vec2_clamp (v : msh_vec2_t F) (min max : F) : msh_vec2_t F :=
      if min > max then v
      else msh_vec2 (c_fminf (c_fmaxf (v2_x v) min) max)
                    (c_fminf (c_fmaxf (v2_y v) min) max).

Definition msh_vec3_clamp (v : msh_vec3_t F) (min max : F) : msh_vec3_t F :=
      if min > max then v
      else msh_vec3 (c_fminf (c_fmaxf (v3_x v) min) max)
                    (c_fminf (c_fmaxf (v3_y v) min) max)
                    (c_fminf (c_fmaxf (v3_z v) min) max).

Definition msh_vec4_clamp (v : msh_vec4_t F) (min max : F) : msh_vec4_t F :=
      if min > max then v
      else msh_vec4 (c_fminf (c_fmaxf (v4_x v) min) max)
                    (c_fminf (c_fmaxf (v4_y v) min) max)
                    (c_fminf (c_fmaxf (v4_z v) min) max)
                    (c_fminf (c_fmaxf (v4_w v) min) max).
End Clamp.

Section Equal.
Context {D : Type} {SD : Scalar D} {CD : CDouble F D}.

(** One conjunct of [msh_vecN_equal]: [fabs(a - b) <= MSH_FLT_EPSILON].
        The difference is taken in [msh_scalar_t]; [fabs] and the
        comparison work on doubles. *)
Definition within_epsilon (a b : F) : bool :=
      c_fabs (promote (a - b)) <= promote flt_epsilon.

Definition msh_vec2_equal (a b : msh_vec2_t F) : Z :=
      c_bool (within_epsilon (v2_x a) (v2_x b) &&
              within_epsilon (v2_y a) (v2_y b)).

Definition msh_vec3_equal (a b : msh_vec3_t F) : Z :=
      c_bool (within_epsilon (v3_x a) (v3_x b) &&
              within_epsilon (v3_y a) (v3_y b) &&
              within_epsilon (v3_z a) (v3_z b)).

Definition msh_vec4_equal (a b : msh_vec4_t F) : Z :=
      c_bool (within_epsilon (v4_x a) (v4_x b) &&
              within_epsilon (v4_y a) (v4_y b) &&
              within_epsilon (v4_z a) (v4_z b) &&
              within_epsilon (v4_w a) (v4_w b)).
End Equal.
End Vectors.


(* ====================================================================== *)
(** * Matrix implementation *)
(* ====================================================================== *)

Section Matrices.
Context {F : Type} {SF : Scalar F}.
Local Open Scope scalar_scope.

Definition msh_mat4_to_mat3 (m : msh_mat4_t F) : msh_mat3_t F :=
  msh_mat3 (m4_0 m) (m4_1 m) (m4_2 m)
           (m4_4 m) (m4_5 m) (m4_6 m)
           (m4_8 m) (m4_9 m) (m4_10 m).

Definition msh_mat3_vec3_mul (m : msh_mat3_t F) (v : msh_vec3_t F) : msh_vec3_t F :=
  msh_vec3 (m3_0 m * v3_x v + m3_3 m * v3_y v + m3_6 m * v3_z v)
           (m3_1 m * v3_x v + m3_4 m * v3_y v + m3_7 m * v3_z v)
           (m3_2 m * v3_x v + m3_5 m * v3_y v + m3_8 m * v3_z v).

(** [is_point] is an [int32_t]; each row ends in [(float)is_point * m.data[12+i]]. *)
Definition msh_mat4_vec3_mul (m : msh_mat4_t F) (v : msh_vec3_t F) (is_point : Z)
  : msh_vec3_t F :=
  msh_vec3
    (m4_0 m * v3_x v + m4_4 m * v3_y v + m4_8 m * v3_z v + s_of_int32 is_point * m4_12 m)
    (m4_1 m * v3_x v + m4_5 m * v3_y v + m4_9 m * v3_z v + s_of_int32 is_point * m4_13 m)
    (m4_2 m * v3_x v + m4_6 m * v3_y v + m4_10 m * v3_z v + s_of_int32 is_point * m4_14 m).

Definition msh_mat2_determinant (m : msh_mat2_t F) : F :=
  m2_0 m * m2_3 m - m2_2 m * m2_1 m.

Definition msh_mat2_transpose (m : msh_mat2_t F) : msh_mat2_t F :=
  msh_mat2 (m2_0 m) (m2_2 m)
           (m2_1 m) (m2_3 m).

Definition msh_mat3_transpose (m : msh_mat3_t F) : msh_mat3_t F :=
  msh_mat3 (m3_0 m) (m3_3 m) (m3_6 m)
           (m3_1 m) (m3_4 m) (m3_7 m)
           (m3_2 m) (m3_5 m) (m3_8 m).

Definition msh_mat4_transpose (m : msh_mat4_t F) : msh_mat4_t F :=
  msh_mat4 (m4_0 m) (m4_4 m) (m4_8 m) (m4_12 m)
           (m4_1 m) (m4_5 m) (m4_9 m) (m4_13 m)
           (m4_2 m) (m4_6 m) (m4_10 m) (m4_14 m)
           (m4_3 m) (m4_7 m) (m4_11 m) (m4_15 m).

(** [int result = 1; result = result && (a.data[i] == b.data[i]); ...] *)
Definition msh_mat2_equal (a b : msh_mat2_t F) : Z :=
  let result := 1%Z in
  let result := c_and result (m2_0 a == m2_0 b) in
  let result := c_and result (m2_1 a == m2_1 b) in
  let result := c_and result (m2_2 a == m2_2 b) in
  let result := c_and result (m2_3 a == m2_3 b) in
  result.

Definition msh_mat3_equal (a b : msh_mat3_t F) : Z :=
  let result := 1%Z in
  let result := c_and result (m3_0 a == m3_0 b) in
  let result := c_and result (m3_1 a == m3_1 b) in
  let result := c_and result (m3_2 a == m3_2 b) in
  let result := c_and result (m3_3 a == m3_3 b) in
  let result := c_and result (m3_4 a == m3_4 b) in
  let result := c_and result (m3_5 a == m3_5 b) in
  let result := c_and result (m3_6 a == m3_6 b) in
  let result := c_and result (m3_7 a == m3_7 b) in
  let result := c_and result (m3_8 a == m3_8 b) in
  result.

Definition msh_mat4_equal (a b : msh_mat4_t F) : Z :=
  let result := 1%Z in
  let result := c_and result (m4_0 a == m4_0 b) in
  let result := c_and result (m4_1 a == m4_1 b) in
  let result := c_and result (m4_2 a == m4_2 b) in
  let result := c_and result (m4_3 a == m4_3 b) in
  let result := c_and result (m4_4 a == m4_4 b) in
  let result := c_and result (m4_5 a == m4_5 b) in
  let result := c_and result (m4_6 a == m4_6 b) in
  let result := c_and result (m4_7 a == m4_7 b) in
  let result := c_and result (m4_8 a == m4_8 b) in
  let result := c_and result (m4_9 a == m4_9 b) in
  let result := c_and result (m4_10 a == m4_10 b) in
  let result := c_and result (m4_11 a == m4_11 b) in
  let result := c_and result (m4_12 a == m4_12 b) in
  let result := c_and result (m4_13 a == m4_13 b) in
  let result := c_and result (m4_14 a == m4_14 b) in
  let result := c_and result (m4_15 a == m4_15 b) in
  result.
End Matrices.

(* ====================================================================== *)
(** * Quaternion implementation *)
(* ====================================================================== *)

Section Quaternions.
Context {F : Type} {SF : Scalar F}.
Local Open Scope scalar_scope.

(** Assignments to one member of a local [msh_quat_t]. *)
Definition set_q_x (o : msh_quat_t F) (a : F) : msh_quat_t F :=
  msh_quat a (q_y o) (q_z o) (q_w o).
Definition set_q_y (o : msh_quat_t F) (a : F) : msh_quat_t F :=
  msh_quat (q_x o) a (q_z o) (q_w o).
Definition set_q_z (o : msh_quat_t F) (a : F) : msh_quat_t F :=
  msh_quat (q_x o) (q_y o) a (q_w o).
Definition set_q_w (o : msh_quat_t F) (a : F) : msh_quat_t F :=
  msh_quat (q_x o) (q_y o) (q_z o) a.
Definition set_q_re (o : msh_quat_t F) (a : F) : msh_quat_t F := set_q_w o a.

Definition msh_quat_add (a b : msh_quat_t F) : msh_quat_t F :=
  msh_quat (q_x a + q_x b) (q_y a + q_y b) (q_z a + q_z b) (q_w a + q_w b).

(** [msh_quat_t o = v; o.re += s; return o;] *)
Definition msh_quat_scalar_add (v : msh_quat_t F) (s : F) : msh_quat_t F :=
  let o := v in
  let o := set_q_re o (q_re o + s) in
  o.

(** [msh_quat_t o = v; o.re -= s; return o;] *)
Definition msh_quat_scalar_sub (v : msh_quat_t F) (s : F) : msh_quat_t F :=
  let o := v in
  let o := set_q_re o (q_re o - s) in
  o.

(** [o.im = msh_vec3_scalar_mul(v.im, s); o.re = v.re * s;] on an
    uninitialised [o]: both views together cover all four members. *)
Definition msh_quat_scalar_mul (v : msh_quat_t F) (s : F) : msh_quat_t F :=
  quat_of_im_re (msh_vec3_scalar_mul (q_im v) s) (q_re v * s).

Definition msh_quat_dot (a b : msh_quat_t F) : F :=
  q_x a * q_x b + q_y a * q_y b + q_z a * q_z b + q_w a * q_w b.

Definition msh_quat_norm_sq (q : msh_quat_t F) : F :=
  q_x q * q_x q + q_y q * q_y q + q_z q * q_z q + q_w q * q_w q.

Definition msh_quat_conjugate (q : msh_quat_t F) : msh_quat_t F :=
  quat_of_im_re (msh_vec3 (- q_x q) (- q_y q) (- q_z q)) (q_re q).

(** [o] starts as the literal [{{0.0, 0.0, 0.0, 0.0}}]; the last statement
    is [o.w *= denom], which reads the [w] of [o], not of [q]. *)
Definition msh_quat_inverse (q : msh_quat_t F) : msh_quat_t F :=
  let o := msh_quat s_zero s_zero s_zero s_zero in
  let denom := s_one / msh_quat_norm_sq q in
  let o := set_q_x o (- q_x q * denom) in
  let o := set_q_y o (- q_y q * denom) in
  let o := set_q_z o (- q_z q * denom) in
  let o := set_q_w o (q_w o * denom) in
  o.

Definition msh_quat_lerp (q r : msh_quat_t F) (t : F) : msh_quat_t F :=
  msh_quat (q_x q * (s_one - t) + q_x r * t)
           (q_y q * (s_one - t) + q_y r * t)
           (q_z q * (s_one - t) + q_z r * t)
           (q_w q * (s_one - t) + q_w r * t).

Section WithLibm.
Context {D : Type} {SD : Scalar D} {CD : CDouble F D} {TR : Trig F D}.

(** [a = (msh_scalar_t)(angle * 0.5); s = (msh_scalar_t)sin(a);] the
    product and the sine are computed in double, the cosine by [cosf]. *)
Definition msh_quat_from_axis_angle (axis : msh_vec3_t F) (angle : F) : msh_quat_t F :=
  let a := demote (promote angle * d_half) in
  let s := demote (c_sin (promote a)) in
  msh_quat (v3_x axis * s) (v3_y axis * s) (v3_z axis * s) (c_cosf a).

(** [fabs(a) > 1e-6] and the two quotients [sin(..) / sin(a)] are computed
    in double, then cast to [msh_scalar_t].  In [a * (1.0-t)] the literal
    [1.0] is a double, so the difference and the product are computed in
    double; in [a * t] both operands are [msh_scalar_t], so the product is
    rounded to [msh_scalar_t] and then converted for [sin]. *)
Definition msh_quat_slerp (q r : msh_quat_t F) (t : F) : msh_quat_t F :=
  let a := c_acosf (msh_quat_dot q r) in
  if c_fabs (promote a) > d_1em6 then
    msh_quat_add
      (msh_quat_scalar_mul q
         (demote (c_sin (promote a * (s_one - promote t)) / c_sin (promote a))))
      (msh_quat_scalar_mul r
         (demote (c_sin (promote (a * t)) / c_sin (promote a))))
  else
    msh_quat_lerp q r t.
End WithLibm.
End Quaternions.


(* ====================================================================== *)
(** * The default build: IEEE-754 binary32 scalars *)
(* ====================================================================== *)

(** [float] is binary32 (24 bits of precision, [emax] 128) and [double] is
    binary64 (53 bits, [emax] 1024); operations round to nearest, ties to
    even.  [SpecFloat] has one NaN and no payload.  Two results that are
    equal here have identical bits when they are not NaN; when they are
    NaN, both are NaN in the program, and the sign and payload the
    hardware gives each of them are outside the model. *)
Definition f32 : Type := spec_float.
Definition f64 : Type := spec_float.

#[global] Typeclasses Opaque f32 f64.

Definition prec32 : Z := 24.
Definition emax32 : Z := 128.
Definition prec64 : Z := 53.
Definition emax64 : Z := 1024.

(** A value is well formed when its mantissa and exponent are the
    canonical ones of the format: every value a C [float] can hold. *)
Definition valid32 (x : f32) : Prop := valid_binary prec32 emax32 x = true.
Definition valid64 (x : f64) : Prop := valid_binary prec64 emax64 x = true.

Definition is_nan (x : spec_float) : bool :=
  match x with S754_nan => true | _ => false end.

Definition is_zero (x : spec_float) : bool :=
  match x with S754_zero _ => true | _ => false end.

(** Neither an infinity nor NaN. *)
Definition is_finite (x : spec_float) : bool :=
  match x with S754_zero _ | S754_finite _ _ _ => true | _ => false end.

(** Conversion between the two formats: the value is kept when it fits
    (always, from float to double) and rounded otherwise. *)
Definition convert (prec emax : Z) (x : spec_float) : spec_float :=
  match x with
  | S754_finite s m e => binary_round prec emax s m e
  | _ => x
  end.

#[export] Instance scalar_f32 : Scalar f32 := {|
  s_zero := S754_zero false;
  s_one := S754_finite false 8388608 (-23);
  s_of_int32 := fun i => binary_normalize prec32 emax32 i 0 false;
  s_add := SFadd prec32 emax32;
  s_sub := SFsub prec32 emax32;
  s_mul := SFmul prec32 emax32;
  s_div := SFdiv prec32 emax32;
  s_neg := SFopp;
  s_eqb := SFeqb;
  s_gtb := fun x y => SFltb y x;
  s_leb := SFleb
|}.

#[export] Instance scalar_f64 : Scalar f64 := {|
  s_zero := S754_zero false;
  s_one := S754_finite false 4503599627370496 (-52);
  s_of_int32 := fun i => binary_normalize prec64 emax64 i 0 false;
  s_add := SFadd prec64 emax64;
  s_sub := SFsub prec64 emax64;
  s_mul := SFmul prec64 emax64;
  s_div := SFdiv prec64 emax64;
  s_neg := SFopp;
  s_eqb := SFeqb;
  s_gtb := fun x y => SFltb y x;
  s_leb := SFleb
|}.

(** [0.5] is 2^52 * 2^-53; [1e-6] is the double 0x1.0c6f7a0b5ed8dp-20;
    [FLT_EPSILON] is 2^-23. *)
#[export] Instance cdouble_f32 : CDouble f32 f64 := {|
  promote := convert prec64 emax64;
  demote := convert prec32 emax32;
  d_half := S754_finite false 4503599627370496 (-53);
  d_1em6 := S754_finite false 4722366482869645 (-72);
  c_fabs := SFabs;
  flt_epsilon := S754_finite false 8388608 (-46)
|}.

(** [fminf] and [fmaxf] as C99 describes them: a NaN argument is treated
    as missing data, otherwise the smaller (larger) argument is returned. *)
#[export] Instance minmax_f32 : MinMax f32 := {|
  c_fminf := fun x y =>
    if is_nan x then y else if is_nan y then x
    else if SFltb y x then y else x;
  c_fmaxf := fun x y =>
    if is_nan x then y else if is_nan y then x
    else if SFltb x y then y else x
|}.

(** Float literals used in the examples. *)
Definition f32_of_Z (i : Z) : f32 := binary_normalize prec32 emax32 i 0 false.
Definition f32_inf : f32 := S754_infinity false.
Definition f32_nan : f32 := S754_nan.
Definition f32_negzero : f32 := S754_zero true.

(** Two values are the same up to the sign of zero: identical, or both
    zeros.  Apart from NaN this is what [==] tests. *)
Definition same_value (x y : spec_float) : Prop :=
  x = y \/ (is_zero x = true /\ is_zero y = true).

(* ====================================================================== *)
(** * Vocabulary of the properties *)
(* ====================================================================== *)

Section Vocabulary.
Context {F : Type} {SF : Scalar F}.
Local Open Scope scalar_scope.

(** The macros [msh_quat_identity()] and [msh_mat4_identity()]. *)
Definition msh_quat_identity : msh_quat_t F :=
  msh_quat s_zero s_zero s_zero s_one.

Definition msh_mat4_identity : msh_mat4_t F :=
  msh_mat4 s_one s_zero s_zero s_zero
           s_zero s_one s_zero s_zero
           s_zero s_zero s_one s_zero
           s_zero s_zero s_zero s_one.

(** The translation column of a 4x4 matrix, [m.data[12..14]]. *)
Definition translation (m : msh_mat4_t F) : msh_vec3_t F :=
  msh_vec3 (m4_12 m) (m4_13 m) (m4_14 m).

(** The same matrix with another translation column. *)
Definition with_translation (m : msh_mat4_t F) (t : msh_vec3_t F) : msh_mat4_t F :=
  msh_mat4 (m4_0 m) (m4_1 m) (m4_2 m) (m4_3 m)
           (m4_4 m) (m4_5 m) (m4_6 m) (m4_7 m)
           (m4_8 m) (m4_9 m) (m4_10 m) (m4_11 m)
           (v3_x t) (v3_y t) (v3_z t) (m4_15 m).

(** A quaternion divided member by member by a scalar. *)
Definition quat_div_each (q : msh_quat_t F) (n : F) : msh_quat_t F :=
  msh_quat (q_x q / n) (q_y q / n) (q_z q / n) (q_w q / n).

(** Every pair of corresponding members compares equal with [==]. *)
Definition quat_eq (a b : msh_quat_t F) : bool :=
  (q_x a == q_x b) && (q_y a == q_y b) && (q_z a == q_z b) && (q_w a == q_w b).

(** Every pair of corresponding entries is related by [R]. *)
Definition mat2_all2 (R : F -> F -> bool) (a b : msh_mat2_t F) : bool :=
  R (m2_0 a) (m2_0 b) && R (m2_1 a) (m2_1 b) &&
  R (m2_2 a) (m2_2 b) && R (m2_3 a) (m2_3 b).

Definition mat3_all2 (R : F -> F -> bool) (a b : msh_mat3_t F) : bool :=
  R (m3_0 a) (m3_0 b) && R (m3_1 a) (m3_1 b) && R (m3_2 a) (m3_2 b) &&
  R (m3_3 a) (m3_3 b) && R (m3_4 a) (m3_4 b) && R (m3_5 a) (m3_5 b) &&
  R (m3_6 a) (m3_6 b) && R (m3_7 a) (m3_7 b) && R (m3_8 a) (m3_8 b).

Definition mat4_all2 (R : F -> F -> bool) (a b : msh_mat4_t F) : bool :=
  R (m4_0 a) (m4_0 b) && R (m4_1 a) (m4_1 b) &&
  R (m4_2 a) (m4_2 b) && R (m4_3 a) (m4_3 b) &&
  R (m4_4 a) (m4_4 b) && R (m4_5 a) (m4_5 b) &&
  R (m4_6 a) (m4_6 b) && R (m4_7 a) (m4_7 b) &&
  R (m4_8 a) (m4_8 b) && R (m4_9 a) (m4_9 b) &&
  R (m4_10 a) (m4_10 b) && R (m4_11 a) (m4_11 b) &&
  R (m4_12 a) (m4_12 b) && R (m4_13 a) (m4_13 b) &&
  R (m4_14 a) (m4_14 b) && R (m4_15 a) (m4_15 b).

(** The same value in every entry. *)
Definition mat2_fill (x : F) : msh_mat2_t F := msh_mat2 x x x x.
End Vocabulary.

(** Member-wise lifting of a relation on scalars. *)
Definition vec3_rel {F : Type} (R : F -> F -> Prop) (a b : msh_vec3_t F) : Prop :=
  R (v3_x a) (v3_x b) /\ R (v3_y a) (v3_y b) /\ R (v3_z a) (v3_z b).

Definition quat_rel {F : Type} (R : F -> F -> Prop) (a b : msh_quat_t F) : Prop :=
  R (q_x a) (q_x b) /\ R (q_y a) (q_y b) /\ R (q_z a) (q_z b) /\
  R (q_w a) (q_w b).

Definition vec3_all {F : Type} (P : F -> Prop) (v : msh_vec3_t F) : Prop :=
  P (v3_x v) /\ P (v3_y v) /\ P (v3_z v).

Definition quat_all {F : Type} (P : F -> Prop) (q : msh_quat_t F) : Prop :=
  P (q_x q) /\ P (q_y q) /\ P (q_z q) /\ P (q_w q).

(** What the C standard says [==] means on IEEE values, written without
    the comparison function: no operand is NaN, and the operands are
    identical or are both zeros. *)
Definition identical (x y : spec_float) : bool :=
  match x, y with
  | S754_zero s1, S754_zero s2 => Bool.eqb s1 s2
  | S754_infinity s1, S754_infinity s2 => Bool.eqb s1 s2
  | S754_nan, S754_nan => true
  | S754_finite s1 m1 e1, S754_finite s2 m2 e2 =>
      Bool.eqb s1 s2 && Pos.eqb m1 m2 && Z.eqb e1 e2
  | _, _ => false
  end.

Definition ieee_equal (x y : spec_float) : bool :=
  negb (is_nan x) && negb (is_nan y) &&
  (identical x y || (is_zero x && is_zero y)).

(** A finite, well-formed [float]. *)
Definition regular32 (x : f32) : Prop := valid32 x /\ is_finite x = true.

(** A stand-in for <math.h> in the examples: it agrees with [acosf],
    [cosf] and [sin] at the arguments the examples reach
    ([acosf(1) = 0], [cosf(0) = 1], [sin(+-0) = +-0]). *)
Definition trig_at_zero : Trig f32 f64 := {|
  c_sin := fun x => x;
  c_cosf := fun _ => S754_finite false 8388608 (-23);
  c_acosf := fun _ => S754_zero false
|}.

Definition f64_of_Z (i : Z) : f64 := binary_normalize prec64 emax64 i 0 false.

(** A second stand-in, for two perpendicular unit quaternions: it agrees
    with <math.h> at the arguments [msh_quat_slerp] reaches on them at
    [t = 0] and [t = 1]: [acosf(0.0f) = 0x1.921fb6p+0f] (pi/2 rounded to
    [float]), [sin] of that angle as a double, [0x1.ffffffffffff7p-1],
    and [sin(+-0) = +-0]. *)
Definition trig_quarter_turn : Trig f32 f64 := {|
  c_sin := fun x =>
    if is_zero x then x else S754_finite false 9007199254740983 (-53);
  c_cosf := fun _ => S754_finite false 8388608 (-23);
  c_acosf := fun _ => S754_finite false 13176795 (-23)
|}.

(** What the proofs about [msh_quat_slerp] take for granted of <math.h>:
    - [sin] of a zero is a zero;
    - [sin] of a finite double of magnitude above 1e-6 is finite and
      nonzero (no double is a multiple of pi);
    - [acosf] returns a well-formed [float] that is never an infinity
      (an angle in [0, pi], or NaN). *)
Definition libm_sane (TR : Trig f32 f64) : Prop :=
  (forall x : f64, is_zero x = true -> is_zero (c_sin x) = true) /\
  (forall x : f64, is_finite x = true -> (c_fabs x > d_1em6)%S = true ->
     exists s m e, c_sin x = S754_finite s m e) /\
  (forall x : f32, valid32 (c_acosf x) /\ forall s, c_acosf x <> S754_infinity s).

(** Inputs of the worked examples. *)
Definition example_mat2 : msh_mat2_t f32 :=
  msh_mat2 (f32_of_Z 2) (f32_of_Z 0) (f32_of_Z 0) (f32_of_Z 3).

Definition example_mat2_double : msh_mat2_t f64 :=
  msh_mat2 (f64_of_Z 2) (f64_of_Z 0) (f64_of_Z 0) (f64_of_Z 3).

Definition example_vec3 : msh_vec3_t f32 :=
  msh_vec3 (f32_of_Z 1) (f32_of_Z 2) (f32_of_Z 3).

(** The identity moved by (5, 6, 7), and by (inf, 5, 0). *)
Definition example_shift : msh_mat4_t f32 :=
  with_translation msh_mat4_identity
    (msh_vec3 (f32_of_Z 5) (f32_of_Z 6) (f32_of_Z 7)).

Definition example_shift_inf : msh_mat4_t f32 :=
  with_translation msh_mat4_identity (msh_vec3 f32_inf (f32_of_Z 5) s_zero).

Definition example_quat : msh_quat_t f32 :=
  msh_quat (f32_of_Z 1) (f32_of_Z 2) (f32_of_Z 3) (f32_of_Z 4).

(** The unit quaternion (1, 0, 0, 0), perpendicular to the identity. *)
Definition example_unit_quat : msh_quat_t f32 :=
  msh_quat s_one s_zero s_zero s_zero.

(* ====================================================================== *)
(** * Further parts of the header *)
(* ====================================================================== *)

(** More float literals of the header, and the square roots of <math.h>. *)
Class Literals (F : Type) : Type := {
  s_two : F                  (* the literal 2.0f *)
}.

Class Sqrt (F D : Type) : Type := {
  c_sqrtf : F -> F;          (* sqrtf *)
  c_sqrt : D -> D            (* sqrt  *)
}.

Section MoreVectors.
Context {F : Type} {SF : Scalar F}.
Local Open Scope scalar_scope.

Definition msh_vec2_zeros : msh_vec2_t F := msh_vec2 s_zero s_zero.
Definition msh_vec3_zeros : msh_vec3_t F := msh_vec3 s_zero s_zero s_zero.
Definition msh_vec4_zeros : msh_vec4_t F := msh_vec4 s_zero s_zero s_zero s_zero.
Definition msh_vec2_ones : msh_vec2_t F := msh_vec2 s_one s_one.
Definition msh_vec3_ones : msh_vec3_t F := msh_vec3 s_one s_one s_one.
Definition msh_vec4_ones : msh_vec4_t F := msh_vec4 s_one s_one s_one s_one.

Definition msh_vec3_to_vec2 (v : msh_vec3_t F) : msh_vec2_t F :=
  msh_vec2 (v3_x v) (v3_y v).

Definition msh_vec4_to_vec2 (v : msh_vec4_t F) : msh_vec2_t F :=
  msh_vec2 (v4_x v) (v4_y v).

Definition msh_vec2_to_vec3 (v : msh_vec2_t F) : msh_vec3_t F :=
  msh_vec3 (v2_x v) (v2_y v) s_zero.

Definition msh_vec2_scalar_to_vec3 (v : msh_vec2_t F) (s : F) : msh_vec3_t F :=
  msh_vec3 (v2_x v) (v2_y v) s.

Definition msh_vec2_scalar_to_vec4 (v : msh_vec2_t F) (s0 s1 : F) : msh_vec4_t F :=
  msh_vec4 (v2_x v) (v2_y v) s0 s1.

Definition msh_vec4_to_vec3 (v : msh_vec4_t F) : msh_vec3_t F :=
  msh_vec3 (v4_x v) (v4_y v) (v4_z v).

Definition msh_vec2_to_vec4 (v : msh_vec2_t F) : msh_vec4_t F :=
  msh_vec4 (v2_x v) (v2_y v) s_zero s_zero.

Definition msh_vec3_to_vec4 (v : msh_vec3_t F) : msh_vec4_t F :=
  msh_vec4 (v3_x v) (v3_y v) (v3_z v) s_zero.

Definition msh_vec3_scalar_to_vec4 (v : msh_vec3_t F) (s : F) : msh_vec4_t F :=
  msh_vec4 (v3_x v) (v3_y v) (v3_z v) s.

Definition msh_vec2_add (a b : msh_vec2_t F) : msh_vec2_t F :=
  msh_vec2 (v2_x a + v2_x b) (v2_y a + v2_y b).

Definition msh_vec4_add (a b : msh_vec4_t F) : msh_vec4_t F :=
  msh_vec4 (v4_x a + v4_x b) (v4_y a + v4_y b) (v4_z a + v4_z b) (v4_w a + v4_w b).

Definition msh_vec2_sub (a b : msh_vec2_t F) : msh_vec2_t F :=
  msh_vec2 (v2_x a - v2_x b) (v2_y a - v2_y b).

Definition msh_vec3_sub (a b : msh_vec3_t F) : msh_vec3_t F :=
  msh_vec3 (v3_x a - v3_x b) (v3_y a - v3_y b) (v3_z a - v3_z b).

Definition msh_vec4_sub (a b : msh_vec4_t F) : msh_vec4_t F :=
  msh_vec4 (v4_x a - v4_x b) (v4_y a - v4_y b) (v4_z a - v4_z b) (v4_w a - v4_w b).

Definition msh_vec2_mul (a b : msh_vec2_t F) : msh_vec2_t F :=
  msh_vec2 (v2_x a * v2_x b) (v2_y a * v2_y b).

Definition msh_vec3_mul (a b : msh_vec3_t F) : msh_vec3_t F :=
  msh_vec3 (v3_x a * v3_x b) (v3_y a * v3_y b) (v3_z a * v3_z b).

Definition msh_vec4_mul (a b : msh_vec4_t F) : msh_vec4_t F :=
  msh_vec4 (v4_x a * v4_x b) (v4_y a * v4_y b) (v4_z a * v4_z b) (v4_w a * v4_w b).

Definition msh_vec2_scalar_mul (v : msh_vec2_t F) (s : F) : msh_vec2_t F :=
  msh_vec2 (v2_x v * s) (v2_y v * s).

Definition msh_vec4_scalar_mul (v : msh_vec4_t F) (s : F) : msh_vec4_t F :=
  msh_vec4 (v4_x v * s) (v4_y v * s) (v4_z v * s) (v4_w v * s).

Definition msh_vec2_div (a b : msh_vec2_t F) : msh_vec2_t F :=
  msh_vec2 (v2_x a / v2_x b) (v2_y a / v2_y b).

Definition msh_vec3_div (a b : msh_vec3_t F) : msh_vec3_t F :=
  msh_vec3 (v3_x a / v3_x b) (v3_y a / v3_y b) (v3_z a / v3_z b).

Definition msh_vec4_div (a b : msh_vec4_t F) : msh_vec4_t F :=
  msh_vec4 (v4_x a / v4_x b) (v4_y a / v4_y b) (v4_z a / v4_z b) (v4_w a / v4_w b).

(** [msh_scalar_t denom = 1.0f / s;] then one product per member. *)
Definition msh_vec2_scalar_div (v : msh_vec2_t F) (s : F) : msh_vec2_t F :=
  let denom := s_one / s in
  msh_vec2 (v2_x v * denom) (v2_y v * denom).

Definition msh_vec3_scalar_div (v : msh_vec3_t F) (s : F) : msh_vec3_t F :=
  let denom := s_one / s in
  msh_vec3 (v3_x v * denom) (v3_y v * denom) (v3_z v * denom).

Definition msh_vec4_scalar_div (v : msh_vec4_t F) (s : F) : msh_vec4_t F :=
  let denom := s_one / s in
  msh_vec4 (v4_x v * denom) (v4_y v * denom) (v4_z v * denom) (v4_w v * denom).

Definition msh_vec2_invert (v : msh_vec2_t F) : msh_vec2_t F :=
  msh_vec2 (- v2_x v) (- v2_y v).

Definition msh_vec3_invert (v : msh_vec3_t F) : msh_vec3_t F :=
  msh_vec3 (- v3_x v) (- v3_y v) (- v3_z v).

Definition msh_vec4_invert (v : msh_vec4_t F) : msh_vec4_t F :=
  msh_vec4 (- v4_x v) (- v4_y v) (- v4_z v) (- v4_w v).

Definition msh_vec2_outer_product (a b : msh_vec2_t F) : msh_mat2_t F :=
  msh_mat2 (v2_x a * v2_x b) (v2_y a * v2_x b)
           (v2_x a * v2_y b) (v2_y a * v2_y b).

Definition msh_vec3_outer_product (a b : msh_vec3_t F) : msh_mat3_t F :=
  msh_mat3 (v3_x a * v3_x b) (v3_y a * v3_x b) (v3_z a * v3_x b)
           (v3_x a * v3_y b) (v3_y a * v3_y b) (v3_z a * v3_y b)
           (v3_x a * v3_z b) (v3_y a * v3_z b) (v3_z a * v3_z b).

Definition msh_vec4_outer_product (a b : msh_vec4_t F) : msh_mat4_t F :=
  msh_mat4 (v4_x a * v4_x b) (v4_y a * v4_x b) (v4_z a * v4_x b) (v4_w a * v4_x b)
           (v4_x a * v4_y b) (v4_y a * v4_y b) (v4_z a * v4_y b) (v4_w a * v4_y b)
           (v4_x a * v4_z b) (v4_y a * v4_z b) (v4_z a * v4_z b) (v4_w a * v4_z b)
           (v4_x a * v4_w b) (v4_y a * v4_w b) (v4_z a * v4_w b) (v4_w a * v4_w b).

Definition msh_vec3_cross (a b : msh_vec3_t F) : msh_vec3_t F :=
  msh_vec3 (v3_y a * v3_z b - v3_z a * v3_y b)
           (v3_z a * v3_x b - v3_x a * v3_z b)
           (v3_x a * v3_y b - v3_y a * v3_x b).

Definition msh_vec2_norm_sq (v : msh_vec2_t F) : F :=
  v2_x v * v2_x v + v2_y v * v2_y v.

Definition msh_vec3_norm_sq (v : msh_vec3_t F) : F :=
  v3_x v * v3_x v + v3_y v * v3_y v + v3_z v * v3_z v.

Definition msh_vec4_norm_sq (v : msh_vec4_t F) : F :=
  v4_x v * v4_x v + v4_y v * v4_y v + v4_z v * v4_z v + v4_w v * v4_w v.

Section VectorsLibm.
Context {D : Type} {SD : Scalar D} {CD : CDouble F D} {SQ : Sqrt F D}.




(** [1.0f / sqrtf(...)], then one product per member. *)
Definition msh_vec2_normalize (v : msh_vec2_t F) : msh_vec2_t F :=
  let denom := s_one / c_sqrtf (v2_x v * v2_x v + v2_y v * v2_y v) in
  msh_vec2 (v2_x v * denom) (v2_y v * denom).

Definition msh_vec3_normalize (v : msh_vec3_t F) : msh_vec3_t F :=
  let denom := s_one / c_sqrtf (v3_x v * v3_x v + v3_y v * v3_y v + v3_z v * v3_z v) in
  msh_vec3 (v3_x v * denom) (v3_y v * denom) (v3_z v * denom).

Definition msh_vec4_normalize (v : msh_vec4_t F) : msh_vec4_t F :=
  let denom :=
    s_one / c_sqrtf (v4_x v * v4_x v + v4_y v * v4_y v + v4_z v * v4_z v + v4_w v * v4_w v) in
  let o := msh_vec4 (v4_x v * denom) (v4_y v * denom) (v4_z v * denom) (v4_w v * denom) in
  o.

(** [(msh_scalar_t)sqrt(...)]: the sum is formed in [msh_scalar_t], the
    root is taken in double. *)
Definition msh_vec2_norm (v : msh_vec2_t F) : F :=
  demote (c_sqrt (promote (v2_x v * v2_x v + v2_y v * v2_y v))).

Definition msh_vec3_norm (v : msh_vec3_t F) : F :=
  demote (c_sqrt (promote (v3_x v * v3_x v + v3_y v * v3_y v + v3_z v * v3_z v))).

Definition msh_vec4_norm (v : msh_vec4_t F) : F :=
  demote (c_sqrt (promote
    (v4_x v * v4_x v + v4_y v * v4_y v + v4_z v * v4_z v + v4_w v * v4_w v))).
End VectorsLibm.
End MoreVectors.

Section MoreMatrices.
Context {F : Type} {SF : Scalar F}.
Local Open Scope scalar_scope.

(** The macros [msh_matN_zeros()] and [msh_matN_identity()]. *)
Definition msh_mat2_zeros : msh_mat2_t F := msh_mat2 s_zero s_zero s_zero s_zero.
Definition msh_mat2_identity : msh_mat2_t F := msh_mat2 s_one s_zero s_zero s_one.
Definition msh_mat3_identity : msh_mat3_t F :=
  msh_mat3 s_one s_zero s_zero
           s_zero s_one s_zero
           s_zero s_zero s_one.

(** The column view [m.col[i]] of the 4x4 union. *)
Definition m4_col0 (m : msh_mat4_t F) : msh_vec4_t F :=
  msh_vec4 (m4_0 m) (m4_1 m) (m4_2 m) (m4_3 m).
Definition m4_col1 (m : msh_mat4_t F) : msh_vec4_t F :=
  msh_vec4 (m4_4 m) (m4_5 m) (m4_6 m) (m4_7 m).
Definition m4_col2 (m : msh_mat4_t F) : msh_vec4_t F :=
  msh_vec4 (m4_8 m) (m4_9 m) (m4_10 m) (m4_11 m).
Definition m4_col3 (m : msh_mat4_t F) : msh_vec4_t F :=
  msh_vec4 (m4_12 m) (m4_13 m) (m4_14 m) (m4_15 m).
Definition mat4_of_cols (c0 c1 c2 c3 : msh_vec4_t F) : msh_mat4_t F :=
  msh_mat4 (v4_x c0) (v4_y c0) (v4_z c0) (v4_w c0)
           (v4_x c1) (v4_y c1) (v4_z c1) (v4_w c1)
           (v4_x c2) (v4_y c2) (v4_z c2) (v4_w c2)
           (v4_x c3) (v4_y c3) (v4_z c3) (v4_w c3).

Definition m3_col0 (m : msh_mat3_t F) : msh_vec3_t F :=
  msh_vec3 (m3_0 m) (m3_1 m) (m3_2 m).
Definition m3_col1 (m : msh_mat3_t F) : msh_vec3_t F :=
  msh_vec3 (m3_3 m) (m3_4 m) (m3_5 m).
Definition m3_col2 (m : msh_mat3_t F) : msh_vec3_t F :=
  msh_vec3 (m3_6 m) (m3_7 m) (m3_8 m).
Definition mat3_of_cols (c0 c1 c2 : msh_vec3_t F) : msh_mat3_t F :=
  msh_mat3 (v3_x c0) (v3_y c0) (v3_z c0)
           (v3_x c1) (v3_y c1) (v3_z c1)
           (v3_x c2) (v3_y c2) (v3_z c2).

Definition m2_col0 (m : msh_mat2_t F) : msh_vec2_t F := msh_vec2 (m2_0 m) (m2_1 m).
Definition m2_col1 (m : msh_mat2_t F) : msh_vec2_t F := msh_vec2 (m2_2 m) (m2_3 m).
Definition mat2_of_cols (c0 c1 : msh_vec2_t F) : msh_mat2_t F :=
  msh_mat2 (v2_x c0) (v2_y c0) (v2_x c1) (v2_y c1).

Definition msh_mat2_add (a : msh_mat2_t F) (b : msh_mat2_t F) : msh_mat2_t F :=
  msh_mat2
    ((m2_0 a) + (m2_0 b)) ((m2_1 a) + (m2_1 b))
    ((m2_2 a) + (m2_2 b)) ((m2_3 a) + (m2_3 b)).

Definition msh_mat2_sub (a : msh_mat2_t F) (b : msh_mat2_t F) : msh_mat2_t F :=
  msh_mat2
    ((m2_0 a) - (m2_0 b)) ((m2_1 a) - (m2_1 b))
    ((m2_2 a) - (m2_2 b)) ((m2_3 a) - (m2_3 b)).

Definition msh_mat2_scalar_add (m : msh_mat2_t F) (s : F) : msh_mat2_t F :=
  msh_mat2
    ((m2_0 m) + s) ((m2_1 m) + s)
    ((m2_2 m) + s) ((m2_3 m) + s).

Definition msh_mat2_scalar_sub (m : msh_mat2_t F) (s : F) : msh_mat2_t F :=
  msh_mat2
    ((m2_0 m) - s) ((m2_1 m) - s)
    ((m2_2 m) - s) ((m2_3 m) - s).

Definition msh_mat2_scalar_mul (m : msh_mat2_t F) (s : F) : msh_mat2_t F :=
  msh_mat2
    ((m2_0 m)*s) ((m2_1 m)*s)
    ((m2_2 m)*s) ((m2_3 m)*s).

Definition msh_mat2_mul (a : msh_mat2_t F) (b : msh_mat2_t F) : msh_mat2_t F :=
  msh_mat2
    ((m2_0 b)*(m2_0 a) + (m2_1 b)*(m2_2 a))
    ((m2_0 b)*(m2_1 a) + (m2_1 b)*(m2_3 a))
    ((m2_2 b)*(m2_0 a) + (m2_3 b)*(m2_2 a))
    ((m2_2 b)*(m2_1 a) + (m2_3 b)*(m2_3 a)).

Definition msh_mat2_scalar_div (m : msh_mat2_t F) (s : F) : msh_mat2_t F :=
  let denom := s_one / s in
  msh_mat2
    ((m2_0 m) * denom) ((m2_1 m) * denom)
    ((m2_2 m) * denom) ((m2_3 m) * denom).

Definition msh_mat3_add (a : msh_mat3_t F) (b : msh_mat3_t F) : msh_mat3_t F :=
  msh_mat3
    ((m3_0 a) + (m3_0 b)) ((m3_1 a) + (m3_1 b)) ((m3_2 a) + (m3_2 b))
    ((m3_3 a) + (m3_3 b)) ((m3_4 a) + (m3_4 b)) ((m3_5 a) + (m3_5 b))
    ((m3_6 a) + (m3_6 b)) ((m3_7 a) + (m3_7 b)) ((m3_8 a) + (m3_8 b)).

Definition msh_mat3_sub (a : msh_mat3_t F) (b : msh_mat3_t F) : msh_mat3_t F :=
  msh_mat3
    ((m3_0 a) - (m3_0 b)) ((m3_1 a) - (m3_1 b)) ((m3_2 a) - (m3_2 b))
    ((m3_3 a) - (m3_3 b)) ((m3_4 a) - (m3_4 b)) ((m3_5 a) - (m3_5 b))
    ((m3_6 a) - (m3_6 b)) ((m3_7 a) - (m3_7 b)) ((m3_8 a) - (m3_8 b)).

Definition msh_mat3_scalar_add (m : msh_mat3_t F) (s : F) : msh_mat3_t F :=
  msh_mat3
    ((m3_0 m) + s) ((m3_1 m) + s) ((m3_2 m) + s)
    ((m3_3 m) + s) ((m3_4 m) + s) ((m3_5 m) + s)
    ((m3_6 m) + s) ((m3_7 m) + s) ((m3_8 m) + s).

Definition msh_mat3_scalar_sub (m : msh_mat3_t F) (s : F) : msh_mat3_t F :=
  msh_mat3
    ((m3_0 m) - s) ((m3_1 m) - s) ((m3_2 m) - s)
    ((m3_3 m) - s) ((m3_4 m) - s) ((m3_5 m) - s)
    ((m3_6 m) - s) ((m3_7 m) - s) ((m3_8 m) - s).

Definition msh_mat3_scalar_mul (m : msh_mat3_t F) (s : F) : msh_mat3_t F :=
  msh_mat3
    ((m3_0 m)*s) ((m3_1 m)*s) ((m3_2 m)*s)
    ((m3_3 m)*s) ((m3_4 m)*s) ((m3_5 m)*s)
    ((m3_6 m)*s) ((m3_7 m)*s) ((m3_8 m)*s).

Definition msh_mat3_mul (a : msh_mat3_t F) (b : msh_mat3_t F) : msh_mat3_t F :=
  msh_mat3
    ((m3_0 b)*(m3_0 a) + (m3_1 b)*(m3_3 a) + (m3_2 b)*(m3_6 a))
    ((m3_0 b)*(m3_1 a) + (m3_1 b)*(m3_4 a) + (m3_2 b)*(m3_7 a))
    ((m3_0 b)*(m3_2 a) + (m3_1 b)*(m3_5 a) + (m3_2 b)*(m3_8 a))
    ((m3_3 b)*(m3_0 a) + (m3_4 b)*(m3_3 a) + (m3_5 b)*(m3_6 a))
    ((m3_3 b)*(m3_1 a) + (m3_4 b)*(m3_4 a) + (m3_5 b)*(m3_7 a))
    ((m3_3 b)*(m3_2 a) + (m3_4 b)*(m3_5 a) + (m3_5 b)*(m3_8 a))
    ((m3_6 b)*(m3_0 a) + (m3_7 b)*(m3_3 a) + (m3_8 b)*(m3_6 a))
    ((m3_6 b)*(m3_1 a) + (m3_7 b)*(m3_4 a) + (m3_8 b)*(m3_7 a))
    ((m3_6 b)*(m3_2 a) + (m3_7 b)*(m3_5 a) + (m3_8 b)*(m3_8 a)).

Definition msh_mat3_scalar_div (m : msh_mat3_t F) (s : F) : msh_mat3_t F :=
  let denom := s_one / s in
  msh_mat3
    ((m3_0 m) * denom) ((m3_1 m) * denom) ((m3_2 m) * denom)
    ((m3_3 m) * denom) ((m3_4 m) * denom) ((m3_5 m) * denom)
    ((m3_6 m) * denom) ((m3_7 m) * denom) ((m3_8 m) * denom).

Definition msh_mat4_add (a : msh_mat4_t F) (b : msh_mat4_t F) : msh_mat4_t F :=
  msh_mat4
    ((m4_0 a) + (m4_0 b)) ((m4_1 a) + (m4_1 b)) ((m4_2 a) + (m4_2 b)) ((m4_3 a) + (m4_3 b))
    ((m4_4 a) + (m4_4 b)) ((m4_5 a) + (m4_5 b)) ((m4_6 a) + (m4_6 b)) ((m4_7 a) + (m4_7 b))
    ((m4_8 a) + (m4_8 b)) ((m4_9 a) + (m4_9 b)) ((m4_10 a) + (m4_10 b)) ((m4_11 a) + (m4_11 b))
    ((m4_12 a) + (m4_12 b)) ((m4_13 a) + (m4_13 b)) ((m4_14 a) + (m4_14 b)) ((m4_15 a) + (m4_15 b)).

Definition msh_mat4_sub (a : msh_mat4_t F) (b : msh_mat4_t F) : msh_mat4_t F :=
  msh_mat4
    ((m4_0 a) - (m4_0 b)) ((m4_1 a) - (m4_1 b)) ((m4_2 a) - (m4_2 b)) ((m4_3 a) - (m4_3 b))
    ((m4_4 a) - (m4_4 b)) ((m4_5 a) - (m4_5 b)) ((m4_6 a) - (m4_6 b)) ((m4_7 a) - (m4_7 b))
    ((m4_8 a) - (m4_8 b)) ((m4_9 a) - (m4_9 b)) ((m4_10 a) - (m4_10 b)) ((m4_11 a) - (m4_11 b))
    ((m4_12 a) - (m4_12 b)) ((m4_13 a) - (m4_13 b)) ((m4_14 a) - (m4_14 b)) ((m4_15 a) - (m4_15 b)).

Definition msh_mat4_scalar_add (m : msh_mat4_t F) (s : F) : msh_mat4_t F :=
  msh_mat4
    ((m4_0 m) + s) ((m4_1 m) + s) ((m4_2 m) + s) ((m4_3 m) + s)
    ((m4_4 m) + s) ((m4_5 m) + s) ((m4_6 m) + s) ((m4_7 m) + s)
    ((m4_8 m) + s) ((m4_9 m) + s) ((m4_10 m) + s) ((m4_11 m) + s)
    ((m4_12 m) + s) ((m4_13 m) + s) ((m4_14 m) + s) ((m4_15 m) + s).

Definition msh_mat4_scalar_sub (m : msh_mat4_t F) (s : F) : msh_mat4_t F :=
  msh_mat4
    ((m4_0 m) - s) ((m4_1 m) - s) ((m4_2 m) - s) ((m4_3 m) - s)
    ((m4_4 m) - s) ((m4_5 m) - s) ((m4_6 m) - s) ((m4_7 m) - s)
    ((m4_8 m) - s) ((m4_9 m) - s) ((m4_10 m) - s) ((m4_11 m) - s)
    ((m4_12 m) - s) ((m4_13 m) - s) ((m4_14 m) - s) ((m4_15 m) - s).

Definition msh_mat4_scalar_mul (m : msh_mat4_t F) (s : F) : msh_mat4_t F :=
  msh_mat4
    ((m4_0 m)*s) ((m4_1 m)*s) ((m4_2 m)*s) ((m4_3 m)*s)
    ((m4_4 m)*s) ((m4_5 m)*s) ((m4_6 m)*s) ((m4_7 m)*s)
    ((m4_8 m)*s) ((m4_9 m)*s) ((m4_10 m)*s) ((m4_11 m)*s)
    ((m4_12 m)*s) ((m4_13 m)*s) ((m4_14 m)*s) ((m4_15 m)*s).

Definition msh_mat4_mul (a : msh_mat4_t F) (b : msh_mat4_t F) : msh_mat4_t F :=
  msh_mat4
    ((m4_0 b)*(m4_0 a) + (m4_1 b)*(m4_4 a) + (m4_2 b)*(m4_8 a) + (m4_3 b)*(m4_12 a))
    ((m4_0 b)*(m4_1 a) + (m4_1 b)*(m4_5 a) + (m4_2 b)*(m4_9 a) + (m4_3 b)*(m4_13 a))
    ((m4_0 b)*(m4_2 a) + (m4_1 b)*(m4_6 a) + (m4_2 b)*(m4_10 a) + (m4_3 b)*(m4_14 a))
    ((m4_0 b)*(m4_3 a) + (m4_1 b)*(m4_7 a) + (m4_2 b)*(m4_11 a) + (m4_3 b)*(m4_15 a))
    ((m4_4 b)*(m4_0 a) + (m4_5 b)*(m4_4 a) + (m4_6 b)*(m4_8 a) + (m4_7 b)*(m4_12 a))
    ((m4_4 b)*(m4_1 a) + (m4_5 b)*(m4_5 a) + (m4_6 b)*(m4_9 a) + (m4_7 b)*(m4_13 a))
    ((m4_4 b)*(m4_2 a) + (m4_5 b)*(m4_6 a) + (m4_6 b)*(m4_10 a) + (m4_7 b)*(m4_14 a))
    ((m4_4 b)*(m4_3 a) + (m4_5 b)*(m4_7 a) + (m4_6 b)*(m4_11 a) + (m4_7 b)*(m4_15 a))
    ((m4_8 b)*(m4_0 a) + (m4_9 b)*(m4_4 a) + (m4_10 b)*(m4_8 a) + (m4_11 b)*(m4_12 a))
    ((m4_8 b)*(m4_1 a) + (m4_9 b)*(m4_5 a) + (m4_10 b)*(m4_9 a) + (m4_11 b)*(m4_13 a))
    ((m4_8 b)*(m4_2 a) + (m4_9 b)*(m4_6 a) + (m4_10 b)*(m4_10 a) + (m4_11 b)*(m4_14 a))
    ((m4_8 b)*(m4_3 a) + (m4_9 b)*(m4_7 a) + (m4_10 b)*(m4_11 a) + (m4_11 b)*(m4_15 a))
    ((m4_12 b)*(m4_0 a) + (m4_13 b)*(m4_4 a) + (m4_14 b)*(m4_8 a) + (m4_15 b)*(m4_12 a))
    ((m4_12 b)*(m4_1 a) + (m4_13 b)*(m4_5 a) + (m4_14 b)*(m4_9 a) + (m4_15 b)*(m4_13 a))
    ((m4_12 b)*(m4_2 a) + (m4_13 b)*(m4_6 a) + (m4_14 b)*(m4_10 a) + (m4_15 b)*(m4_14 a))
    ((m4_12 b)*(m4_3 a) + (m4_13 b)*(m4_7 a) + (m4_14 b)*(m4_11 a) + (m4_15 b)*(m4_15 a)).

Definition msh_mat4_scalar_div (m : msh_mat4_t F) (s : F) : msh_mat4_t F :=
  let denom := s_one / s in
  msh_mat4
    ((m4_0 m) * denom) ((m4_1 m) * denom) ((m4_2 m) * denom) ((m4_3 m) * denom)
    ((m4_4 m) * denom) ((m4_5 m) * denom) ((m4_6 m) * denom) ((m4_7 m) * denom)
    ((m4_8 m) * denom) ((m4_9 m) * denom) ((m4_10 m) * denom) ((m4_11 m) * denom)
    ((m4_12 m) * denom) ((m4_13 m) * denom) ((m4_14 m) * denom) ((m4_15 m) * denom).

Definition msh_mat3_to_mat2 (m : msh_mat3_t F) : msh_mat2_t F :=
  msh_mat2
    (m3_0 m) (m3_1 m)
    (m3_3 m) (m3_4 m).

Definition msh_mat4_to_mat2 (m : msh_mat4_t F) : msh_mat2_t F :=
  msh_mat2
    (m4_0 m) (m4_1 m)
    (m4_4 m) (m4_5 m).

Definition msh_mat2_to_mat3 (m : msh_mat2_t F) : msh_mat3_t F :=
  msh_mat3
    (m2_0 m) (m2_1 m) s_zero
    (m2_2 m) (m2_3 m) s_zero
    s_zero s_zero s_one.

Definition msh_mat2_to_mat4 (m : msh_mat2_t F) : msh_mat4_t F :=
  msh_mat4
    (m2_0 m) (m2_1 m) s_zero s_zero
    (m2_2 m) (m2_3 m) s_zero s_zero
    s_zero s_zero s_one s_zero
    s_zero s_zero s_zero s_one.

Definition msh_mat3_to_mat4 (m : msh_mat3_t F) : msh_mat4_t F :=
  msh_mat4
    (m3_0 m) (m3_1 m) (m3_2 m) s_zero
    (m3_3 m) (m3_4 m) (m3_5 m) s_zero
    (m3_6 m) (m3_7 m) (m3_8 m) s_zero
    s_zero s_zero s_zero s_one.

Definition msh_mat3_determinant (m : msh_mat3_t F) : F :=
  let C_0 := (m3_4 m) * (m3_8 m) - (m3_5 m) * (m3_7 m) in
  let C_1 := (m3_5 m) * (m3_6 m) - (m3_3 m) * (m3_8 m) in
  let C_2 := (m3_3 m) * (m3_7 m) - (m3_4 m) * (m3_6 m) in
  (m3_0 m) * C_0 + (m3_1 m) * C_1 + (m3_2 m) * C_2.

Definition msh_mat4_determinant (m : msh_mat4_t F) : F :=
  let coeffs_0 := (m4_10 m) * (m4_15 m) - (m4_14 m) * (m4_11 m) in
  let coeffs_1 := (m4_6 m) * (m4_11 m) - (m4_10 m) * (m4_7 m) in
  let coeffs_2 := (m4_2 m) * (m4_7 m) - (m4_6 m) * (m4_3 m) in
  let coeffs_3 := (m4_6 m) * (m4_15 m) - (m4_14 m) * (m4_7 m) in
  let coeffs_4 := (m4_2 m) * (m4_11 m) - (m4_10 m) * (m4_3 m) in
  let coeffs_5 := (m4_2 m) * (m4_15 m) - (m4_14 m) * (m4_3 m) in
  let C_0 := (m4_5 m) * coeffs_0 - (m4_9 m) * coeffs_3 + (m4_13 m) * coeffs_1 in
  let C_1 := (m4_9 m) * coeffs_5 - (m4_1 m) * coeffs_0 - (m4_13 m) * coeffs_4 in
  let C_2 := (m4_1 m) * coeffs_3 - (m4_5 m) * coeffs_5 + (m4_13 m) * coeffs_2 in
  let C_3 := (m4_5 m) * coeffs_4 - (m4_9 m) * coeffs_2 - (m4_1 m) * coeffs_1 in
  let det := (m4_0 m) * C_0 + (m4_4 m) * C_1 + (m4_8 m) * C_2 + (m4_12 m) * C_3 in
  det.

Definition msh_mat2_inverse (m : msh_mat2_t F) : msh_mat2_t F :=
  let denom := s_one / ((m2_0 m) * (m2_3 m) - (m2_2 m) * (m2_1 m)) in
  msh_mat2
    ((m2_3 m) * denom) (-(m2_1 m) * denom)
    (-(m2_2 m) * denom) ((m2_0 m) * denom).

Definition msh_mat3_inverse (m : msh_mat3_t F) : msh_mat3_t F :=
  let C_0 := (m3_4 m) * (m3_8 m) - (m3_7 m) * (m3_5 m) in
  let C_1 := (m3_7 m) * (m3_2 m) - (m3_1 m) * (m3_8 m) in
  let C_2 := (m3_1 m) * (m3_5 m) - (m3_4 m) * (m3_2 m) in
  let C_3 := (m3_6 m) * (m3_5 m) - (m3_3 m) * (m3_8 m) in
  let C_4 := (m3_0 m) * (m3_8 m) - (m3_6 m) * (m3_2 m) in
  let C_5 := (m3_3 m) * (m3_2 m) - (m3_0 m) * (m3_5 m) in
  let C_6 := (m3_3 m) * (m3_7 m) - (m3_6 m) * (m3_4 m) in
  let C_7 := (m3_6 m) * (m3_1 m) - (m3_0 m) * (m3_7 m) in
  let C_8 := (m3_0 m) * (m3_4 m) - (m3_3 m) * (m3_1 m) in
  let det := (m3_0 m) * C_0 + (m3_3 m) * C_1 + (m3_6 m) * C_2 in
  let denom := s_one / det in
  msh_mat3
    (denom * C_0) (denom * C_1) (denom * C_2)
    (denom * C_3) (denom * C_4) (denom * C_5)
    (denom * C_6) (denom * C_7) (denom * C_8).

Definition msh_mat4_inverse (m : msh_mat4_t F) : msh_mat4_t F :=
  let dets_0 := (m4_10 m) * (m4_15 m) - (m4_14 m) * (m4_11 m) in
  let dets_1 := (m4_6 m) * (m4_11 m) - (m4_10 m) * (m4_7 m) in
  let dets_2 := (m4_2 m) * (m4_7 m) - (m4_6 m) * (m4_3 m) in
  let dets_3 := (m4_6 m) * (m4_15 m) - (m4_14 m) * (m4_7 m) in
  let dets_4 := (m4_2 m) * (m4_11 m) - (m4_10 m) * (m4_3 m) in
  let dets_5 := (m4_2 m) * (m4_15 m) - (m4_14 m) * (m4_3 m) in
  let C_0 := (m4_5 m)*dets_0 - (m4_9 m)*dets_3 + (m4_13 m)*dets_1 in
  let C_1 := (m4_9 m)*dets_5 - (m4_1 m)*dets_0 - (m4_13 m)*dets_4 in
  let C_2 := (m4_1 m)*dets_3 - (m4_5 m)*dets_5 + (m4_13 m)*dets_2 in
  let C_3 := (m4_5 m)*dets_4 - (m4_9 m)*dets_2 - (m4_1 m)*dets_1 in
  let C_4 := (m4_8 m)*dets_3 - (m4_4 m)*dets_0 - (m4_12 m)*dets_1 in
  let C_5 := (m4_0 m)*dets_0 - (m4_8 m)*dets_5 + (m4_12 m)*dets_4 in
  let C_6 := (m4_4 m)*dets_5 - (m4_0 m)*dets_3 - (m4_12 m)*dets_2 in
  let C_7 := (m4_0 m)*dets_1 - (m4_4 m)*dets_4 + (m4_8 m)*dets_2 in
  let dets_0 := (m4_8 m)*(m4_13 m) - (m4_12 m)*(m4_9 m) in
  let dets_1 := (m4_4 m)*(m4_9 m) - (m4_8 m)*(m4_5 m) in
  let dets_2 := (m4_0 m)*(m4_5 m) - (m4_4 m)*(m4_1 m) in
  let dets_3 := (m4_4 m)*(m4_13 m) - (m4_12 m)*(m4_5 m) in
  let dets_4 := (m4_0 m)*(m4_9 m) - (m4_8 m)*(m4_1 m) in
  let dets_5 := (m4_0 m)*(m4_13 m) - (m4_12 m)*(m4_1 m) in
  let C_8 := (m4_7 m)*dets_0 - (m4_11 m)*dets_3 + (m4_15 m)*dets_1 in
  let C_9 := (m4_11 m)*dets_5 - (m4_3 m)*dets_0 - (m4_15 m)*dets_4 in
  let C_10 := (m4_3 m)*dets_3 - (m4_7 m)*dets_5 + (m4_15 m)*dets_2 in
  let C_11 := (m4_7 m)*dets_4 - (m4_3 m)*dets_1 - (m4_11 m)*dets_2 in
  let C_12 := (m4_10 m)*dets_3 - (m4_6 m)*dets_0 - (m4_14 m)*dets_1 in
  let C_13 := (m4_2 m)*dets_0 - (m4_10 m)*dets_5 + (m4_14 m)*dets_4 in
  let C_14 := (m4_6 m)*dets_5 - (m4_2 m)*dets_3 - (m4_14 m)*dets_2 in
  let C_15 := (m4_2 m)*dets_1 - (m4_6 m)*dets_4 + (m4_10 m)*dets_2 in
  let det := (m4_0 m)*C_0 + (m4_4 m)*C_1 + (m4_8 m)*C_2 + (m4_12 m)*C_3 in
  let denom := s_one / det in
  msh_mat4
    (denom*C_0) (denom*C_1) (denom*C_2) (denom*C_3)
    (denom*C_4) (denom*C_5) (denom*C_6) (denom*C_7)
    (denom*C_8) (denom*C_9) (denom*C_10) (denom*C_11)
    (denom*C_12) (denom*C_13) (denom*C_14) (denom*C_15).

Definition msh_mat2_vec2_mul (m : msh_mat2_t F) (v : msh_vec2_t F) : msh_vec2_t F :=
  msh_vec2 (m2_0 m * v2_x v + m2_2 m * v2_y v)
           (m2_1 m * v2_x v + m2_3 m * v2_y v).

Definition msh_mat4_vec4_mul (m : msh_mat4_t F) (v : msh_vec4_t F) : msh_vec4_t F :=
  msh_vec4
    (m4_0 m * v4_x v + m4_4 m * v4_y v + m4_8 m * v4_z v + m4_12 m * v4_w v)
    (m4_1 m * v4_x v + m4_5 m * v4_y v + m4_9 m * v4_z v + m4_13 m * v4_w v)
    (m4_2 m * v4_x v + m4_6 m * v4_y v + m4_10 m * v4_z v + m4_14 m * v4_w v)
    (m4_3 m * v4_x v + m4_7 m * v4_y v + m4_11 m * v4_z v + m4_15 m * v4_w v).

(** [return m.data[0] + m.data[2];] for the 2x2 matrix. *)
Definition msh_mat2_trace (m : msh_mat2_t F) : F := m2_0 m + m2_2 m.

Definition msh_mat3_trace (m : msh_mat3_t F) : F := m3_0 m + m3_4 m + m3_8 m.

Definition msh_mat4_trace (m : msh_mat4_t F) : F :=
  m4_0 m + m4_5 m + m4_10 m + m4_15 m.

(** [result = m; result.col[3] = ...]. *)
Definition msh_translate (m : msh_mat4_t F) (t : msh_vec3_t F) : msh_mat4_t F :=
  let result := m in
  mat4_of_cols (m4_col0 result) (m4_col1 result) (m4_col2 result)
    (msh_vec4_add
       (msh_vec4_add (msh_vec4_scalar_mul (m4_col0 m) (v3_x t))
                     (msh_vec4_scalar_mul (m4_col1 m) (v3_y t)))
       (msh_vec4_add (msh_vec4_scalar_mul (m4_col2 m) (v3_z t))
                     (m4_col3 m))).

Definition msh_scale (m : msh_mat4_t F) (s : msh_vec3_t F) : msh_mat4_t F :=
  let result := m in
  let result := mat4_of_cols (msh_vec4_scalar_mul (m4_col0 result) (v3_x s))
                             (m4_col1 result) (m4_col2 result) (m4_col3 result) in
  let result := mat4_of_cols (m4_col0 result)
                             (msh_vec4_scalar_mul (m4_col1 result) (v3_y s))
                             (m4_col2 result) (m4_col3 result) in
  let result := mat4_of_cols (m4_col0 result) (m4_col1 result)
                             (msh_vec4_scalar_mul (m4_col2 result) (v3_z s))
                             (m4_col3 result) in
  result.

Section Projections.
Context {LT : Literals F}.

Definition msh_frustum (left right bottom top z_near z_far : F) : msh_mat4_t F :=
  let x_diff := right - left in
  let y_diff := top - bottom in
  let z_diff := z_far - z_near in
  let a := (right + left) / x_diff in
  let b := (top + bottom) / y_diff in
  let c := - (z_far + z_near) / z_diff in
  let d := - (s_two * z_far * z_near) / z_diff in
  msh_mat4 ((s_two * z_near) / x_diff) s_zero s_zero s_zero
           s_zero ((s_two * z_near) / y_diff) s_zero s_zero
           a b c (- s_one)
           s_zero s_zero d s_zero.

Definition msh_ortho (left right bottom top z_near z_far : F) : msh_mat4_t F :=
  let x_diff := right - left in
  let y_diff := top - bottom in
  let z_diff := z_far - z_near in
  let tx := - (right + left) / x_diff in
  let ty := - (top + bottom) / y_diff in
  let tz := - (z_near + z_far) / z_diff in
  msh_mat4 (s_two / x_diff) s_zero s_zero s_zero
           s_zero (s_two / y_diff) s_zero s_zero
           s_zero s_zero (- s_two / z_diff) s_zero
           tx ty tz s_one.

Definition msh_project (obj : msh_vec4_t F) (modelview project : msh_mat4_t F)
  (viewport : msh_vec4_t F) : msh_vec3_t F :=
  let tmp := msh_mat4_vec4_mul (msh_mat4_mul project modelview) obj in
  let tmp := msh_vec4_scalar_div tmp (v4_w tmp) in
  msh_vec3 (v4_x viewport + (v4_z viewport * (v4_x tmp + s_one)) / s_two)
           (v4_y viewport + (v4_w viewport * (v4_y tmp + s_one)) / s_two)
           ((v4_z tmp + s_one) / s_two).

Definition msh_unproject (win : msh_vec3_t F) (modelview project : msh_mat4_t F)
  (viewport : msh_vec4_t F) : msh_vec4_t F :=
  let inv_pm := msh_mat4_inverse (msh_mat4_mul project modelview) in
  let tmp :=
    msh_vec4 ((s_two * (v3_x win - v4_x viewport)) / v4_z viewport - s_one)
             ((s_two * (v3_y win - v4_y viewport)) / v4_w viewport - s_one)
             (s_two * v3_z win - s_one)
             s_one in
  let obj := msh_mat4_vec4_mul inv_pm tmp in
  let obj := msh_vec4_scalar_div obj (v4_w obj) in
  obj.
End Projections.
End MoreMatrices.

Section MoreQuaternions.
Context {F : Type} {SF : Scalar F}.
Local Open Scope scalar_scope.

Definition msh_quat_zeros : msh_quat_t F := msh_quat s_zero s_zero s_zero s_zero.

Definition msh_quat_sub (a b : msh_quat_t F) : msh_quat_t F :=
  msh_quat (q_x a - q_x b) (q_y a - q_y b) (q_z a - q_z b) (q_w a - q_w b).

Definition msh_quat_mul (a b : msh_quat_t F) : msh_quat_t F :=
  msh_quat (q_w a * q_x b + q_x a * q_w b + q_y a * q_z b - q_z a * q_y b)
           (q_w a * q_y b + q_y a * q_w b + q_z a * q_x b - q_x a * q_z b)
           (q_w a * q_z b + q_z a * q_w b + q_x a * q_y b - q_y a * q_x b)
           (q_w a * q_w b - q_x a * q_x b - q_y a * q_y b - q_z a * q_z b).

Definition msh_quat_div (a b : msh_quat_t F) : msh_quat_t F :=
  msh_quat_mul a (msh_quat_inverse b).

Definition msh_quat_scalar_div (v : msh_quat_t F) (s : F) : msh_quat_t F :=
  let denom := s_one / s in
  msh_quat (q_x v * denom) (q_y v * denom) (q_z v * denom) (q_w v * denom).

Section QuatNorm.
Context {D : Type} {SD : Scalar D} {CD : CDouble F D} {SQ : Sqrt F D}.

Definition msh_quat_norm (q : msh_quat_t F) : F :=
  demote (c_sqrt (promote
    (q_x q * q_x q + q_y q * q_y q + q_z q * q_z q + q_w q * q_w q))).

Definition msh_quat_normalize (q : msh_quat_t F) : msh_quat_t F :=
  let denom := s_one / msh_quat_norm q in
  quat_of_im_re (msh_vec3_scalar_mul (q_im q) denom) (q_re q * denom).
End QuatNorm.

Section QuatMatrix.
Context {LT : Literals F}.

Definition msh_quat_to_mat3 (q : msh_quat_t F) : msh_mat3_t F :=
  let xx := q_x q * q_x q in
  let xy := q_x q * q_y q in
  let xz := q_x q * q_z q in
  let xw := q_x q * q_w q in
  let yy := q_y q * q_y q in
  let yz := q_y q * q_z q in
  let yw := q_y q * q_w q in
  let zz := q_z q * q_z q in
  let zw := q_z q * q_w q in
  msh_mat3 (s_one - s_two * (yy + zz)) (s_two * (xy + zw)) (s_two * (xz - yw))
           (s_two * (xy - zw)) (s_one - s_two * (xx + zz)) (s_two * (yz + xw))
           (s_two * (xz + yw)) (s_two * (yz - xw)) (s_one - s_two * (xx + yy)).

Definition msh_quat_to_mat4 (q : msh_quat_t F) : msh_mat4_t F :=
  msh_mat3_to_mat4 (msh_quat_to_mat3 q).
End QuatMatrix.
End MoreQuaternions.

(** ** The default build, continued *)

#[export] Instance literals_f32 : Literals f32 := {|
  s_two := S754_finite false 8388608 (-22)
|}.

(** IEEE-754 requires the square root to be correctly rounded, and
    Annex F of the C standard binds [sqrt] and [sqrtf] to it. *)
#[export] Instance sqrt_f32 : Sqrt f32 f64 := {|
  c_sqrtf := SFsqrt prec32 emax32;
  c_sqrt := SFsqrt prec64 emax64
|}.

(** ** Vocabulary of the further properties *)

Definition vec2_all {F : Type} (P : F -> Prop) (v : msh_vec2_t F) : Prop :=
  P (v2_x v) /\ P (v2_y v).

Definition vec4_all {F : Type} (P : F -> Prop) (v : msh_vec4_t F) : Prop :=
  P (v4_x v) /\ P (v4_y v) /\ P (v4_z v) /\ P (v4_w v).

Definition vec2_rel {F : Type} (R : F -> F -> Prop) (a b : msh_vec2_t F) : Prop :=
  R (v2_x a) (v2_x b) /\ R (v2_y a) (v2_y b).

Definition vec4_rel {F : Type} (R : F -> F -> Prop) (a b : msh_vec4_t F) : Prop :=
  R (v4_x a) (v4_x b) /\ R (v4_y a) (v4_y b) /\ R (v4_z a) (v4_z b) /\
  R (v4_w a) (v4_w b).

Definition mat2_all {F : Type} (P : F -> Prop) (m : msh_mat2_t F) : Prop :=
  vec2_all P (m2_col0 m) /\ vec2_all P (m2_col1 m).

Definition mat3_all {F : Type} (P : F -> Prop) (m : msh_mat3_t F) : Prop :=
  vec3_all P (m3_col0 m) /\ vec3_all P (m3_col1 m) /\ vec3_all P (m3_col2 m).

Definition mat4_all {F : Type} (P : F -> Prop) (m : msh_mat4_t F) : Prop :=
  vec4_all P (m4_col0 m) /\ vec4_all P (m4_col1 m) /\
  vec4_all P (m4_col2 m) /\ vec4_all P (m4_col3 m).

Definition mat2_rel {F : Type} (R : F -> F -> Prop) (a b : msh_mat2_t F) : Prop :=
  vec2_rel R (m2_col0 a) (m2_col0 b) /\ vec2_rel R (m2_col1 a) (m2_col1 b).

Definition mat3_rel {F : Type} (R : F -> F -> Prop) (a b : msh_mat3_t F) : Prop :=
  vec3_rel R (m3_col0 a) (m3_col0 b) /\ vec3_rel R (m3_col1 a) (m3_col1 b) /\
  vec3_rel R (m3_col2 a) (m3_col2 b).

Definition mat4_rel {F : Type} (R : F -> F -> Prop) (a b : msh_mat4_t F) : Prop :=
  vec4_rel R (m4_col0 a) (m4_col0 b) /\ vec4_rel R (m4_col1 a) (m4_col1 b) /\
  vec4_rel R (m4_col2 a) (m4_col2 b) /\ vec4_rel R (m4_col3 a) (m4_col3 b).

(** Infinite or NaN. *)
Definition nonfinite (x : spec_float) : Prop := is_finite x = false.

(** +0 or NaN. *)
Definition zero_or_nan (x : spec_float) : Prop :=
  x = S754_zero false \/ x = S754_nan.

Definition not_nan (x : spec_float) : Prop := is_nan x = false.

Definition finite (x : spec_float) : Prop := is_finite x = true.

(** Inputs of further examples: a singular 2x2 matrix and a matrix built
    from small integers. *)
Definition example_singular : msh_mat2_t f32 :=
  msh_mat2 (f32_of_Z 1) (f32_of_Z 2) (f32_of_Z 2) (f32_of_Z 4).

Definition is_zero_value (x : spec_float) : Prop := is_zero x = true.

(** [lo <= r <= hi] with the comparisons of C; false as soon as one of
    the three is NaN. *)
Definition between (lo hi r : f32) : Prop :=
  SFleb lo r = true /\ SFleb r hi = true.

(* ====================================================================== *)
(** * Exact arithmetic *)
(* ====================================================================== *)

(** The formulas of the header (cofactor expansions, inverses, the
    quaternion product, the projection matrices) are meant to compute the
    algebraic operations they are named after.  Whether they do is a
    question about the formulas, not about rounding: it is settled by
    running the same functions over the rationals, the second instance of
    the scalar interface.  Division by zero is [0] there; the statements
    that divide assume the divisor is not zero. *)

From Stdlib Require QArith Qcanon Field.

Section ExactScalar.
Import QArith Qcanon.

Definition Qc_of_Z (i : Z) : Qc := Q2Qc (inject_Z i).

Definition scalar_Qc : Scalar Qc := {|
  s_zero := Qc_of_Z 0;
  s_one := Qc_of_Z 1;
  s_of_int32 := Qc_of_Z;
  s_add := Qcplus;
  s_sub := Qcminus;
  s_mul := Qcmult;
  s_div := Qcdiv;
  s_neg := Qcopp;
  s_eqb := Qc_eq_bool;
  s_gtb := fun x y => if Qclt_le_dec y x then true else false;
  s_leb := fun x y => if Qclt_le_dec y x then false else true
|}.

Definition literals_Qc : Literals Qc := {|
  s_two := Qc_of_Z 2
|}.

(** Inputs of the examples in exact arithmetic. *)
Definition exact_vec4 (a b c d : Z) : msh_vec4_t Qc :=
  msh_vec4 (Qc_of_Z a) (Qc_of_Z b) (Qc_of_Z c) (Qc_of_Z d).

Definition exact_mat4 : msh_mat4_t Qc :=
  mat4_of_cols (exact_vec4 2 1 0 3) (exact_vec4 1 5 2 1)
               (exact_vec4 7 0 1 4) (exact_vec4 1 2 3 9).

Definition exact_quat_i : msh_quat_t Qc :=
  msh_quat (Qc_of_Z 1) (Qc_of_Z 0) (Qc_of_Z 0) (Qc_of_Z 0).

Definition exact_quat_j : msh_quat_t Qc :=
  msh_quat (Qc_of_Z 0) (Qc_of_Z 1) (Qc_of_Z 0) (Qc_of_Z 0).
End ExactScalar.

#[global] Existing Instance scalar_Qc.
#[global] Existing Instance literals_Qc.

(** The diagonal matrix [msh_scale] multiplies by and the matrix
    [msh_translate] multiplies by. *)
Definition scaling {F : Type} {SF : Scalar F} (s : msh_vec3_t F) : msh_mat4_t F :=
  msh_mat4 (v3_x s) s_zero s_zero s_zero
           s_zero (v3_y s) s_zero s_zero
           s_zero s_zero (v3_z s) s_zero
           s_zero s_zero s_zero s_one.

Definition translating {F : Type} {SF : Scalar F} (t : msh_vec3_t F) : msh_mat4_t F :=
  with_translation msh_mat4_identity t.

(** The unit quaternions. *)
Definition unit_quat {F : Type} {SF : Scalar F} (q : msh_quat_t F) : Prop :=
  msh_quat_norm_sq q = s_one.
(* ====================================================================== *)
(** * Properties that hold for every scalar type *)
(* ====================================================================== *)

Unset Implicit Arguments.

Section Structural.
Context {F : Type} {SF : Scalar F}.
Local Open Scope scalar_scope.

(** One more [result = result && c] after a chain that computed [b]. *)
Lemma c_and_chain (b c : bool) : c_and (c_bool b) c = c_bool (b && c).
Proof.
  destruct b, c; reflexivity.
Qed.

(** The three [msh_matN_equal] return 1 when every pair of entries
    compares equal with [==] and 0 otherwise. *)
Lemma msh_mat2_equal_each (a b : msh_mat2_t F) :
  msh_mat2_equal a b = c_bool (mat2_all2 s_eqb a b).
Proof.
  unfold msh_mat2_equal, mat2_all2.
  change 1%Z with (c_bool true).
  now rewrite !c_and_chain.
Qed.

Lemma msh_mat3_equal_each (a b : msh_mat3_t F) :
  msh_mat3_equal a b = c_bool (mat3_all2 s_eqb a b).
Proof.
  unfold msh_mat3_equal, mat3_all2.
  change 1%Z with (c_bool true).
  now rewrite !c_and_chain.
Qed.

Lemma msh_mat4_equal_each (a b : msh_mat4_t F) :
  msh_mat4_equal a b = c_bool (mat4_all2 s_eqb a b).
Proof.
  unfold msh_mat4_equal, mat4_all2.
  change 1%Z with (c_bool true).
  now rewrite !c_and_chain.
Qed.

(** Whatever [q] is, the scalar member of [msh_quat_inverse q] is the
    product of the literal zero with the reciprocal of the squared norm:
    [q.w] does not reach it. *)
Lemma msh_quat_inverse_w (q : msh_quat_t F) :
  q_w (msh_quat_inverse q) = s_zero * (s_one / msh_quat_norm_sq q).
Proof.
  reflexivity.
Qed.

Lemma msh_quat_inverse_im (q : msh_quat_t F) :
  q_im (msh_quat_inverse q) =
  msh_vec3_scalar_mul (q_im (msh_quat_conjugate q)) (s_one / msh_quat_norm_sq q).
Proof.
  reflexivity.
Qed.

(** Whatever the flag is, each row of [msh_mat4_vec3_mul] is the row of
    the 3x3 product plus the flag, converted to float, times the
    translation entry. *)
Lemma msh_mat4_vec3_mul_rows (m : msh_mat4_t F) (v : msh_vec3_t F) (is_point : Z) :
  msh_mat4_vec3_mul m v is_point =
  msh_vec3_add (msh_mat3_vec3_mul (msh_mat4_to_mat3 m) v)
               (msh_vec3 (s_of_int32 is_point * m4_12 m)
                         (s_of_int32 is_point * m4_13 m)
                         (s_of_int32 is_point * m4_14 m)).
Proof.
  reflexivity.
Qed.

(** C5.  Transposing twice gives back the matrix, entry for entry, for
    the 2x2, 3x3 and 4x4 matrices. *)
Theorem transpose_involutive :
  (forall A : msh_mat2_t F, msh_mat2_transpose (msh_mat2_transpose A) = A) /\
  (forall A : msh_mat3_t F, msh_mat3_transpose (msh_mat3_transpose A) = A) /\
  (forall A : msh_mat4_t F, msh_mat4_transpose (msh_mat4_transpose A) = A).
Proof.
  repeat split; intros []; reflexivity.
Qed.

(** C7.  [msh_vecN_dot] and [msh_vecN_inner_product] return the same
    value on every pair of vectors, in dimensions 2, 3 and 4. *)
Theorem dot_is_inner_product :
  (forall a b : msh_vec2_t F, msh_vec2_dot a b = msh_vec2_inner_product a b) /\
  (forall a b : msh_vec3_t F, msh_vec3_dot a b = msh_vec3_inner_product a b) /\
  (forall a b : msh_vec4_t F, msh_vec4_dot a b = msh_vec4_inner_product a b).
Proof.
  repeat split.
Qed.

(** C10.  [msh_quat_scalar_add] and [msh_quat_scalar_sub] leave the
    imaginary part (x, y, z) as it is and add [s] to, or subtract it from,
    the real member w only; the vector [scalar_add] and [scalar_sub] apply
    [s] to every member. *)
Theorem quat_scalar_add_sub_frame (q : msh_quat_t F) (s : F) :
  (q_im (msh_quat_scalar_add q s) = q_im q /\
   q_w (msh_quat_scalar_add q s) = q_w q + s) /\
  (q_im (msh_quat_scalar_sub q s) = q_im q /\
   q_w (msh_quat_scalar_sub q s) = q_w q - s) /\
  (forall v : msh_vec2_t F,
     msh_vec2_scalar_add v s = msh_vec2 (v2_x v + s) (v2_y v + s) /\
     msh_vec2_scalar_sub v s = msh_vec2 (v2_x v - s) (v2_y v - s)) /\
  (forall v : msh_vec3_t F,
     msh_vec3_scalar_add v s = msh_vec3 (v3_x v + s) (v3_y v + s) (v3_z v + s) /\
     msh_vec3_scalar_sub v s = msh_vec3 (v3_x v - s) (v3_y v - s) (v3_z v - s)) /\
  (forall v : msh_vec4_t F,
     msh_vec4_scalar_add v s =
       msh_vec4 (v4_x v + s) (v4_y v + s) (v4_z v + s) (v4_w v + s) /\
     msh_vec4_scalar_sub v s =
       msh_vec4 (v4_x v - s) (v4_y v - s) (v4_z v - s) (v4_w v - s)).
Proof.
  destruct q as [x y z w]; cbn.
  repeat split.
Qed.

Section ClampNoOp.
Context {MM : MinMax F}.

(** C4.  With [min > max] the three clamp functions return their vector
    argument unchanged. *)
Theorem clamp_inverted_bounds (min max : F) :
  (min > max) = true ->
  (forall v : msh_vec2_t F, msh_vec2_clamp v min max = v) /\
  (forall v : msh_vec3_t F, msh_vec3_clamp v min max = v) /\
  (forall v : msh_vec4_t F, msh_vec4_clamp v min max = v).
Proof.
  intros Hgt.
  unfold msh_vec2_clamp, msh_vec3_clamp, msh_vec4_clamp.
  rewrite Hgt.
  repeat split.
Qed.
End ClampNoOp.

Section AxisAngle.
Context {D : Type} {SD : Scalar D} {CD : CDouble F D} {TR : Trig F D}.

(** C8.  The quaternion built from an axis and an angle has the axis
    scaled by the sine of the halved angle as imaginary part and the
    cosine of the halved angle as real part; the axis is used as given. *)
Theorem from_axis_angle_parts (axis : msh_vec3_t F) (angle : F) :
  let half := demote (promote angle * d_half) in
  q_im (msh_quat_from_axis_angle axis angle) =
    msh_vec3_scalar_mul axis (demote (c_sin (promote half))) /\
  q_re (msh_quat_from_axis_angle axis angle) = c_cosf half.
Proof.
  split; reflexivity.
Qed.
End AxisAngle.
End Structural.

(* ====================================================================== *)
(** * Facts of IEEE-754 arithmetic used below *)
(* ====================================================================== *)

Section Rounding.
Variables prec emax : Z.
Local Open Scope Z_scope.

(** Appending [k] zero bits to a mantissa adds [k] to its number of digits. *)
Lemma digits2_pos_shift (k m : positive) :
  Zpos (digits2_pos (Pos.iter xO m k)) = Zpos (digits2_pos m) + Zpos k.
Proof.
  induction k as [| k IH] using Pos.peano_ind.
  - cbn [Pos.iter digits2_pos]. lia.
  - rewrite Pos.iter_succ. cbn [digits2_pos]. lia.
Qed.

(** Shifting those [k] bits out again loses nothing. *)
Lemma shr_shift_exact (k m : positive) :
  iter_pos shr_1 k
    {| shr_m := Zpos (Pos.iter xO m k); shr_r := false; shr_s := false |} =
  {| shr_m := Zpos m; shr_r := false; shr_s := false |}.
Proof.
  revert m.
  induction k as [k IH | k IH |]; intros m; cbn [iter_pos Pos.iter].
  - cbn [shr_1 orb]. now rewrite !IH.
  - now rewrite !IH.
  - reflexivity.
Qed.

(** Rounding a canonical mantissa that was shifted left by [k] bits, with
    the exponent lowered by [k], gives the canonical pair back. *)
Lemma round_shifted (s : bool) (m : positive) (e : Z) (k : positive) :
  bounded prec emax m e = true ->
  binary_round_aux prec emax s (Zpos (Pos.iter xO m k)) (e - Zpos k) loc_Exact =
  S754_finite s m e.
Proof.
  unfold bounded, canonical_mantissa.
  intros Hb. apply andb_prop in Hb. destruct Hb as [Hc He].
  apply Z.eqb_eq in Hc.
  unfold binary_round_aux, shr_fexp.
  cbn [Zdigits2 shr_record_of_loc].
  rewrite digits2_pos_shift.
  replace (Zpos (digits2_pos m) + Zpos k + (e - Zpos k))
    with (Zpos (digits2_pos m) + e) by lia.
  rewrite Hc.
  replace (e - (e - Zpos k)) with (Zpos k) by lia.
  cbn [shr]. rewrite shr_shift_exact.
  cbn [shr_m loc_of_shr_record round_nearest_even Zdigits2 shr_record_of_loc].
  replace (e - Zpos k + Zpos k) with e by lia.
  rewrite Hc, Z.sub_diag. cbn [shr shr_m].
  now rewrite He.
Qed.

(** A canonical value is not changed by rounding. *)
Lemma round_canonical (s : bool) (m : positive) (e : Z) :
  bounded prec emax m e = true ->
  binary_round_aux prec emax s (Zpos m) e loc_Exact = S754_finite s m e.
Proof.
  unfold bounded, canonical_mantissa.
  intros Hb. apply andb_prop in Hb. destruct Hb as [Hc He].
  apply Z.eqb_eq in Hc.
  unfold binary_round_aux, shr_fexp.
  cbn [Zdigits2 shr_record_of_loc].
  rewrite Hc, Z.sub_diag. cbn [shr shr_m loc_of_shr_record round_nearest_even Zdigits2 shr_record_of_loc].
  rewrite Hc, Z.sub_diag. cbn [shr shr_m].
  now rewrite He.
Qed.
End Rounding.

Section IEEEFacts.
Local Open Scope Z_scope.

(** Multiplying by the mantissa of 1.0 appends zero bits. *)
Lemma mul_pow2_23 (m : positive) : (m * 8388608)%positive = Pos.iter xO m 23.
Proof.
  rewrite Pos.mul_comm. reflexivity.
Qed.

Lemma mul_pow2_52 (m : positive) :
  (m * 4503599627370496)%positive = Pos.iter xO m 52.
Proof.
  rewrite Pos.mul_comm. reflexivity.
Qed.

(** [x * 1.0f] is [x], for every well-formed [float] [x]. *)
Lemma f32_mul_one_r (x : f32) : valid32 x -> (x * s_one)%S = x.
Proof.
  destruct x as [s | s | | s m e]; intros Hv; cbn [s_mul s_one scalar_f32 SFmul].
  - now rewrite xorb_false_r.
  - now rewrite xorb_false_r.
  - reflexivity.
  - rewrite xorb_false_r, mul_pow2_23.
    change (e + -23) with (e - Zpos 23).
    now apply round_shifted.
Qed.

(** [1.0f * x] is [x]. *)
Lemma f32_mul_one_l (x : f32) : valid32 x -> (s_one * x)%S = x.
Proof.
  destruct x as [s | s | | s m e]; intros Hv; cbn [s_mul s_one scalar_f32 SFmul xorb];
    try reflexivity.
  rewrite Pos.mul_comm, mul_pow2_23, Z.add_comm.
  change (e + -23) with (e - Zpos 23).
  now apply round_shifted.
Qed.

(** [x * 1.0] is [x], for every well-formed [double] [x]. *)
Lemma f64_mul_one_r (x : f64) : valid64 x -> (x * s_one)%S = x.
Proof.
  destruct x as [s | s | | s m e]; intros Hv; cbn [s_mul s_one scalar_f64 SFmul].
  - now rewrite xorb_false_r.
  - now rewrite xorb_false_r.
  - reflexivity.
  - rewrite xorb_false_r, mul_pow2_52.
    change (e + -52) with (e - Zpos 52).
    now apply round_shifted.
Qed.

(** A finite value times a zero is a zero. *)
Lemma SFmul_zero_r (prec emax : Z) (x z : spec_float) :
  is_finite x = true -> is_zero z = true ->
  is_zero (SFmul prec emax x z) = true.
Proof.
  destruct x, z; cbn; congruence.
Qed.

Lemma SFmul_zero_l (prec emax : Z) (x z : spec_float) :
  is_finite x = true -> is_zero z = true ->
  is_zero (SFmul prec emax z x) = true.
Proof.
  destruct x, z; cbn; congruence.
Qed.

(** Adding a zero keeps the value, up to the sign of a zero sum. *)
Lemma SFadd_zero_r (prec emax : Z) (x z : spec_float) :
  is_zero z = true -> same_value (SFadd prec emax x z) x.
Proof.
  destruct z as [sz | | |]; try discriminate. intros _.
  destruct x as [s | s | | s m e]; cbn [SFadd].
  - right. destruct s, sz; split; reflexivity.
  - now left.
  - now left.
  - now left.
Qed.

Lemma SFadd_zero_l (prec emax : Z) (x z : spec_float) :
  is_zero z = true -> same_value (SFadd prec emax z x) x.
Proof.
  destruct z as [sz | | |]; try discriminate. intros _.
  destruct x as [s | s | | s m e]; cbn [SFadd].
  - right. destruct s, sz; split; reflexivity.
  - now left.
  - now left.
  - now left.
Qed.

(** A zero divided by a finite nonzero value is a zero. *)
Lemma SFdiv_zero_l (prec emax : Z) (z : spec_float) s m e :
  is_zero z = true -> is_zero (SFdiv prec emax z (S754_finite s m e)) = true.
Proof.
  destruct z; cbn; congruence.
Qed.

Lemma div_eucl_shifted (m : positive) (k : Z) :
  0 <= k -> Z.div_eucl (Z.shiftl (Zpos m) k) (Zpos m) = (2 ^ k, 0).
Proof.
  intros Hk.
  rewrite Z.shiftl_mul_pow2 by assumption.
  pose proof (Z.div_mod (Zpos m * 2 ^ k) (Zpos m) ltac:(lia)) as Hdm.
  unfold Z.div, Z.modulo in Hdm.
  pose proof (Z.div_mul (2 ^ k) (Zpos m) ltac:(lia)) as Hd.
  pose proof (Z.mod_mul (2 ^ k) (Zpos m) ltac:(lia)) as Hm.
  unfold Z.div, Z.modulo in Hd, Hm.
  rewrite (Z.mul_comm (Zpos m)).
  destruct (Z.div_eucl (2 ^ k * Zpos m) (Zpos m)) as [q r].
  now subst.
Qed.

(** A finite nonzero [double] divided by itself is 1.0. *)
Lemma f64_div_self (s : bool) (m : positive) (e : Z) :
  @s_div f64 _ (S754_finite s m e) (S754_finite s m e) = s_one.
Proof.
  cbn [s_div s_one scalar_f64 SFdiv].
  unfold SFdiv_core_binary.
  rewrite Z.sub_diag.
  replace (Zdigits2 (Zpos m) + e - (Zdigits2 (Zpos m) + e)) with 0 by lia.
  change (Z.min (fexp prec64 emax64 0) 0) with (-53).
  change (0 - -53) with 53.
  cbv beta iota zeta.
  change (IntDef.Z.div_eucl (IntDef.Z.shiftl (Zpos m) 53) (Zpos m))
    with (Z.div_eucl (Z.shiftl (Zpos m) 53) (Zpos m)).
  rewrite (div_eucl_shifted m 53) by lia.
  rewrite xorb_nilpotent.
  cbv beta iota.
  assert (Hloc : new_location (Zpos m) 0 = loc_Exact).
  { unfold new_location. destruct (IntDef.Z.even (Zpos m)); reflexivity. }
  rewrite Hloc.
  reflexivity.
Qed.
End IEEEFacts.

Section Conversions.
Local Open Scope Z_scope.

(** A well-formed finite [float] converts to a well-formed finite
    [double] of the same sign. *)
Lemma promote_finite (s : bool) (m : positive) (e : Z) :
  valid32 (S754_finite s m e) ->
  exists m' e', @promote f32 f64 _ (S754_finite s m e) = S754_finite s m' e' /\
                bounded prec64 emax64 m' e' = true.
Proof.
  unfold valid32. cbn [valid_binary]. unfold bounded, canonical_mantissa.
  intros Hb. apply andb_prop in Hb. destruct Hb as [Hc He].
  apply Z.eqb_eq in Hc. apply Z.leb_le in He.
  unfold fexp, emin, prec32, emax32 in Hc, He.
  cbn [promote cdouble_f32 convert]. unfold binary_round, shl_align.
  assert (Hx : fexp prec64 emax64 (Zpos (digits2_pos m) + e) =
               Zpos (digits2_pos m) + e - 53)
    by (unfold fexp, emin, prec64, emax64; lia).
  rewrite Hx.
  destruct (Zpos (digits2_pos m) + e - 53 - e) as [| p | p] eqn:Hd; try lia.
  assert (Hb' : bounded prec64 emax64 (Pos.iter xO m p)
                  (Zpos (digits2_pos m) + e - 53) = true).
  { unfold bounded, canonical_mantissa.
    rewrite digits2_pos_shift.
    apply andb_true_intro; split.
    - apply Z.eqb_eq. unfold fexp, emin, prec64, emax64. lia.
    - apply Z.leb_le. unfold prec64, emax64. lia. }
  exists (Pos.iter xO m p), (Zpos (digits2_pos m) + e - 53).
  split; [| exact Hb'].
  now apply round_canonical.
Qed.

Lemma promote_valid (x : f32) : valid32 x -> valid64 (promote x).
Proof.
  destruct x as [s | s | | s m e]; intros Hv; try reflexivity.
  destruct (promote_finite s m e Hv) as (m' & e' & -> & Hb).
  exact Hb.
Qed.
End Conversions.

Section Comparison.
Local Open Scope Z_scope.

(** [==] on IEEE values is [ieee_equal]. *)
Lemma SFeqb_ieee_equal (x y : spec_float) : SFeqb x y = ieee_equal x y.
Proof.
  unfold SFeqb, ieee_equal.
  destruct x as [s1 | s1 | | s1 m1 e1], y as [s2 | s2 | | s2 m2 e2];
    cbn; try reflexivity;
    try (destruct s1, s2; reflexivity);
    try (destruct s1; reflexivity);
    try (destruct s2; reflexivity).
  rewrite orb_false_r.
  change (Pos.compare_cont Eq m1 m2) with (Pos.compare m1 m2).
  destruct s1, s2; cbn [Bool.eqb andb]; try reflexivity;
    destruct (Z.eqb_spec e1 e2) as [He | He];
    destruct (Pos.eqb_spec m1 m2) as [Hm | Hm];
    repeat match goal with
           | H : _ = _ |- _ => subst
           end;
    rewrite ?Z.compare_refl, ?Pos.compare_refl; cbn [CompOpp andb];
    try reflexivity.
  all: try (destruct (Z.compare e1 e2) eqn:Hc; try reflexivity;
            apply Z.compare_eq_iff in Hc; contradiction).
  all: destruct (Pos.compare m1 m2) eqn:Hc; try reflexivity;
       apply Pos.compare_eq_iff in Hc; contradiction.
Qed.

(** Values that are the same up to the sign of zero compare equal,
    unless they are NaN. *)
Lemma same_value_eqb (x y : spec_float) :
  same_value x y -> is_nan y = false -> SFeqb x y = true.
Proof.
  rewrite SFeqb_ieee_equal. unfold ieee_equal.
  intros [-> | [Hx Hy]] Hn.
  - rewrite Hn. cbn [negb andb].
    destruct y as [s | s | | s m e]; cbn; try discriminate;
      rewrite ?eqb_reflx, ?Pos.eqb_refl, ?Z.eqb_refl; reflexivity.
  - destruct x, y; try discriminate. cbn. now rewrite orb_true_r.
Qed.
End Comparison.

(* ====================================================================== *)
(** * Properties of the default (binary32) build *)
(* ====================================================================== *)

Section Float32.
Local Open Scope Z_scope.

(** With the flag at 0 each row adds [0.0f * t] for a translation entry
    [t]; with the flag at 1 it adds [1.0f * t]. *)
Lemma flag_zero_term (t : f32) :
  is_finite t = true -> is_zero (s_of_int32 0 * t)%S = true.
Proof.
  intros Ht. apply (SFmul_zero_l prec32 emax32); [exact Ht | reflexivity].
Qed.

Lemma flag_one_term (t : f32) : valid32 t -> (s_of_int32 1 * t)%S = t.
Proof.
  intros Ht. change (@s_of_int32 f32 _ 1) with (@s_one f32 _).
  now apply f32_mul_one_l.
Qed.

(** C2, as amended.  With [is_point] 1 the result is exactly the product
    of the upper-left 3x3 block with [v] plus the translation column
    [m.data[12..14]], for every matrix (the entries of the column need only
    be well-formed [float] data, which infinities and NaN are).  With
    [is_point] 0 and a translation column whose entries are finite, every
    member of the result has the value of the corresponding member of
    the product of the upper-left 3x3 block with [v]: it is identical to
    it, except that a zero may come with the other sign. *)
Theorem mat4_vec3_mul_flag (m : msh_mat4_t f32) (v : msh_vec3_t f32) :
  (vec3_all valid32 (translation m) ->
   msh_mat4_vec3_mul m v 1 =
     msh_vec3_add (msh_mat3_vec3_mul (msh_mat4_to_mat3 m) v) (translation m)) /\
  (vec3_all finite (translation m) ->
   vec3_rel same_value (msh_mat4_vec3_mul m v 0)
                       (msh_mat3_vec3_mul (msh_mat4_to_mat3 m) v)).
Proof.
  destruct m; unfold vec3_all, finite, translation; cbn [v3_x v3_y v3_z].
  split.
  - intros (Vx & Vy & Vz).
    unfold msh_vec3_add, msh_mat4_vec3_mul, msh_mat3_vec3_mul, msh_mat4_to_mat3.
    cbn -[s_add s_mul s_of_int32].
    now rewrite !flag_one_term.
  - intros (Fx & Fy & Fz).
    unfold vec3_rel, msh_mat4_vec3_mul, msh_mat3_vec3_mul, msh_mat4_to_mat3.
    cbn -[s_add s_mul s_of_int32].
    repeat split; apply (SFadd_zero_r prec32 emax32); now apply flag_zero_term.
Qed.
End Float32.

Section Slerp.
Context (TR : Trig f32 f64).
Hypothesis Hlibm : libm_sane TR.
Local Open Scope Z_scope.

Lemma demote_zero (z : f64) : is_zero z = true -> is_zero (demote z : f32) = true.
Proof.
  destruct z; cbn; congruence.
Qed.

(** In the branch taken when [fabs(a) > 1e-6] the angle, as a double, is
    finite, nonzero and well formed. *)
Lemma slerp_angle (a : f32) :
  valid32 a -> (forall s, a <> S754_infinity s) ->
  (c_fabs (promote a) > d_1em6)%S = true ->
  is_finite (promote a : f64) = true /\ valid64 (promote a).
Proof.
  intros Hv Hni Hbr. split; [| now apply promote_valid].
  destruct a as [s | s | | s m e].
  - discriminate Hbr.
  - now elim (Hni s).
  - discriminate Hbr.
  - destruct (promote_finite s m e Hv) as (m' & e' & -> & _). reflexivity.
Qed.

(** The first quotient of the spherical branch, whose product
    [a * (1.0-t)] is computed in double: a zero when [1.0-t] is a zero,
    exactly 1.0f when it is 1. *)
Lemma slerp_weight_zero (a : f32) (z : f64) :
  valid32 a -> (forall s, a <> S754_infinity s) ->
  (c_fabs (promote a) > d_1em6)%S = true ->
  is_zero z = true ->
  is_zero (demote (c_sin (promote a * z) / c_sin (promote a))%S : f32) = true.
Proof.
  intros Hv Hni Hbr Hz.
  destruct Hlibm as (Hsin0 & Hsin & _).
  destruct (slerp_angle a Hv Hni Hbr) as [Hfin _].
  destruct (Hsin _ Hfin Hbr) as (s & m & e & ->).
  apply demote_zero, (SFdiv_zero_l prec64 emax64), Hsin0.
  now apply (SFmul_zero_r prec64 emax64).
Qed.

Lemma slerp_weight_one (a : f32) :
  valid32 a -> (forall s, a <> S754_infinity s) ->
  (c_fabs (promote a) > d_1em6)%S = true ->
  (demote (c_sin (promote a * s_one) / c_sin (promote a))%S : f32) = s_one.
Proof.
  intros Hv Hni Hbr.
  destruct Hlibm as (_ & Hsin & _).
  destruct (slerp_angle a Hv Hni Hbr) as [Hfin Hval].
  rewrite (f64_mul_one_r _ Hval).
  destruct (Hsin _ Hfin Hbr) as (s & m & e & ->).
  rewrite f64_div_self. reflexivity.
Qed.

(** The second quotient takes the sine of the [float] product [a * t]:
    of a zero at [t = 0], of [a] itself at [t = 1]. *)
Lemma slerp_angle_float (a : f32) :
  valid32 a -> (forall s, a <> S754_infinity s) ->
  (c_fabs (promote a) > d_1em6)%S = true ->
  is_finite a = true.
Proof.
  intros Hv Hni Hbr.
  destruct a as [s | s | | s m e]; try reflexivity.
  - now elim (Hni s).
  - discriminate Hbr.
Qed.

Lemma slerp_float_weight_zero (a : f32) :
  valid32 a -> (forall s, a <> S754_infinity s) ->
  (c_fabs (promote a) > d_1em6)%S = true ->
  is_zero (demote (c_sin (promote (a * s_zero)%S) / c_sin (promote a))%S : f32) = true.
Proof.
  intros Hv Hni Hbr.
  destruct Hlibm as (Hsin0 & Hsin & _).
  destruct (slerp_angle a Hv Hni Hbr) as [Hfin _].
  pose proof (slerp_angle_float a Hv Hni Hbr) as Hfa.
  destruct (Hsin _ Hfin Hbr) as (s & m & e & ->).
  apply demote_zero, (SFdiv_zero_l prec64 emax64), Hsin0.
  assert (Hz : is_zero (a * s_zero : f32)%S = true)
    by now apply (SFmul_zero_r prec32 emax32).
  destruct (a * s_zero : f32)%S; try discriminate Hz. reflexivity.
Qed.

Lemma slerp_float_weight_one (a : f32) :
  valid32 a -> (forall s, a <> S754_infinity s) ->
  (c_fabs (promote a) > d_1em6)%S = true ->
  (demote (c_sin (promote (a * s_one)%S) / c_sin (promote a))%S : f32) = s_one.
Proof.
  intros Hv Hni Hbr.
  destruct Hlibm as (_ & Hsin & _).
  destruct (slerp_angle a Hv Hni Hbr) as [Hfin Hval].
  rewrite (f32_mul_one_r a Hv).
  destruct (Hsin _ Hfin Hbr) as (s & m & e & ->).
  rewrite f64_div_self. reflexivity.
Qed.

(** A member of the result at [t = 0]: [x * 1.0f + y * z] for a zero [z];
    and at [t = 1]: [x * z + y * 1.0f]. *)
Lemma blend_first (x y z : f32) :
  regular32 x -> regular32 y -> is_zero z = true ->
  same_value (x * s_one + y * z)%S x.
Proof.
  intros [Vx _] [_ Fy] Hz.
  rewrite (f32_mul_one_r x Vx).
  apply (SFadd_zero_r prec32 emax32).
  now apply (SFmul_zero_r prec32 emax32).
Qed.

Lemma blend_second (x y z : f32) :
  regular32 x -> regular32 y -> is_zero z = true ->
  same_value (x * z + y * s_one)%S y.
Proof.
  intros [_ Fx] [Vy _] Hz.
  rewrite (f32_mul_one_r y Vy).
  apply (SFadd_zero_l prec32 emax32).
  now apply (SFmul_zero_r prec32 emax32).
Qed.

Lemma regular32_not_nan (x : f32) : regular32 x -> is_nan x = false.
Proof.
  intros [_ Hf]. destruct x; cbn in *; congruence.
Qed.

Lemma quat_same_eq (a b : msh_quat_t f32) :
  quat_rel same_value a b -> quat_all regular32 b -> quat_eq a b = true.
Proof.
  intros (Hx & Hy & Hz & Hw) (Rx & Ry & Rz & Rw).
  unfold quat_eq. cbn [s_eqb scalar_f32].
  rewrite !same_value_eqb; auto using regular32_not_nan.
Qed.

(** C3.  For quaternions [q] and [r] with finite members (the unit
    quaternions among them), in either branch of the function,
    [msh_quat_slerp q r 0] has the members of [q] and
    [msh_quat_slerp q r 1] has the members of [r]: each member is
    identical, except that a zero may come with the other sign, so the
    results compare equal to [q] and to [r] with [==]. *)
Theorem slerp_endpoints (q r : msh_quat_t f32) :
  quat_all regular32 q -> quat_all regular32 r ->
  (quat_rel same_value (msh_quat_slerp q r s_zero) q /\
   quat_eq (msh_quat_slerp q r s_zero) q = true) /\
  (quat_rel same_value (msh_quat_slerp q r s_one) r /\
   quat_eq (msh_quat_slerp q r s_one) r = true).
Proof.
  intros Hq Hr.
  assert (H0 : quat_rel same_value (msh_quat_slerp q r s_zero) q).
  { destruct Hq as (Qx & Qy & Qz & Qw), Hr as (Rx & Ry & Rz & Rw).
    unfold msh_quat_slerp.
    destruct (Hlibm) as (_ & _ & Hacos).
    destruct (Hacos (msh_quat_dot q r)) as [Hv Hni].
    destruct (c_fabs (promote (c_acosf (msh_quat_dot q r))) > d_1em6)%S eqn:Hbr.
    - change (s_one - promote (s_zero : f32))%S with (s_one : f64).
      rewrite (slerp_weight_one _ Hv Hni Hbr).
      pose proof (slerp_float_weight_zero _ Hv Hni Hbr) as Hz.
      unfold quat_rel, msh_quat_add, msh_quat_scalar_mul, quat_of_im_re,
        msh_vec3_scalar_mul, q_im, q_re.
      cbn [q_x q_y q_z q_w v3_x v3_y v3_z].
      repeat split; now apply blend_first.
    - unfold quat_rel, msh_quat_lerp. cbn [q_x q_y q_z q_w].
      change (s_one - s_zero : f32)%S with (s_one : f32).
      repeat split; now apply blend_first. }
  assert (H1 : quat_rel same_value (msh_quat_slerp q r s_one) r).
  { destruct Hq as (Qx & Qy & Qz & Qw), Hr as (Rx & Ry & Rz & Rw).
    unfold msh_quat_slerp.
    destruct (Hlibm) as (_ & _ & Hacos).
    destruct (Hacos (msh_quat_dot q r)) as [Hv Hni].
    destruct (c_fabs (promote (c_acosf (msh_quat_dot q r))) > d_1em6)%S eqn:Hbr.
    - rewrite (slerp_float_weight_one _ Hv Hni Hbr).
      change (promote (s_one : f32)) with (s_one : f64).
      pose proof (slerp_weight_zero _ (s_one - s_one)%S Hv Hni Hbr eq_refl) as Hz.
      unfold quat_rel, msh_quat_add, msh_quat_scalar_mul, quat_of_im_re,
        msh_vec3_scalar_mul, q_im, q_re.
      cbn [q_x q_y q_z q_w v3_x v3_y v3_z].
      repeat split; now apply blend_second.
    - unfold quat_rel, msh_quat_lerp. cbn [q_x q_y q_z q_w].
      change (s_one - s_one : f32)%S with (s_zero : f32).
      repeat split; now apply blend_second. }
  split; split;
    [exact H0 | now apply quat_same_eq | exact H1 | now apply quat_same_eq].
Qed.
End Slerp.

Section Examples.
Local Open Scope Z_scope.

(** The scalar member of [msh_quat_inverse q] is a zero or NaN in the
    default build, whatever [q] is. *)
Lemma msh_quat_inverse_w_f32 (q : msh_quat_t f32) :
  is_zero (q_w (msh_quat_inverse q)) = true \/
  is_nan (q_w (msh_quat_inverse q)) = true.
Proof.
  rewrite msh_quat_inverse_w.
  cbn [s_mul s_zero scalar_f32].
  destruct (s_one / msh_quat_norm_sq q)%S; cbn; auto.
Qed.

(** C1.  On the identity quaternion (0, 0, 0, 1), of squared norm 1,
    [msh_quat_inverse] returns (-0, -0, -0, 0): the scalar member is 0,
    where the conjugate divided by the squared norm has 1.  On
    (1, 2, 3, 4) the scalar member is 0 as well. *)
Theorem msh_quat_inverse_identity :
  msh_quat_norm_sq (msh_quat_identity : msh_quat_t f32) = s_one /\
  msh_quat_inverse (msh_quat_identity : msh_quat_t f32) =
    msh_quat f32_negzero f32_negzero f32_negzero s_zero /\
  quat_div_each (msh_quat_conjugate (msh_quat_identity : msh_quat_t f32))
                (msh_quat_norm_sq (msh_quat_identity : msh_quat_t f32)) =
    msh_quat f32_negzero f32_negzero f32_negzero s_one /\
  q_w (msh_quat_inverse example_quat) = s_zero.
Proof.
  repeat split.
Qed.

(** C2, as stated, fails.  With a translation column (inf, 5, 0) the
    x member of the result with [is_point = 0] is NaN, where the 3x3
    product has 1; and with [is_point = 2], a true flag, twice the
    translation is added. *)
Lemma mat4_vec3_mul_flag_counterexample :
  msh_mat3_vec3_mul (msh_mat4_to_mat3 example_shift_inf) example_vec3 =
    msh_vec3 (f32_of_Z 1) (f32_of_Z 2) (f32_of_Z 3) /\
  msh_mat4_vec3_mul example_shift_inf example_vec3 0 =
    msh_vec3 f32_nan (f32_of_Z 2) (f32_of_Z 3) /\
  msh_mat4_vec3_mul example_shift_inf example_vec3 0 <>
    msh_mat3_vec3_mul (msh_mat4_to_mat3 example_shift_inf) example_vec3 /\
  msh_mat4_vec3_mul example_shift example_vec3 2 =
    msh_vec3 (f32_of_Z 11) (f32_of_Z 14) (f32_of_Z 17) /\
  msh_vec3_add (msh_mat3_vec3_mul (msh_mat4_to_mat3 example_shift) example_vec3)
               (translation example_shift) =
    msh_vec3 (f32_of_Z 6) (f32_of_Z 8) (f32_of_Z 10) /\
  msh_mat4_vec3_mul example_shift example_vec3 2 <>
    msh_vec3_add (msh_mat3_vec3_mul (msh_mat4_to_mat3 example_shift) example_vec3)
                 (translation example_shift).
Proof.
  repeat split; vm_compute; discriminate.
Qed.

Lemma mat4_vec3_mul_flag_witness :
  vec3_all valid32 (translation example_shift) /\
  vec3_all finite (translation example_shift) /\
  msh_mat4_vec3_mul example_shift example_vec3 1 =
    msh_vec3_add (msh_mat3_vec3_mul (msh_mat4_to_mat3 example_shift) example_vec3)
                 (translation example_shift) /\
  vec3_rel same_value (msh_mat4_vec3_mul example_shift example_vec3 0)
                      (msh_mat3_vec3_mul (msh_mat4_to_mat3 example_shift) example_vec3) /\
  vec3_all valid32 (translation example_shift_inf) /\
  msh_mat4_vec3_mul example_shift_inf example_vec3 1 =
    msh_vec3_add (msh_mat3_vec3_mul (msh_mat4_to_mat3 example_shift_inf) example_vec3)
                 (translation example_shift_inf).
Proof.
  assert (V : vec3_all valid32 (translation example_shift))
    by (repeat split; reflexivity).
  assert (F : vec3_all finite (translation example_shift))
    by (repeat split; reflexivity).
  assert (Vi : vec3_all valid32 (translation example_shift_inf))
    by (repeat split; reflexivity).
  destruct (mat4_vec3_mul_flag example_shift example_vec3) as [H1 H0].
  split; [exact V |]. split; [exact F |]. split; [exact (H1 V) |].
  split; [exact (H0 F) |]. split; [exact Vi |].
  exact (proj1 (mat4_vec3_mul_flag example_shift_inf example_vec3) Vi).
Defined.

Lemma trig_quarter_turn_sane : libm_sane trig_quarter_turn.
Proof.
  repeat split.
  - intros x Hx. cbn [c_sin trig_quarter_turn]. now rewrite Hx.
  - intros [s | s | | s m e] Hf Hgt; try discriminate.
    now exists false, 9007199254740983%positive, (-53).
  - discriminate.
Qed.

Lemma slerp_endpoints_witness :
  libm_sane trig_quarter_turn /\
  quat_all regular32 (msh_quat_identity : msh_quat_t f32) /\
  quat_all regular32 example_unit_quat /\
  msh_quat_norm_sq (msh_quat_identity : msh_quat_t f32) = s_one /\
  msh_quat_norm_sq example_unit_quat = s_one /\
  (c_fabs (promote (c_acosf (Trig := trig_quarter_turn)
                      (msh_quat_dot msh_quat_identity example_unit_quat)))
     > d_1em6)%S = true /\
  quat_eq (msh_quat_slerp (TR := trig_quarter_turn)
             msh_quat_identity example_unit_quat s_zero)
          msh_quat_identity = true /\
  quat_eq (msh_quat_slerp (TR := trig_quarter_turn)
             msh_quat_identity example_unit_quat s_one)
          example_unit_quat = true.
Proof.
  assert (Hq : quat_all regular32 (msh_quat_identity : msh_quat_t f32))
    by (repeat split; reflexivity).
  assert (Hr : quat_all regular32 example_unit_quat) by (repeat split; reflexivity).
  pose proof (slerp_endpoints trig_quarter_turn trig_quarter_turn_sane
                msh_quat_identity example_unit_quat Hq Hr) as [[_ H0] [_ H1]].
  split; [exact trig_quarter_turn_sane |].
  split; [exact Hq |].
  split; [exact Hr |].
  split; [reflexivity |].
  split; [reflexivity |].
  split; [reflexivity |].
  split; [exact H0 | exact H1].
Defined.

Lemma clamp_inverted_bounds_witness :
  (f32_of_Z 1 > f32_of_Z 0)%S = true /\
  msh_vec2_clamp (msh_vec2 (f32_of_Z 5) (f32_of_Z (-2))) (f32_of_Z 1) (f32_of_Z 0) =
    msh_vec2 (f32_of_Z 5) (f32_of_Z (-2)) /\
  msh_vec3_clamp example_vec3 (f32_of_Z 1) (f32_of_Z 0) = example_vec3 /\
  msh_vec4_clamp (msh_vec4 (f32_of_Z 5) f32_nan f32_inf f32_negzero)
                 (f32_of_Z 1) (f32_of_Z 0) =
    msh_vec4 (f32_of_Z 5) f32_nan f32_inf f32_negzero.
Proof.
  assert (H : (f32_of_Z 1 > f32_of_Z 0)%S = true) by reflexivity.
  destruct (clamp_inverted_bounds (f32_of_Z 1) (f32_of_Z 0) H) as (H2 & H3 & H4).
  split; [exact H |].
  split; [apply H2 |].
  split; [apply H3 | apply H4].
Defined.

(** C6, as stated, fails.  A matrix of NaN entries is identical to itself
    and [msh_mat2_equal] returns 0 on it; the matrix of +0 entries and the
    matrix of -0 entries differ and [msh_mat2_equal] returns 1 on them. *)
Lemma mat_equal_not_bitwise :
  msh_mat2_equal (mat2_fill f32_nan) (mat2_fill f32_nan) = 0 /\
  msh_mat2_equal (mat2_fill (s_zero : f32)) (mat2_fill f32_negzero) = 1 /\
  mat2_fill (s_zero : f32) <> mat2_fill f32_negzero.
Proof.
  repeat split. discriminate.
Qed.

(** C6, as amended.  [msh_matN_equal a b] is 1 exactly when every pair of
    corresponding entries compares equal in the IEEE sense (neither entry
    is NaN, and the two are identical or are both zeros) and 0 otherwise,
    for the 2x2, 3x3 and 4x4 matrices. *)
Theorem mat_equal_ieee :
  (forall a b : msh_mat2_t f32,
     msh_mat2_equal a b = c_bool (mat2_all2 ieee_equal a b)) /\
  (forall a b : msh_mat3_t f32,
     msh_mat3_equal a b = c_bool (mat3_all2 ieee_equal a b)) /\
  (forall a b : msh_mat4_t f32,
     msh_mat4_equal a b = c_bool (mat4_all2 ieee_equal a b)).
Proof.
  repeat split; intros a b.
  - rewrite msh_mat2_equal_each. unfold mat2_all2. cbn [s_eqb scalar_f32].
    now rewrite !SFeqb_ieee_equal.
  - rewrite msh_mat3_equal_each. unfold mat3_all2. cbn [s_eqb scalar_f32].
    now rewrite !SFeqb_ieee_equal.
  - rewrite msh_mat4_equal_each. unfold mat4_all2. cbn [s_eqb scalar_f32].
    now rewrite !SFeqb_ieee_equal.
Qed.

(** The vector comparison accepts components that differ by
    [FLT_EPSILON], which [==] does not; on infinite components it is the
    vector comparison that answers 0 and [==] that answers 1. *)
Example vec2_equal_tolerance :
  msh_vec2_equal (msh_vec2 (s_zero : f32) s_zero) (msh_vec2 flt_epsilon s_zero) = 1 /\
  msh_mat2_equal (mat2_fill (s_zero : f32)) (mat2_fill flt_epsilon) = 0 /\
  msh_vec2_equal (msh_vec2 f32_inf f32_inf) (msh_vec2 f32_inf f32_inf) = 0 /\
  msh_mat2_equal (mat2_fill f32_inf) (mat2_fill f32_inf) = 1.
Proof.
  repeat split.
Qed.

(** C9.  The determinant of the matrix stored as {2, 0, 0, 3} is exactly
    6, in the default build and in the double build. *)
Theorem mat2_determinant_example :
  msh_mat2_determinant example_mat2 = f32_of_Z 6 /\
  msh_mat2_determinant example_mat2_double = f64_of_Z 6.
Proof.
  split; reflexivity.
Qed.
End Examples.

(* ====================================================================== *)
(** * More facts of IEEE-754 arithmetic *)
(* ====================================================================== *)

Section IEEEAlgebra.
Variables prec emax : Z.
Local Open Scope Z_scope.

Lemma SFmul_comm (x y : spec_float) : SFmul prec emax x y = SFmul prec emax y x.
Proof.
  destruct x as [sx | sx | | sx mx ex], y as [sy | sy | | sy my ey];
    cbn [SFmul]; rewrite ?(xorb_comm sx sy); try reflexivity.
  now rewrite (Pos.mul_comm mx my), (Z.add_comm ex ey).
Qed.

Lemma SFadd_comm (x y : spec_float) : SFadd prec emax x y = SFadd prec emax y x.
Proof.
  destruct x as [sx | sx | | sx mx ex], y as [sy | sy | | sy my ey];
    cbn [SFadd]; try reflexivity;
    try (destruct sx, sy; reflexivity).
  rewrite (Z.min_comm ey ex).
  now rewrite Z.add_comm.
Qed.

Lemma SFopp_involutive (x : spec_float) : SFopp (SFopp x) = x.
Proof.
  destruct x; cbn; now rewrite ?negb_involutive.
Qed.

(** Subtraction is addition of the opposite. *)
Lemma SFsub_add_opp (x y : spec_float) :
  SFsub prec emax x y = SFadd prec emax x (SFopp y).
Proof.
  destruct x as [sx | sx | | sx mx ex], y as [sy | sy | | sy my ey];
    cbn [SFsub SFadd SFopp]; try reflexivity;
    destruct sx, sy; reflexivity.
Qed.

(** The sign given to the rounding function only ends up in the result. *)
Lemma binary_round_aux_opp (s : bool) (m e : Z) (l : location) :
  SFopp (binary_round_aux prec emax s m e l) =
  binary_round_aux prec emax (negb s) m e l.
Proof.
  unfold binary_round_aux.
  destruct (shr_fexp prec emax m e l) as [mrs e'].
  destruct (shr_fexp prec emax _ e' loc_Exact) as [mrs' e''].
  destruct (shr_m mrs'); try reflexivity.
  destruct (e'' <=? emax - prec); reflexivity.
Qed.

Lemma binary_round_opp (s : bool) (m : positive) (e : Z) :
  SFopp (binary_round prec emax s m e) = binary_round prec emax (negb s) m e.
Proof.
  unfold binary_round.
  destruct (shl_align m e _) as [mz ez].
  apply binary_round_aux_opp.
Qed.

Lemma binary_normalize_opp (z e : Z) :
  z <> 0 ->
  SFopp (binary_normalize prec emax z e false) =
  binary_normalize prec emax (- z) e false.
Proof.
  destruct z as [| p | p]; intros Hz; [easy | |]; cbn [binary_normalize Z.opp];
    apply binary_round_opp.
Qed.

Lemma SFmul_opp_l (x y : spec_float) :
  SFmul prec emax (SFopp x) y = SFopp (SFmul prec emax x y).
Proof.
  destruct x as [sx | sx | | sx mx ex], y as [sy | sy | | sy my ey];
    cbn [SFmul SFopp]; rewrite ?negb_xorb_l; try reflexivity.
  now rewrite binary_round_aux_opp, negb_xorb_l.
Qed.

Lemma SFmul_opp_r (x y : spec_float) :
  SFmul prec emax x (SFopp y) = SFopp (SFmul prec emax x y).
Proof.
  now rewrite SFmul_comm, SFmul_opp_l, SFmul_comm.
Qed.

Lemma SFmul_opp_opp (x y : spec_float) :
  SFmul prec emax (SFopp x) (SFopp y) = SFmul prec emax x y.
Proof.
  now rewrite SFmul_opp_l, SFmul_opp_r, SFopp_involutive.
Qed.

(** [x - x] and [x + (-x)] are +0 for every finite [x]. *)
Lemma SFsub_diag (x : spec_float) :
  is_finite x = true -> SFsub prec emax x x = S754_zero false.
Proof.
  destruct x as [s | s | | s m e]; try discriminate; intros _; cbn [SFsub].
  - destruct s; reflexivity.
  - now rewrite Z.sub_diag.
Qed.

Lemma SFadd_opp_diag (x : spec_float) :
  is_finite x = true -> SFadd prec emax x (SFopp x) = S754_zero false.
Proof.
  intros Hx. rewrite <- SFsub_add_opp. now apply SFsub_diag.
Qed.

(** On a value that is not finite, [x - x] is NaN. *)
Lemma SFsub_diag_nan (x : spec_float) :
  is_finite x = false -> SFsub prec emax x x = S754_nan.
Proof.
  destruct x as [s | s | | s m e]; try discriminate; intros _; cbn [SFsub];
    try reflexivity.
  destruct s; reflexivity.
Qed.

(** Swapping the operands of a subtraction negates the result, up to
    the sign of a zero difference. *)
Lemma SFsub_swap (x y : spec_float) :
  same_value (SFsub prec emax y x) (SFopp (SFsub prec emax x y)).
Proof.
  destruct x as [sx | sx | | sx mx ex], y as [sy | sy | | sy my ey];
    cbn [SFsub SFopp];
    try (left; reflexivity);
    try (destruct sx, sy; cbn; (left; reflexivity) || (right; split; reflexivity)).
  rewrite (Z.min_comm ey ex).
  set (a := cond_Zopp sx _). set (b := cond_Zopp sy _).
  destruct (Z.eq_dec (a - b) 0) as [H0 | Hn].
  - replace (b - a) with 0 by lia. rewrite H0. right. split; reflexivity.
  - left. rewrite binary_normalize_opp by assumption. f_equal. lia.
Qed.

(** Anything times an infinity, and anything finite and nonzero divided
    by a zero, is not finite. *)
Lemma SFmul_inf_r (x : spec_float) (s : bool) :
  is_finite (SFmul prec emax x (S754_infinity s)) = false.
Proof.
  destruct x; reflexivity.
Qed.

Lemma SFmul_inf_l (x : spec_float) (s : bool) :
  is_finite (SFmul prec emax (S754_infinity s) x) = false.
Proof.
  destruct x; reflexivity.
Qed.

Lemma SFmul_nan_r (x : spec_float) : SFmul prec emax x S754_nan = S754_nan.
Proof.
  destruct x; reflexivity.
Qed.

Lemma SFmul_nan_l (x : spec_float) : SFmul prec emax S754_nan x = S754_nan.
Proof.
  reflexivity.
Qed.

Lemma SFadd_zero_zero (z1 z2 : spec_float) :
  is_zero z1 = true -> is_zero z2 = true ->
  is_zero (SFadd prec emax z1 z2) = true.
Proof.
  destruct z1 as [[] | | |], z2 as [[] | | |]; cbn; congruence.
Qed.

Lemma SFsub_zero_zero (z1 z2 : spec_float) :
  is_zero z1 = true -> is_zero z2 = true ->
  is_zero (SFsub prec emax z1 z2) = true.
Proof.
  destruct z1 as [[] | | |], z2 as [[] | | |]; cbn; congruence.
Qed.

Lemma SFmul_zero_zero (z1 z2 : spec_float) :
  is_zero z1 = true -> is_zero z2 = true ->
  is_zero (SFmul prec emax z1 z2) = true.
Proof.
  destruct z1, z2; cbn; congruence.
Qed.
End IEEEAlgebra.

Section SameValue.
Variables prec emax : Z.

Lemma same_value_refl (x : spec_float) : same_value x x.
Proof.
  now left.
Qed.

Lemma same_value_sym (x y : spec_float) : same_value x y -> same_value y x.
Proof.
  intros [-> | [Hx Hy]]; [now left | now right].
Qed.

Lemma same_value_trans (x y z : spec_float) :
  same_value x y -> same_value y z -> same_value x z.
Proof.
  intros [-> | [Hx Hy]] [-> | [Hy' Hz]]; try (now left); try (now right).
Qed.

Lemma same_value_zero (x y : spec_float) :
  is_zero x = true -> is_zero y = true -> same_value x y.
Proof.
  now right.
Qed.

Lemma same_value_is_zero (x y : spec_float) :
  same_value x y -> is_zero y = true -> is_zero x = true.
Proof.
  now intros [-> | [Hx Hy]].
Qed.

(** Adding or subtracting a zero keeps the value. *)
Lemma same_value_add_zero_r (x y z : spec_float) :
  same_value y x -> is_zero z = true -> same_value (SFadd prec emax y z) x.
Proof.
  intros [-> | [Hy Hx]] Hz.
  - now apply SFadd_zero_r.
  - right. split; [now apply SFadd_zero_zero | assumption].
Qed.

Lemma same_value_add_zero_l (x y z : spec_float) :
  same_value y x -> is_zero z = true -> same_value (SFadd prec emax z y) x.
Proof.
  intros H Hz. rewrite SFadd_comm. now apply same_value_add_zero_r.
Qed.

Lemma same_value_sub_zero_r (x y z : spec_float) :
  same_value y x -> is_zero z = true -> same_value (SFsub prec emax y z) x.
Proof.
  intros H Hz. rewrite SFsub_add_opp.
  apply same_value_add_zero_r; [assumption |].
  destruct z; try discriminate. reflexivity.
Qed.

Lemma same_value_opp (x y : spec_float) :
  same_value x y -> same_value (SFopp x) (SFopp y).
Proof.
  intros [-> | [Hx Hy]]; [now left |].
  right. destruct x, y; try discriminate. now split.
Qed.
End SameValue.

(* ====================================================================== *)
(** * Further properties, for every scalar type *)
(* ====================================================================== *)

Section MoreStructural.
Context {F : Type} {SF : Scalar F}.
Local Open Scope scalar_scope.

(** Two records with the same members are equal. *)
Lemma vec2_ext (a b : msh_vec2_t F) :
  v2_x a = v2_x b -> v2_y a = v2_y b -> a = b.
Proof.
  destruct a, b; cbn; now intros -> ->.
Qed.

Lemma vec3_ext (a b : msh_vec3_t F) :
  v3_x a = v3_x b -> v3_y a = v3_y b -> v3_z a = v3_z b -> a = b.
Proof.
  destruct a, b; cbn; now intros -> -> ->.
Qed.

Lemma vec4_ext (a b : msh_vec4_t F) :
  v4_x a = v4_x b -> v4_y a = v4_y b -> v4_z a = v4_z b -> v4_w a = v4_w b ->
  a = b.
Proof.
  destruct a, b; cbn; now intros -> -> -> ->.
Qed.

Lemma quat_ext (a b : msh_quat_t F) :
  q_x a = q_x b -> q_y a = q_y b -> q_z a = q_z b -> q_w a = q_w b -> a = b.
Proof.
  destruct a, b; cbn; now intros -> -> -> ->.
Qed.

Lemma mat2_ext (a b : msh_mat2_t F) :
  m2_0 a = m2_0 b -> m2_1 a = m2_1 b -> m2_2 a = m2_2 b -> m2_3 a = m2_3 b ->
  a = b.
Proof.
  destruct a, b; cbn; now intros -> -> -> ->.
Qed.

Lemma mat3_ext (a b : msh_mat3_t F) :
  m3_0 a = m3_0 b -> m3_1 a = m3_1 b -> m3_2 a = m3_2 b ->
  m3_3 a = m3_3 b -> m3_4 a = m3_4 b -> m3_5 a = m3_5 b ->
  m3_6 a = m3_6 b -> m3_7 a = m3_7 b -> m3_8 a = m3_8 b -> a = b.
Proof.
  destruct a, b; cbn; now intros -> -> -> -> -> -> -> -> ->.
Qed.

Lemma mat4_ext (a b : msh_mat4_t F) :
  m4_0 a = m4_0 b -> m4_1 a = m4_1 b -> m4_2 a = m4_2 b -> m4_3 a = m4_3 b ->
  m4_4 a = m4_4 b -> m4_5 a = m4_5 b -> m4_6 a = m4_6 b -> m4_7 a = m4_7 b ->
  m4_8 a = m4_8 b -> m4_9 a = m4_9 b -> m4_10 a = m4_10 b -> m4_11 a = m4_11 b ->
  m4_12 a = m4_12 b -> m4_13 a = m4_13 b -> m4_14 a = m4_14 b -> m4_15 a = m4_15 b ->
  a = b.
Proof.
  destruct a, b; cbn.
  now intros -> -> -> -> -> -> -> -> -> -> -> -> -> -> -> ->.
Qed.

(** X1.  Widening a vector (with zeros or with given members) and
    narrowing it again gives the vector back, and narrowing in two steps
    is narrowing in one.  Embedding a matrix in a larger one (padding
    with the identity) and cutting the upper-left block out again gives
    the matrix back; the embeddings and the cuts compose; embedding
    commutes with transposing and sends the identity to the identity. *)
Theorem conversions_round_trip :
  (forall v : msh_vec2_t F, msh_vec3_to_vec2 (msh_vec2_to_vec3 v) = v) /\
  (forall (v : msh_vec2_t F) s, msh_vec3_to_vec2 (msh_vec2_scalar_to_vec3 v s) = v) /\
  (forall v : msh_vec2_t F, msh_vec4_to_vec2 (msh_vec2_to_vec4 v) = v) /\
  (forall (v : msh_vec2_t F) s0 s1,
     msh_vec4_to_vec2 (msh_vec2_scalar_to_vec4 v s0 s1) = v) /\
  (forall v : msh_vec3_t F, msh_vec4_to_vec3 (msh_vec3_to_vec4 v) = v) /\
  (forall (v : msh_vec3_t F) s, msh_vec4_to_vec3 (msh_vec3_scalar_to_vec4 v s) = v) /\
  (forall v : msh_vec4_t F, msh_vec3_to_vec2 (msh_vec4_to_vec3 v) = msh_vec4_to_vec2 v) /\
  (forall m : msh_mat2_t F, msh_mat3_to_mat2 (msh_mat2_to_mat3 m) = m) /\
  (forall m : msh_mat2_t F, msh_mat4_to_mat2 (msh_mat2_to_mat4 m) = m) /\
  (forall m : msh_mat3_t F, msh_mat4_to_mat3 (msh_mat3_to_mat4 m) = m) /\
  (forall m : msh_mat4_t F, msh_mat3_to_mat2 (msh_mat4_to_mat3 m) = msh_mat4_to_mat2 m) /\
  (forall m : msh_mat2_t F, msh_mat3_to_mat4 (msh_mat2_to_mat3 m) = msh_mat2_to_mat4 m) /\
  (forall m : msh_mat3_t F,
     msh_mat4_transpose (msh_mat3_to_mat4 m) = msh_mat3_to_mat4 (msh_mat3_transpose m)) /\
  (forall m : msh_mat2_t F,
     msh_mat3_transpose (msh_mat2_to_mat3 m) = msh_mat2_to_mat3 (msh_mat2_transpose m)) /\
  msh_mat3_to_mat4 msh_mat3_identity = msh_mat4_identity /\
  msh_mat2_to_mat3 msh_mat2_identity = msh_mat3_identity.
Proof.
  repeat split; intros []; reflexivity.
Qed.
End MoreStructural.

(* ====================================================================== *)
(** * Further properties of the default (binary32) build *)
(* ====================================================================== *)


Lemma f32_mul_comm (x y : f32) : (x * y)%S = (y * x)%S.
Proof.
  apply SFmul_comm.
Qed.

Lemma f32_add_comm (x y : f32) : (x + y)%S = (y + x)%S.
Proof.
  apply SFadd_comm.
Qed.

Ltac split_all := repeat match goal with |- _ /\ _ => split end.

Lemma f32_add_cong (a a' b b' : f32) : a = a' -> b = b' -> (a + b)%S = (a' + b')%S.
Proof.
  now intros -> ->.
Qed.

Lemma f32_sub_cong (a a' b b' : f32) : a = a' -> b = b' -> (a - b)%S = (a' - b')%S.
Proof.
  now intros -> ->.
Qed.

(** Equal sums of products, up to the order of the factors. *)
Ltac by_mul_comm :=
  repeat match goal with
         | |- ?a = ?b => constr_eq a b; reflexivity
         | |- @s_mul _ _ ?x ?y = @s_mul _ _ ?y ?x => apply f32_mul_comm
         | |- @s_add _ _ ?x ?y = @s_add _ _ ?y ?x => apply f32_add_comm
         | |- @s_add _ _ _ _ = @s_add _ _ _ _ => apply f32_add_cong
         | |- @s_sub _ _ _ _ = @s_sub _ _ _ _ => apply f32_sub_cong
         end.

(** Two records are equal when their members are. *)
Ltac by_members :=
  first [ apply vec2_ext | apply vec3_ext | apply vec4_ext | apply quat_ext
        | apply mat2_ext | apply mat3_ext | apply mat4_ext | idtac ];
  cbv beta iota delta
      [v2_x v2_y v3_x v3_y v3_z v4_x v4_y v4_z v4_w q_x q_y q_z q_w
       m2_0 m2_1 m2_2 m2_3
       m3_0 m3_1 m3_2 m3_3 m3_4 m3_5 m3_6 m3_7 m3_8
       m4_0 m4_1 m4_2 m4_3 m4_4 m4_5 m4_6 m4_7
       m4_8 m4_9 m4_10 m4_11 m4_12 m4_13 m4_14 m4_15].

Section Float32Algebra.
Local Open Scope Z_scope.

(** X2.  Addition of vectors, matrices and quaternions, the dot
    products and the member-wise product of vectors are commutative as
    operations on IEEE values: with the arguments swapped every member of
    the result is the same number, zero (with its sign) or infinity, or
    is again NaN.  Which NaN (sign, payload) the hardware returns is not
    part of the statement: with two NaN operands it depends on their
    order. *)
Theorem commutative_operations :
  (forall a b : msh_vec2_t f32, msh_vec2_add a b = msh_vec2_add b a) /\
  (forall a b : msh_vec3_t f32, msh_vec3_add a b = msh_vec3_add b a) /\
  (forall a b : msh_vec4_t f32, msh_vec4_add a b = msh_vec4_add b a) /\
  (forall a b : msh_quat_t f32, msh_quat_add a b = msh_quat_add b a) /\
  (forall a b : msh_mat2_t f32, msh_mat2_add a b = msh_mat2_add b a) /\
  (forall a b : msh_mat3_t f32, msh_mat3_add a b = msh_mat3_add b a) /\
  (forall a b : msh_mat4_t f32, msh_mat4_add a b = msh_mat4_add b a) /\
  (forall a b : msh_vec2_t f32, msh_vec2_dot a b = msh_vec2_dot b a) /\
  (forall a b : msh_vec3_t f32, msh_vec3_dot a b = msh_vec3_dot b a) /\
  (forall a b : msh_vec4_t f32, msh_vec4_dot a b = msh_vec4_dot b a) /\
  (forall a b : msh_quat_t f32, msh_quat_dot a b = msh_quat_dot b a) /\
  (forall a b : msh_vec2_t f32, msh_vec2_mul a b = msh_vec2_mul b a) /\
  (forall a b : msh_vec3_t f32, msh_vec3_mul a b = msh_vec3_mul b a) /\
  (forall a b : msh_vec4_t f32, msh_vec4_mul a b = msh_vec4_mul b a).
Proof.
  split_all; intros [] []; cbv beta delta
    [msh_vec2_add msh_vec3_add msh_vec4_add msh_quat_add
     msh_mat2_add msh_mat3_add msh_mat4_add
     msh_vec2_dot msh_vec3_dot msh_vec4_dot msh_quat_dot
     msh_vec2_mul msh_vec3_mul msh_vec4_mul]; by_members; by_mul_comm.
Qed.

(** X3.  Transposition turns products around, entry for entry: the
    transpose of a matrix product is the product of the transposes in
    the opposite order, the transpose of the outer product of [a] and
    [b] is the outer product of [b] and [a], and the 2x2 determinant of
    the transpose is the determinant.  The entries agree as IEEE values:
    the same number, zero (with its sign) or infinity, or NaN on both
    sides; which NaN (sign, payload) is not part of the statement, since
    the two sides multiply their factors in opposite orders. *)
Theorem transpose_of_products :
  (forall a b : msh_mat2_t f32,
     msh_mat2_transpose (msh_mat2_mul a b) =
     msh_mat2_mul (msh_mat2_transpose b) (msh_mat2_transpose a)) /\
  (forall a b : msh_mat3_t f32,
     msh_mat3_transpose (msh_mat3_mul a b) =
     msh_mat3_mul (msh_mat3_transpose b) (msh_mat3_transpose a)) /\
  (forall a b : msh_mat4_t f32,
     msh_mat4_transpose (msh_mat4_mul a b) =
     msh_mat4_mul (msh_mat4_transpose b) (msh_mat4_transpose a)) /\
  (forall a b : msh_vec2_t f32,
     msh_mat2_transpose (msh_vec2_outer_product a b) = msh_vec2_outer_product b a) /\
  (forall a b : msh_vec3_t f32,
     msh_mat3_transpose (msh_vec3_outer_product a b) = msh_vec3_outer_product b a) /\
  (forall a b : msh_vec4_t f32,
     msh_mat4_transpose (msh_vec4_outer_product a b) = msh_vec4_outer_product b a) /\
  (forall m : msh_mat2_t f32,
     msh_mat2_determinant (msh_mat2_transpose m) = msh_mat2_determinant m).
Proof.
  split_all; intros []; try intros [];
    cbv beta delta [msh_mat2_transpose msh_mat3_transpose msh_mat4_transpose
                    msh_mat2_mul msh_mat3_mul msh_mat4_mul
                    msh_vec2_outer_product msh_vec3_outer_product
                    msh_vec4_outer_product msh_mat2_determinant];
    by_members; by_mul_comm.
Qed.

(** X4.  Column [j] of the product [a * b] is [a] applied to column [j]
    of [b]: the matrix product agrees entry for entry with the
    matrix-vector products, as IEEE values: the same number, zero (with
    its sign) or infinity, or NaN on both sides.  Which NaN (sign,
    payload) is not part of the statement: [msh_matN_mul] multiplies an
    entry of [b] by an entry of [a], the matrix-vector products the other
    way round. *)
Theorem mat_mul_by_columns :
  (forall a b : msh_mat2_t f32,
     msh_mat2_mul a b =
     mat2_of_cols (msh_mat2_vec2_mul a (m2_col0 b)) (msh_mat2_vec2_mul a (m2_col1 b))) /\
  (forall a b : msh_mat3_t f32,
     msh_mat3_mul a b =
     mat3_of_cols (msh_mat3_vec3_mul a (m3_col0 b)) (msh_mat3_vec3_mul a (m3_col1 b))
                  (msh_mat3_vec3_mul a (m3_col2 b))) /\
  (forall a b : msh_mat4_t f32,
     msh_mat4_mul a b =
     mat4_of_cols (msh_mat4_vec4_mul a (m4_col0 b)) (msh_mat4_vec4_mul a (m4_col1 b))
                  (msh_mat4_vec4_mul a (m4_col2 b)) (msh_mat4_vec4_mul a (m4_col3 b))).
Proof.
  split_all; intros [] [];
    cbv beta delta [msh_mat2_mul msh_mat3_mul msh_mat4_mul
                    msh_mat2_vec2_mul msh_mat3_vec3_mul msh_mat4_vec4_mul
                    mat2_of_cols mat3_of_cols mat4_of_cols
                    m2_col0 m2_col1 m3_col0 m3_col1 m3_col2
                    m4_col0 m4_col1 m4_col2 m4_col3];
    by_members; by_mul_comm.
Qed.

(** X5.  [msh_mat4_vec3_mul m v is_point] is [msh_mat4_vec4_mul] applied
    to [v] extended by the member [(float)is_point], without its last
    member: identical results for every matrix, vector and flag. *)
Theorem mat4_vec3_mul_homogeneous (m : msh_mat4_t f32) (v : msh_vec3_t f32)
  (is_point : Z) :
  msh_mat4_vec3_mul m v is_point =
  msh_vec4_to_vec3
    (msh_mat4_vec4_mul m (msh_vec3_scalar_to_vec4 v (s_of_int32 is_point))).
Proof.
  destruct m, v.
  cbv beta delta [msh_mat4_vec3_mul msh_vec4_to_vec3 msh_mat4_vec4_mul
                  msh_vec3_scalar_to_vec4].
  by_members; by_mul_comm.
Qed.

End Float32Algebra.

Ltac unfold_all P :=
  unfold mat2_all, mat3_all, mat4_all, mat2_rel, mat3_rel, mat4_rel,
    vec2_all, vec3_all, vec4_all, quat_all, vec2_rel, vec3_rel, vec4_rel, quat_rel,
    m2_col0, m2_col1, m3_col0, m3_col1, m3_col2,
    m4_col0, m4_col1, m4_col2, m4_col3 in P.

Section Float32Signs.
Local Open Scope Z_scope.

Lemma f32_neg_involutive (x : f32) : (- - x)%S = x.
Proof.
  apply SFopp_involutive.
Qed.

Lemma f32_mul_neg_neg (x y : f32) : (- x * - y)%S = (x * y)%S.
Proof.
  apply SFmul_opp_opp.
Qed.

(** X6.  Negating twice gives the vector back and conjugating twice
    gives the quaternion back; negating a vector, or conjugating a
    quaternion, does not change the squared norm, and negating both
    arguments does not change the dot product.  The results agree as
    IEEE values on all inputs: the same number, zero (with its sign) or
    infinity, or NaN on both sides; the sign bit a NaN carries through a
    negation is not part of the statement. *)
Theorem negation_symmetries :
  (forall v : msh_vec2_t f32, msh_vec2_invert (msh_vec2_invert v) = v) /\
  (forall v : msh_vec3_t f32, msh_vec3_invert (msh_vec3_invert v) = v) /\
  (forall v : msh_vec4_t f32, msh_vec4_invert (msh_vec4_invert v) = v) /\
  (forall q : msh_quat_t f32, msh_quat_conjugate (msh_quat_conjugate q) = q) /\
  (forall v : msh_vec2_t f32, msh_vec2_norm_sq (msh_vec2_invert v) = msh_vec2_norm_sq v) /\
  (forall v : msh_vec3_t f32, msh_vec3_norm_sq (msh_vec3_invert v) = msh_vec3_norm_sq v) /\
  (forall v : msh_vec4_t f32, msh_vec4_norm_sq (msh_vec4_invert v) = msh_vec4_norm_sq v) /\
  (forall q : msh_quat_t f32,
     msh_quat_norm_sq (msh_quat_conjugate q) = msh_quat_norm_sq q) /\
  (forall a b : msh_vec3_t f32,
     msh_vec3_dot (msh_vec3_invert a) (msh_vec3_invert b) = msh_vec3_dot a b).
Proof.
  split_all; intros []; try intros [];
    cbv beta delta [msh_vec2_invert msh_vec3_invert msh_vec4_invert
                    msh_quat_conjugate quat_of_im_re q_re
                    msh_vec2_norm_sq msh_vec3_norm_sq msh_vec4_norm_sq
                    msh_quat_norm_sq msh_vec3_dot];
    by_members;
    first [ apply f32_neg_involutive
          | rewrite ?f32_mul_neg_neg; reflexivity ].
Qed.

Lemma f32_add_neg_diag (x : f32) : finite x -> (x + - x)%S = s_zero.
Proof.
  apply SFadd_opp_diag.
Qed.

Lemma f32_sub_diag (x : f32) : finite x -> (x - x)%S = s_zero.
Proof.
  apply SFsub_diag.
Qed.

(** X7.  For a vector with finite members, [v + invert(v)] and [v - v]
    are the zero vector exactly (every member +0). *)
Theorem add_invert_cancels :
  (forall v : msh_vec2_t f32, vec2_all finite v ->
     msh_vec2_add v (msh_vec2_invert v) = msh_vec2_zeros /\
     msh_vec2_sub v v = msh_vec2_zeros) /\
  (forall v : msh_vec3_t f32, vec3_all finite v ->
     msh_vec3_add v (msh_vec3_invert v) = msh_vec3_zeros /\
     msh_vec3_sub v v = msh_vec3_zeros) /\
  (forall v : msh_vec4_t f32, vec4_all finite v ->
     msh_vec4_add v (msh_vec4_invert v) = msh_vec4_zeros /\
     msh_vec4_sub v v = msh_vec4_zeros).
Proof.
  split_all; intros [] H; unfold_all H; cbn [v2_x v2_y v3_x v3_y v3_z v4_x v4_y v4_z v4_w] in H;
    decompose [and] H; clear H;
    cbv beta delta [msh_vec2_add msh_vec3_add msh_vec4_add
                    msh_vec2_sub msh_vec3_sub msh_vec4_sub
                    msh_vec2_invert msh_vec3_invert msh_vec4_invert
                    msh_vec2_zeros msh_vec3_zeros msh_vec4_zeros];
    by_members;
    rewrite ?f32_add_neg_diag, ?f32_sub_diag by assumption; auto.
Qed.

Lemma add_invert_cancels_witness :
  vec3_all finite example_vec3 /\
  msh_vec3_add example_vec3 (msh_vec3_invert example_vec3) = msh_vec3_zeros.
Proof.
  assert (H : vec3_all finite example_vec3) by (repeat split).
  split; [exact H |].
  exact (proj1 (proj1 (proj2 add_invert_cancels) example_vec3 H)).
Defined.

(** X8.  The cross product changes sign when its arguments are swapped
    (member for member, up to the sign of a zero), and the cross product
    of a vector with itself has only members that are +0 or NaN. *)
Theorem cross_antisymmetric (a b : msh_vec3_t f32) :
  vec3_rel same_value (msh_vec3_cross b a) (msh_vec3_invert (msh_vec3_cross a b)) /\
  vec3_all zero_or_nan (msh_vec3_cross a a).
Proof.
  destruct a as [ax ay az], b as [bx by' bz].
  unfold vec3_rel, vec3_all, msh_vec3_cross, msh_vec3_invert.
  cbn [v3_x v3_y v3_z].
  split; split_all.
  - rewrite (f32_mul_comm by' az), (f32_mul_comm bz ay).
    apply (SFsub_swap prec32 emax32).
  - rewrite (f32_mul_comm bz ax), (f32_mul_comm bx az).
    apply (SFsub_swap prec32 emax32).
  - rewrite (f32_mul_comm bx ay), (f32_mul_comm by' ax).
    apply (SFsub_swap prec32 emax32).
  - rewrite (f32_mul_comm az ay).
    destruct (is_finite (ay * az)%S) eqn:Hf; [left | right].
    + now apply (SFsub_diag prec32 emax32).
    + now apply (SFsub_diag_nan prec32 emax32).
  - rewrite (f32_mul_comm ax az).
    destruct (is_finite (az * ax)%S) eqn:Hf; [left | right].
    + now apply (SFsub_diag prec32 emax32).
    + now apply (SFsub_diag_nan prec32 emax32).
  - rewrite (f32_mul_comm ay ax).
    destruct (is_finite (ax * ay)%S) eqn:Hf; [left | right].
    + now apply (SFsub_diag prec32 emax32).
    + now apply (SFsub_diag_nan prec32 emax32).
Qed.
End Float32Signs.

Ltac members_in H :=
  unfold_all H;
  cbv beta iota delta
      [v2_x v2_y v3_x v3_y v3_z v4_x v4_y v4_z v4_w q_x q_y q_z q_w
       m2_0 m2_1 m2_2 m2_3
       m3_0 m3_1 m3_2 m3_3 m3_4 m3_5 m3_6 m3_7 m3_8
       m4_0 m4_1 m4_2 m4_3 m4_4 m4_5 m4_6 m4_7
       m4_8 m4_9 m4_10 m4_11 m4_12 m4_13 m4_14 m4_15] in H;
  decompose [and] H; clear H.

Ltac members_goal :=
  unfold mat2_all, mat3_all, mat4_all, mat2_rel, mat3_rel, mat4_rel,
    vec2_all, vec3_all, vec4_all, quat_all, vec2_rel, vec3_rel, vec4_rel, quat_rel,
    m2_col0, m2_col1, m3_col0, m3_col1, m3_col2,
    m4_col0, m4_col1, m4_col2, m4_col3;
  cbv beta iota delta
      [v2_x v2_y v3_x v3_y v3_z v4_x v4_y v4_z v4_w q_x q_y q_z q_w
       m2_0 m2_1 m2_2 m2_3
       m3_0 m3_1 m3_2 m3_3 m3_4 m3_5 m3_6 m3_7 m3_8
       m4_0 m4_1 m4_2 m4_3 m4_4 m4_5 m4_6 m4_7
       m4_8 m4_9 m4_10 m4_11 m4_12 m4_13 m4_14 m4_15];
  split_all.

Section Float32Scaling.
Local Open Scope Z_scope.




Lemma f32_recip_zero (s : f32) :
  is_zero s = true -> exists sg, (s_one / s)%S = (S754_infinity sg : f32).
Proof.
  destruct s as [sg | | |]; try discriminate. intros _.
  now exists sg.
Qed.

Lemma f32_mul_inf_nonfinite (x : f32) (sg : bool) :
  nonfinite (x * (S754_infinity sg : f32))%S.
Proof.
  apply SFmul_inf_r.
Qed.

Lemma f32_inf_mul_nonfinite (x : f32) (sg : bool) :
  nonfinite ((S754_infinity sg : f32) * x)%S.
Proof.
  apply SFmul_inf_l.
Qed.

(** X10.  Dividing by a zero scalar leaves no finite member: every
    member of the result is an infinity or NaN, whatever the vector,
    quaternion or matrix is. *)
Theorem scalar_div_by_zero (s : f32) :
  is_zero s = true ->
  (forall v : msh_vec2_t f32, vec2_all nonfinite (msh_vec2_scalar_div v s)) /\
  (forall v : msh_vec3_t f32, vec3_all nonfinite (msh_vec3_scalar_div v s)) /\
  (forall v : msh_vec4_t f32, vec4_all nonfinite (msh_vec4_scalar_div v s)) /\
  (forall q : msh_quat_t f32, quat_all nonfinite (msh_quat_scalar_div q s)) /\
  (forall m : msh_mat2_t f32, mat2_all nonfinite (msh_mat2_scalar_div m s)) /\
  (forall m : msh_mat3_t f32, mat3_all nonfinite (msh_mat3_scalar_div m s)) /\
  (forall m : msh_mat4_t f32, mat4_all nonfinite (msh_mat4_scalar_div m s)).
Proof.
  intros Hs. destruct (f32_recip_zero s Hs) as [sg Hinv].
  split_all; intros [];
    cbv beta zeta delta
      [msh_vec2_scalar_div msh_vec3_scalar_div msh_vec4_scalar_div
       msh_quat_scalar_div
       msh_mat2_scalar_div msh_mat3_scalar_div msh_mat4_scalar_div];
    rewrite Hinv; members_goal; apply f32_mul_inf_nonfinite.
Qed.

Lemma scalar_div_by_zero_witness :
  is_zero (s_zero : f32) = true /\
  vec3_all nonfinite (msh_vec3_scalar_div example_vec3 s_zero).
Proof.
  split; [reflexivity |].
  exact (proj1 (proj2 (scalar_div_by_zero s_zero eq_refl)) example_vec3).
Defined.

Lemma f32_recip_sqrtf_zero (n : f32) :
  is_zero n = true -> exists sg, (s_one / c_sqrtf n)%S = (S754_infinity sg : f32).
Proof.
  destruct n as [sg | | |]; try discriminate. intros _.
  now exists sg.
Qed.

Lemma f32_recip_norm_zero (n : f32) :
  is_zero n = true ->
  exists sg, (s_one / demote (c_sqrt (promote n)))%S = (S754_infinity sg : f32).
Proof.
  destruct n as [sg | | |]; try discriminate. intros _.
  now exists sg.
Qed.

(** X11.  When the sum of squares of the members is a zero (the zero
    vector, or members so small that their squares underflow), the
    normalized vector or quaternion has no finite member: the reciprocal
    of the norm is an infinity.  The zero vector normalizes to NaN
    members. *)
Theorem normalize_zero_norm :
  (forall v : msh_vec2_t f32, is_zero (msh_vec2_norm_sq v) = true ->
     vec2_all nonfinite (msh_vec2_normalize v)) /\
  (forall v : msh_vec3_t f32, is_zero (msh_vec3_norm_sq v) = true ->
     vec3_all nonfinite (msh_vec3_normalize v)) /\
  (forall v : msh_vec4_t f32, is_zero (msh_vec4_norm_sq v) = true ->
     vec4_all nonfinite (msh_vec4_normalize v)) /\
  (forall q : msh_quat_t f32, is_zero (msh_quat_norm_sq q) = true ->
     quat_all nonfinite (msh_quat_normalize q)) /\
  msh_vec3_normalize msh_vec3_zeros = msh_vec3 f32_nan f32_nan f32_nan.
Proof.
  split_all; try reflexivity; intros [] H.
  - destruct (f32_recip_sqrtf_zero _ H) as [sg Hinv].
    cbv beta zeta delta [msh_vec2_normalize]. cbv beta delta [msh_vec2_norm_sq] in Hinv.
    rewrite Hinv. members_goal; apply f32_mul_inf_nonfinite.
  - destruct (f32_recip_sqrtf_zero _ H) as [sg Hinv].
    cbv beta zeta delta [msh_vec3_normalize]. cbv beta delta [msh_vec3_norm_sq] in Hinv.
    rewrite Hinv. members_goal; apply f32_mul_inf_nonfinite.
  - destruct (f32_recip_sqrtf_zero _ H) as [sg Hinv].
    cbv beta zeta delta [msh_vec4_normalize]. cbv beta delta [msh_vec4_norm_sq] in Hinv.
    rewrite Hinv. members_goal; apply f32_mul_inf_nonfinite.
  - destruct (f32_recip_norm_zero _ H) as [sg Hinv].
    cbv beta zeta delta [msh_quat_normalize msh_quat_norm quat_of_im_re q_im q_re
                         msh_vec3_scalar_mul].
    cbv beta delta [msh_quat_norm_sq] in Hinv.
    rewrite Hinv. members_goal; apply f32_mul_inf_nonfinite.
Qed.

Lemma normalize_zero_norm_witness :
  is_zero (msh_vec2_norm_sq (msh_vec2_zeros : msh_vec2_t f32)) = true /\
  vec2_all nonfinite (msh_vec2_normalize (msh_vec2_zeros : msh_vec2_t f32)).
Proof.
  split; [reflexivity |].
  exact (proj1 normalize_zero_norm msh_vec2_zeros eq_refl).
Defined.
End Float32Scaling.

Section Float32Equality.
Local Open Scope Z_scope.

Lemma identical_sym (x y : spec_float) : identical x y = identical y x.
Proof.
  destruct x as [s1 | s1 | | s1 m1 e1], y as [s2 | s2 | | s2 m2 e2];
    cbn; try reflexivity; try (destruct s1, s2; reflexivity).
  rewrite (Pos.eqb_sym m1 m2), (Z.eqb_sym e1 e2).
  destruct s1, s2; reflexivity.
Qed.

Lemma SFeqb_sym (x y : spec_float) : SFeqb x y = SFeqb y x.
Proof.
  rewrite !SFeqb_ieee_equal. unfold ieee_equal.
  rewrite (identical_sym x y).
  destruct (is_nan x), (is_nan y), (is_zero x), (is_zero y), (identical y x);
    reflexivity.
Qed.

Lemma SFeqb_refl (x : spec_float) : SFeqb x x = negb (is_nan x).
Proof.
  rewrite SFeqb_ieee_equal. unfold ieee_equal.
  destruct x as [s | s | | s m e]; cbn;
    rewrite ?eqb_reflx, ?Pos.eqb_refl, ?Z.eqb_refl; reflexivity.
Qed.

Lemma f32_eqb_sym (x y : f32) : (x == y)%S = (y == x)%S.
Proof.
  apply SFeqb_sym.
Qed.

Lemma c_bool_true (b : bool) : c_bool b = 1 <-> b = true.
Proof.
  destruct b; cbn; split; congruence.
Qed.

Lemma f32_eqb_refl (x : f32) : (x == x)%S = true <-> not_nan x.
Proof.
  unfold not_nan. cbn [s_eqb scalar_f32]. rewrite SFeqb_refl.
  destruct (is_nan x); cbn; split; congruence.
Qed.

(** X12.  [msh_matN_equal] is symmetric, and a matrix is equal to itself
    exactly when none of its entries is NaN. *)
Theorem mat_equal_symmetric_reflexive :
  (forall a b : msh_mat2_t f32, msh_mat2_equal a b = msh_mat2_equal b a) /\
  (forall a b : msh_mat3_t f32, msh_mat3_equal a b = msh_mat3_equal b a) /\
  (forall a b : msh_mat4_t f32, msh_mat4_equal a b = msh_mat4_equal b a) /\
  (forall a : msh_mat2_t f32, msh_mat2_equal a a = 1 <-> mat2_all not_nan a) /\
  (forall a : msh_mat3_t f32, msh_mat3_equal a a = 1 <-> mat3_all not_nan a) /\
  (forall a : msh_mat4_t f32, msh_mat4_equal a a = 1 <-> mat4_all not_nan a).
Proof.
  split_all.
  - intros a b. rewrite !msh_mat2_equal_each. unfold mat2_all2.
    repeat match goal with
           | |- context [@s_eqb _ _ (?f a) (?g b)] => rewrite (f32_eqb_sym (f a) (g b))
           end.
    reflexivity.
  - intros a b. rewrite !msh_mat3_equal_each. unfold mat3_all2.
    repeat match goal with
           | |- context [@s_eqb _ _ (?f a) (?g b)] => rewrite (f32_eqb_sym (f a) (g b))
           end.
    reflexivity.
  - intros a b. rewrite !msh_mat4_equal_each. unfold mat4_all2.
    repeat match goal with
           | |- context [@s_eqb _ _ (?f a) (?g b)] => rewrite (f32_eqb_sym (f a) (g b))
           end.
    reflexivity.
  - intros a. rewrite msh_mat2_equal_each, c_bool_true. unfold mat2_all2.
    rewrite !andb_true_iff, !f32_eqb_refl. destruct a. members_goal; tauto.
  - intros a. rewrite msh_mat3_equal_each, c_bool_true. unfold mat3_all2.
    rewrite !andb_true_iff, !f32_eqb_refl. destruct a. members_goal; tauto.
  - intros a. rewrite msh_mat4_equal_each, c_bool_true. unfold mat4_all2.
    rewrite !andb_true_iff, !f32_eqb_refl. destruct a. members_goal; tauto.
Qed.

Lemma SFabs_convert_opp (prec emax : Z) (x : spec_float) :
  SFabs (convert prec emax (SFopp x)) = SFabs (convert prec emax x).
Proof.
  destruct x as [s | s | | s m e]; cbn [convert SFopp SFabs]; try reflexivity.
  rewrite <- binary_round_opp. now destruct (binary_round prec emax s m e).
Qed.

Lemma SFabs_convert_same (prec emax : Z) (x y : spec_float) :
  same_value x y -> SFabs (convert prec emax x) = SFabs (convert prec emax y).
Proof.
  intros [-> | [Hx Hy]]; [reflexivity |].
  destruct x, y; try discriminate. reflexivity.
Qed.

Lemma within_epsilon_sym (a b : f32) : within_epsilon a b = within_epsilon b a.
Proof.
  unfold within_epsilon. cbn [c_fabs promote cdouble_f32 s_sub scalar_f32].
  f_equal.
  rewrite (SFabs_convert_same _ _ _ _ (SFsub_swap prec32 emax32 b a)).
  apply SFabs_convert_opp.
Qed.

Lemma within_epsilon_refl (a : f32) : within_epsilon a a = is_finite a.
Proof.
  unfold within_epsilon. cbn [c_fabs promote cdouble_f32 s_sub scalar_f32].
  destruct (is_finite a) eqn:Hf.
  - now rewrite (SFsub_diag prec32 emax32 a Hf).
  - now rewrite (SFsub_diag_nan prec32 emax32 a Hf).
Qed.

(** X13.  [msh_vecN_equal] is symmetric, and a vector is equal to itself
    exactly when all its members are finite (an infinite member differs
    from itself by NaN). *)
Theorem vec_equal_symmetric_reflexive :
  (forall a b : msh_vec2_t f32, msh_vec2_equal a b = msh_vec2_equal b a) /\
  (forall a b : msh_vec3_t f32, msh_vec3_equal a b = msh_vec3_equal b a) /\
  (forall a b : msh_vec4_t f32, msh_vec4_equal a b = msh_vec4_equal b a) /\
  (forall a : msh_vec2_t f32, msh_vec2_equal a a = 1 <-> vec2_all finite a) /\
  (forall a : msh_vec3_t f32, msh_vec3_equal a a = 1 <-> vec3_all finite a) /\
  (forall a : msh_vec4_t f32, msh_vec4_equal a a = 1 <-> vec4_all finite a).
Proof.
  split_all.
  - intros a b. unfold msh_vec2_equal.
    now rewrite (within_epsilon_sym (v2_x a)), (within_epsilon_sym (v2_y a)).
  - intros a b. unfold msh_vec3_equal.
    now rewrite (within_epsilon_sym (v3_x a)), (within_epsilon_sym (v3_y a)),
      (within_epsilon_sym (v3_z a)).
  - intros a b. unfold msh_vec4_equal.
    now rewrite (within_epsilon_sym (v4_x a)), (within_epsilon_sym (v4_y a)),
      (within_epsilon_sym (v4_z a)), (within_epsilon_sym (v4_w a)).
  - intros a. unfold msh_vec2_equal, vec2_all, finite.
    rewrite c_bool_true, !andb_true_iff, !within_epsilon_refl. tauto.
  - intros a. unfold msh_vec3_equal, vec3_all, finite.
    rewrite c_bool_true, !andb_true_iff, !within_epsilon_refl. tauto.
  - intros a. unfold msh_vec4_equal, vec4_all, finite.
    rewrite c_bool_true, !andb_true_iff, !within_epsilon_refl. tauto.
Qed.
End Float32Equality.

(** ** Sums in which all terms but one are zeros *)

Lemma sv_refl (x : f32) : same_value x x.
Proof.
  now left.
Qed.

Lemma sv_add_r (a b x : f32) :
  same_value a x -> is_zero b = true -> same_value (a + b)%S x.
Proof.
  apply same_value_add_zero_r.
Qed.

Lemma sv_add_l (a b x : f32) :
  same_value b x -> is_zero a = true -> same_value (a + b)%S x.
Proof.
  apply same_value_add_zero_l.
Qed.

Lemma sv_sub_r (a b x : f32) :
  same_value a x -> is_zero b = true -> same_value (a - b)%S x.
Proof.
  apply same_value_sub_zero_r.
Qed.

Lemma sv_mul_one_r (x : f32) : valid32 x -> same_value (x * s_one)%S x.
Proof.
  intros H. rewrite (f32_mul_one_r x H). now left.
Qed.

Lemma sv_mul_one_l (x : f32) : valid32 x -> same_value (s_one * x)%S x.
Proof.
  intros H. rewrite (f32_mul_one_l x H). now left.
Qed.

Lemma z_add (a b : f32) :
  is_zero a = true -> is_zero b = true -> is_zero (a + b)%S = true.
Proof.
  apply SFadd_zero_zero.
Qed.

Lemma z_sub (a b : f32) :
  is_zero a = true -> is_zero b = true -> is_zero (a - b)%S = true.
Proof.
  apply SFsub_zero_zero.
Qed.

Lemma z_mul_r (a b : f32) :
  finite a -> is_zero b = true -> is_zero (a * b)%S = true.
Proof.
  apply SFmul_zero_r.
Qed.

Lemma z_mul_l (a b : f32) :
  is_zero a = true -> finite b -> is_zero (a * b)%S = true.
Proof.
  intros Ha Hb. now apply (SFmul_zero_l prec32 emax32).
Qed.

Lemma z_zero : is_zero (s_zero : f32) = true.
Proof.
  reflexivity.
Qed.

Lemma finite_one : finite (s_one : f32).
Proof.
  reflexivity.
Qed.

Lemma finite_zero : finite (s_zero : f32).
Proof.
  reflexivity.
Qed.

Lemma valid_one : valid32 (s_one : f32).
Proof.
  reflexivity.
Qed.

Lemma regular32_valid (x : f32) : regular32 x -> valid32 x.
Proof.
  now intros [H _].
Qed.

Lemma regular32_finite (x : f32) : regular32 x -> finite x.
Proof.
  now intros [_ H].
Qed.

Create HintDb absorb discriminated.
#[export] Hint Resolve sv_refl sv_add_r sv_add_l sv_sub_r sv_mul_one_r sv_mul_one_l
  z_add z_sub z_mul_r z_mul_l z_zero finite_one finite_zero valid_one
  regular32_valid regular32_finite : absorb.

Ltac absorb := solve [ eauto 12 with absorb nocore ].


(** Unfolding of the functions of the header down to the scalar
    operations. *)
Ltac msh_red :=
  cbv beta iota zeta delta
    [msh_vec3_to_vec2 msh_vec4_to_vec2 msh_vec2_to_vec3 msh_vec2_scalar_to_vec3
     msh_vec2_scalar_to_vec4 msh_vec4_to_vec3 msh_vec2_to_vec4 msh_vec3_to_vec4
     msh_vec3_scalar_to_vec4
     msh_vec2_add msh_vec3_add msh_vec4_add msh_vec2_sub msh_vec3_sub msh_vec4_sub
     msh_vec2_mul msh_vec3_mul msh_vec4_mul msh_vec2_div msh_vec3_div msh_vec4_div
     msh_vec2_scalar_mul msh_vec3_scalar_mul msh_vec4_scalar_mul
     msh_vec2_scalar_div msh_vec3_scalar_div msh_vec4_scalar_div
     msh_vec2_invert msh_vec3_invert msh_vec4_invert
     msh_vec2_dot msh_vec3_dot msh_vec4_dot
     msh_vec2_norm_sq msh_vec3_norm_sq msh_vec4_norm_sq
     msh_vec2_outer_product msh_vec3_outer_product msh_vec4_outer_product
     msh_vec3_cross
     msh_vec2_zeros msh_vec3_zeros msh_vec4_zeros
     msh_vec2_ones msh_vec3_ones msh_vec4_ones
     msh_mat2_zeros msh_mat2_identity msh_mat3_identity msh_mat4_identity
     msh_mat2_add msh_mat3_add msh_mat4_add msh_mat2_sub msh_mat3_sub msh_mat4_sub
     msh_mat2_mul msh_mat3_mul msh_mat4_mul
     msh_mat2_scalar_mul msh_mat3_scalar_mul msh_mat4_scalar_mul
     msh_mat2_scalar_div msh_mat3_scalar_div msh_mat4_scalar_div
     msh_mat2_vec2_mul msh_mat3_vec3_mul msh_mat4_vec3_mul msh_mat4_vec4_mul
     msh_mat3_to_mat2 msh_mat4_to_mat2 msh_mat2_to_mat3 msh_mat4_to_mat3
     msh_mat2_to_mat4 msh_mat3_to_mat4
     msh_mat2_transpose msh_mat3_transpose msh_mat4_transpose
     msh_mat2_trace msh_mat3_trace msh_mat4_trace
     msh_mat2_determinant msh_mat3_determinant msh_mat4_determinant
     msh_mat2_inverse msh_mat3_inverse msh_mat4_inverse
     msh_translate msh_scale translation with_translation
     msh_quat_zeros msh_quat_identity msh_quat_add msh_quat_sub msh_quat_mul
     msh_quat_div msh_quat_inverse msh_quat_conjugate
     msh_quat_scalar_mul msh_quat_scalar_div msh_quat_scalar_add msh_quat_scalar_sub
     msh_quat_dot msh_quat_norm_sq msh_quat_lerp
     quat_of_im_re q_im q_re set_q_x set_q_y set_q_z set_q_w set_q_re
     mat2_of_cols mat3_of_cols mat4_of_cols
     m2_col0 m2_col1 m3_col0 m3_col1 m3_col2 m4_col0 m4_col1 m4_col2 m4_col3
     v2_x v2_y v3_x v3_y v3_z v4_x v4_y v4_z v4_w q_x q_y q_z q_w
     m2_0 m2_1 m2_2 m2_3
     m3_0 m3_1 m3_2 m3_3 m3_4 m3_5 m3_6 m3_7 m3_8
     m4_0 m4_1 m4_2 m4_3 m4_4 m4_5 m4_6 m4_7
     m4_8 m4_9 m4_10 m4_11 m4_12 m4_13 m4_14 m4_15].

Tactic Notation "msh_red" "in" hyp(H) :=
  cbv beta iota zeta delta
    [msh_mat2_determinant msh_mat3_determinant msh_mat4_determinant
     msh_mat2_transpose msh_mat3_transpose msh_mat4_transpose
     msh_vec2_norm_sq msh_vec3_norm_sq msh_vec4_norm_sq msh_quat_norm_sq
     v2_x v2_y v3_x v3_y v3_z v4_x v4_y v4_z v4_w q_x q_y q_z q_w
     m2_0 m2_1 m2_2 m2_3
     m3_0 m3_1 m3_2 m3_3 m3_4 m3_5 m3_6 m3_7 m3_8
     m4_0 m4_1 m4_2 m4_3 m4_4 m4_5 m4_6 m4_7
     m4_8 m4_9 m4_10 m4_11 m4_12 m4_13 m4_14 m4_15] in H.

Section Float32Identity.
Local Open Scope Z_scope.

(** X14.  The identity matrix is neutral, for matrices and vectors with
    finite members and up to the sign of a zero: the matrix product with
    the identity on either side has the entries of the matrix, and the
    identity applied to a vector returns the vector, also through
    [msh_mat4_vec3_mul] for either value of the flag. *)
Theorem identity_matrix_neutral :
  (forall m : msh_mat2_t f32, mat2_all regular32 m ->
     mat2_rel same_value (msh_mat2_mul m msh_mat2_identity) m /\
     mat2_rel same_value (msh_mat2_mul msh_mat2_identity m) m) /\
  (forall m : msh_mat3_t f32, mat3_all regular32 m ->
     mat3_rel same_value (msh_mat3_mul m msh_mat3_identity) m /\
     mat3_rel same_value (msh_mat3_mul msh_mat3_identity m) m) /\
  (forall m : msh_mat4_t f32, mat4_all regular32 m ->
     mat4_rel same_value (msh_mat4_mul m msh_mat4_identity) m /\
     mat4_rel same_value (msh_mat4_mul msh_mat4_identity m) m) /\
  (forall v : msh_vec2_t f32, vec2_all regular32 v ->
     vec2_rel same_value (msh_mat2_vec2_mul msh_mat2_identity v) v) /\
  (forall v : msh_vec3_t f32, vec3_all regular32 v ->
     vec3_rel same_value (msh_mat3_vec3_mul msh_mat3_identity v) v /\
     vec3_rel same_value (msh_mat4_vec3_mul msh_mat4_identity v 0) v /\
     vec3_rel same_value (msh_mat4_vec3_mul msh_mat4_identity v 1) v) /\
  (forall v : msh_vec4_t f32, vec4_all regular32 v ->
     vec4_rel same_value (msh_mat4_vec4_mul msh_mat4_identity v) v).
Proof.
  split_all; intros [] H; members_in H; split_all;
    cbv beta delta [msh_mat2_mul msh_mat3_mul msh_mat4_mul
                    msh_mat2_vec2_mul msh_mat3_vec3_mul msh_mat4_vec3_mul
                    msh_mat4_vec4_mul
                    msh_mat2_identity msh_mat3_identity msh_mat4_identity];
    change (@s_of_int32 f32 _ 0) with (@s_zero f32 _);
    change (@s_of_int32 f32 _ 1) with (@s_one f32 _);
    members_goal; absorb.
Qed.

Lemma identity_matrix_neutral_witness :
  mat4_all regular32 example_shift /\
  vec3_all regular32 example_vec3 /\
  mat4_rel same_value (msh_mat4_mul example_shift msh_mat4_identity) example_shift /\
  vec3_rel same_value (msh_mat3_vec3_mul msh_mat3_identity example_vec3) example_vec3.
Proof.
  assert (H : mat4_all regular32 example_shift) by (repeat split).
  assert (Hv : vec3_all regular32 example_vec3) by (repeat split).
  split; [exact H |]. split; [exact Hv |].
  destruct identity_matrix_neutral as (_ & _ & H4 & _ & H3 & _).
  split; [exact (proj1 (H4 example_shift H)) | exact (proj1 (H3 example_vec3 Hv))].
Defined.

(** X15.  The identity quaternion (0, 0, 0, 1) is neutral for the
    quaternion product on both sides, for quaternions with finite
    members, up to the sign of a zero member. *)
Theorem quat_mul_identity (q : msh_quat_t f32) :
  quat_all regular32 q ->
  quat_rel same_value (msh_quat_mul q msh_quat_identity) q /\
  quat_rel same_value (msh_quat_mul msh_quat_identity q) q.
Proof.
  destruct q. intros H; members_in H; split;
    cbv beta delta [msh_quat_mul msh_quat_identity];
    members_goal; absorb.
Qed.

Lemma quat_mul_identity_witness :
  quat_all regular32 example_quat /\
  quat_rel same_value (msh_quat_mul example_quat msh_quat_identity) example_quat.
Proof.
  assert (H : quat_all regular32 example_quat) by (repeat split).
  split; [exact H |].
  exact (proj1 (quat_mul_identity example_quat H)).
Defined.

(** X16.  The linear interpolation of two quaternions with finite
    members returns the first at [t = 0] and the second at [t = 1], up
    to the sign of a zero member. *)
Theorem quat_lerp_at_ends (q r : msh_quat_t f32) :
  quat_all regular32 q -> quat_all regular32 r ->
  quat_rel same_value (msh_quat_lerp q r s_zero) q /\
  quat_rel same_value (msh_quat_lerp q r s_one) r.
Proof.
  destruct q, r. intros Hq Hr; members_in Hq; members_in Hr; split;
    cbv beta delta [msh_quat_lerp].
  - change (s_one - s_zero : f32)%S with (s_one : f32).
    members_goal; absorb.
  - change (s_one - s_one : f32)%S with (s_zero : f32).
    members_goal; absorb.
Qed.

Lemma quat_lerp_at_ends_witness :
  quat_all regular32 (msh_quat_identity : msh_quat_t f32) /\
  quat_all regular32 example_quat /\
  quat_rel same_value (msh_quat_lerp msh_quat_identity example_quat s_one) example_quat.
Proof.
  assert (Hq : quat_all regular32 (msh_quat_identity : msh_quat_t f32))
    by (repeat split).
  assert (Hr : quat_all regular32 example_quat) by (repeat split).
  split; [exact Hq |]. split; [exact Hr |].
  exact (proj2 (quat_lerp_at_ends msh_quat_identity example_quat Hq Hr)).
Defined.

(** X17.  Translating by the zero vector returns the matrix, up to the
    sign of a zero entry; scaling by (1, 1, 1) returns it exactly; and
    translating the identity by [t] gives the identity with translation
    column [t]; all for matrices and vectors with finite members. *)
Theorem translate_scale_neutral :
  (forall m : msh_mat4_t f32, mat4_all regular32 m ->
     mat4_rel same_value (msh_translate m msh_vec3_zeros) m /\
     msh_scale m msh_vec3_ones = m) /\
  (forall t : msh_vec3_t f32, vec3_all regular32 t ->
     mat4_rel same_value (msh_translate msh_mat4_identity t)
                         (with_translation msh_mat4_identity t)).
Proof.
  split_all; intros x H; members_in H; split_all.
  - members_goal; msh_red; absorb.
  - apply mat4_ext; msh_red;
      rewrite ?f32_mul_one_r by auto with absorb nocore; reflexivity.
  - members_goal; msh_red; absorb.
Qed.

Lemma translate_scale_neutral_witness :
  mat4_all regular32 example_shift /\
  mat4_rel same_value (msh_translate example_shift msh_vec3_zeros) example_shift /\
  msh_scale example_shift msh_vec3_ones = example_shift.
Proof.
  assert (H : mat4_all regular32 example_shift) by (repeat split).
  split; [exact H |].
  exact (proj1 translate_scale_neutral example_shift H).
Defined.
End Float32Identity.

Section Float32Edges.
Local Open Scope Z_scope.

(** X18.  When [acosf] returns NaN (a dot product outside [-1, 1]) or a
    zero angle, [msh_quat_slerp] is [msh_quat_lerp], for every [t] and
    whatever <math.h> is. *)
Theorem slerp_degenerate_angle (TR : Trig f32 f64) (q r : msh_quat_t f32) (t : f32) :
  is_nan (c_acosf (msh_quat_dot q r)) = true \/
  is_zero (c_acosf (msh_quat_dot q r)) = true ->
  msh_quat_slerp q r t = msh_quat_lerp q r t.
Proof.
  intros H. unfold msh_quat_slerp.
  destruct (c_acosf (msh_quat_dot q r)) as [s | s | | s m e];
    destruct H as [H | H]; try discriminate H; reflexivity.
Qed.

Lemma slerp_degenerate_angle_witness :
  (is_nan (c_acosf (Trig := trig_at_zero) (msh_quat_dot msh_quat_identity example_quat)) = true \/
   is_zero (c_acosf (Trig := trig_at_zero) (msh_quat_dot msh_quat_identity example_quat)) = true) /\
  msh_quat_slerp (TR := trig_at_zero) msh_quat_identity example_quat s_one =
  msh_quat_lerp msh_quat_identity example_quat s_one.
Proof.
  assert (H : is_nan (c_acosf (Trig := trig_at_zero)
                        (msh_quat_dot msh_quat_identity example_quat)) = true \/
              is_zero (c_acosf (Trig := trig_at_zero)
                         (msh_quat_dot msh_quat_identity example_quat)) = true)
    by (right; reflexivity).
  split; [exact H |].
  exact (slerp_degenerate_angle trig_at_zero msh_quat_identity example_quat s_one H).
Defined.

Lemma z_negzero : is_zero f32_negzero = true.
Proof.
  reflexivity.
Qed.

Lemma quat_inverse_of_identity :
  msh_quat_inverse (msh_quat_identity : msh_quat_t f32) =
  msh_quat f32_negzero f32_negzero f32_negzero s_zero.
Proof.
  reflexivity.
Qed.

(** X19.  Dividing a quaternion with finite members by the identity
    quaternion returns only zero members, not the quaternion: the
    inverse of the identity that [msh_quat_div] multiplies by is
    (-0, -0, -0, 0). *)
Theorem quat_div_by_identity (q : msh_quat_t f32) :
  quat_all finite q ->
  quat_all is_zero_value (msh_quat_div q msh_quat_identity).
Proof.
  intros H; members_in H.
  unfold msh_quat_div. rewrite quat_inverse_of_identity.
  members_goal; msh_red; unfold is_zero_value;
    eauto 12 using z_negzero with absorb nocore.
Qed.

Lemma quat_div_by_identity_witness :
  quat_all finite example_quat /\
  quat_all is_zero_value (msh_quat_div example_quat msh_quat_identity).
Proof.
  assert (H : quat_all finite example_quat) by (repeat split).
  split; [exact H |].
  exact (quat_div_by_identity example_quat H).
Defined.










(** X21.  When the determinant is a zero, the inverse has no finite
    entry: the reciprocal of the determinant is an infinity and every
    entry is a product with it.  (The 3x3 inverse expands the determinant
    along a row, which is the determinant of the transpose.) *)
Theorem inverse_singular :
  (forall m : msh_mat2_t f32, is_zero (msh_mat2_determinant m) = true ->
     mat2_all nonfinite (msh_mat2_inverse m)) /\
  (forall m : msh_mat3_t f32,
     is_zero (msh_mat3_determinant (msh_mat3_transpose m)) = true ->
     mat3_all nonfinite (msh_mat3_inverse m)) /\
  (forall m : msh_mat4_t f32, is_zero (msh_mat4_determinant m) = true ->
     mat4_all nonfinite (msh_mat4_inverse m)).
Proof.
  split_all; intros m H; destruct (f32_recip_zero _ H) as [sg Hinv];
    members_goal; msh_red; msh_red in Hinv; rewrite Hinv;
    first [ apply f32_mul_inf_nonfinite | apply f32_inf_mul_nonfinite ].
Qed.

Lemma inverse_singular_witness :
  is_zero (msh_mat2_determinant example_singular) = true /\
  mat2_all nonfinite (msh_mat2_inverse example_singular).
Proof.
  split; [reflexivity |].
  exact (proj1 inverse_singular example_singular eq_refl).
Defined.
End Float32Edges.

Section Float32Misc.
Local Open Scope Z_scope.

(** X22.  The 3x3 and 4x4 traces sum the diagonal, so they do not change
    under transposition.  The 2x2 trace adds [data[0]] and [data[2]]: it
    does not depend on [data[1]] and [data[3]], and on the 2x2 identity
    it returns 1, where the 3x3 and 4x4 traces of the identity are 3
    and 4. *)
Theorem trace_entries :
  (forall m : msh_mat3_t f32, msh_mat3_trace (msh_mat3_transpose m) = msh_mat3_trace m) /\
  (forall m : msh_mat4_t f32, msh_mat4_trace (msh_mat4_transpose m) = msh_mat4_trace m) /\
  (forall (m : msh_mat2_t f32) (x y : f32),
     msh_mat2_trace (msh_mat2 (m2_0 m) x (m2_2 m) y) = msh_mat2_trace m) /\
  msh_mat2_trace (msh_mat2_identity : msh_mat2_t f32) = s_one /\
  msh_mat3_trace (msh_mat3_identity : msh_mat3_t f32) = f32_of_Z 3 /\
  msh_mat4_trace (msh_mat4_identity : msh_mat4_t f32) = f32_of_Z 4.
Proof.
  split_all; try reflexivity; intros []; reflexivity.
Qed.

Lemma f32_add_neg (a b : f32) : (a + - b)%S = (a - b)%S.
Proof.
  symmetry. apply SFsub_add_opp.
Qed.

Lemma f32_sub_neg (a b : f32) : (a - - b)%S = (a + b)%S.
Proof.
  cbn [s_sub s_add s_neg scalar_f32].
  now rewrite SFsub_add_opp, SFopp_involutive.
Qed.

Lemma f32_neg_mul_l (a b : f32) : (- a * b)%S = (- (a * b))%S.
Proof.
  apply SFmul_opp_l.
Qed.

(** X23.  The rotation matrix of the conjugate quaternion is the
    transpose of the rotation matrix, and the quaternion with all four
    members negated has the same rotation matrix, for every quaternion.
    The entries agree as IEEE values: the same number, zero (with its
    sign) or infinity, or NaN on both sides; the sign bit a NaN member
    carries through the negation is not part of the statement. *)
Theorem quat_to_mat3_symmetries (q : msh_quat_t f32) :
  msh_quat_to_mat3 (msh_quat_conjugate q) = msh_mat3_transpose (msh_quat_to_mat3 q) /\
  msh_quat_to_mat3 (msh_quat (- q_x q) (- q_y q) (- q_z q) (- q_w q))%S =
    msh_quat_to_mat3 q.
Proof.
  split; apply mat3_ext; unfold msh_quat_to_mat3; msh_red;
    rewrite ?f32_mul_neg_neg, ?f32_neg_mul_l, ?f32_add_neg, ?f32_sub_neg;
    reflexivity.
Qed.
End Float32Misc.

Section Float32Clamp.
Local Open Scope Z_scope.

Lemma SFcompare_antisym (x y : spec_float) :
  SFcompare y x = option_map CompOpp (SFcompare x y).
Proof.
  destruct x as [[]| []| |[] m1 e1], y as [[]| []| |[] m2 e2]; try reflexivity;
    cbn [SFcompare option_map]; f_equal;
    rewrite (Z.compare_antisym e1 e2);
    destruct (e1 ?= e2); cbn [CompOpp]; try reflexivity;
    change (PosDef.Pos.compare_cont Eq) with Pos.compare;
    rewrite (Pos.compare_antisym m1 m2);
    destruct (m1 ?= m2)%positive; reflexivity.
Qed.

Lemma SFltb_false_leb (x y : spec_float) :
  is_nan x = false -> is_nan y = false -> SFltb x y = false -> SFleb y x = true.
Proof.
  intros Hx Hy. unfold SFltb, SFleb. rewrite (SFcompare_antisym x y).
  destruct x as [| | |], y as [| | |]; try discriminate;
    destruct (SFcompare _ _) as [[]|] eqn:E; cbn; try reflexivity; try discriminate;
    cbn in E; discriminate.
Qed.

Lemma SFleb_refl (x : spec_float) : is_nan x = false -> SFleb x x = true.
Proof.
  intros Hx. apply SFltb_false_leb; auto.
  unfold SFltb. pose proof (SFcompare_antisym x x) as H.
  destruct (SFcompare x x) as [[]|]; try reflexivity; discriminate.
Qed.

(** One member of a clamped vector, [fminf(fmaxf(x, lo), hi)], when the
    bounds are in order. *)
Lemma f32_clamp_between (lo hi x : f32) :
  not_nan lo -> not_nan hi -> (lo > hi)%S = false ->
  between lo hi (c_fminf (c_fmaxf x lo) hi).
Proof.
  unfold not_nan, between. cbn [s_gtb scalar_f32 c_fminf c_fmaxf minmax_f32].
  intros Hlo Hhi Hord.
  pose proof (SFltb_false_leb hi lo Hhi Hlo Hord) as Hle.
  destruct (is_nan x) eqn:Hx.
  - rewrite Hlo, Hhi. rewrite Hord. split; [now apply SFleb_refl | exact Hle].
  - rewrite Hlo. destruct (SFltb x lo) eqn:Hxl.
    + rewrite Hlo, Hhi, Hord. split; [now apply SFleb_refl | exact Hle].
    + rewrite Hx, Hhi. destruct (SFltb hi x) eqn:Hhx.
      * split; [exact Hle | now apply SFleb_refl].
      * split; apply SFltb_false_leb; auto.
Qed.

Lemma f32_clamp_inside (lo hi x : f32) :
  between lo hi x -> c_fminf (c_fmaxf x lo) hi = x.
Proof.
  unfold between. cbn [c_fminf c_fmaxf minmax_f32]. intros [H1 H2].
  assert (Hx : is_nan x = false) by (destruct x; try reflexivity; destruct lo; discriminate).
  assert (Hlo : is_nan lo = false) by (destruct lo; try reflexivity; discriminate).
  assert (Hhi : is_nan hi = false)
    by (destruct hi; try reflexivity; unfold SFleb in H2; destruct x; discriminate).
  rewrite Hx, Hlo.
  assert (E1 : SFltb x lo = false).
  { unfold SFltb, SFleb in *. rewrite (SFcompare_antisym lo x).
    destruct (SFcompare lo x) as [[]|]; try reflexivity; discriminate. }
  rewrite E1, Hx, Hhi.
  assert (E2 : SFltb hi x = false).
  { unfold SFltb, SFleb in *. rewrite (SFcompare_antisym x hi).
    destruct (SFcompare x hi) as [[]|]; try reflexivity; discriminate. }
  now rewrite E2.
Qed.

(** X24.  With bounds in order ([min > max] false, neither a NaN) every
    member of a clamped vector lies between [min] and [max], also when
    the member of the argument was a NaN or an infinity; a vector whose
    members all lie between the bounds is returned unchanged. *)
Theorem clamp_in_range (lo hi : f32) :
  not_nan lo -> not_nan hi -> (lo > hi)%S = false ->
  (forall v, vec2_all (between lo hi) (msh_vec2_clamp v lo hi)) /\
  (forall v, vec3_all (between lo hi) (msh_vec3_clamp v lo hi)) /\
  (forall v, vec4_all (between lo hi) (msh_vec4_clamp v lo hi)) /\
  (forall v, vec2_all (between lo hi) v -> msh_vec2_clamp v lo hi = v) /\
  (forall v, vec3_all (between lo hi) v -> msh_vec3_clamp v lo hi = v) /\
  (forall v, vec4_all (between lo hi) v -> msh_vec4_clamp v lo hi = v).
Proof.
  intros Hlo Hhi Hord.
  unfold msh_vec2_clamp, msh_vec3_clamp, msh_vec4_clamp. rewrite Hord.
  split_all; intros v.
  1-3: members_goal; apply f32_clamp_between; assumption.
  all: intros H; members_in H; by_members; split_all;
       apply f32_clamp_inside; unfold between; auto.
Qed.

Lemma clamp_in_range_witness :
  not_nan (f32_of_Z 0) /\ not_nan (f32_of_Z 1) /\
  vec4_all (between (f32_of_Z 0) (f32_of_Z 1))
    (msh_vec4_clamp (msh_vec4 (f32_of_Z 5) f32_nan f32_inf f32_negzero)
       (f32_of_Z 0) (f32_of_Z 1)).
Proof.
  assert (H0 : not_nan (f32_of_Z 0)) by reflexivity.
  assert (H1 : not_nan (f32_of_Z 1)) by reflexivity.
  assert (H : (f32_of_Z 0 > f32_of_Z 1)%S = false) by reflexivity.
  destruct (clamp_in_range (f32_of_Z 0) (f32_of_Z 1) H0 H1 H) as (_ & _ & H4 & _).
  split; [exact H0 | split; [exact H1 | apply H4]].
Defined.
End Float32Clamp.

(** Unfolding down to the operations of the rationals. *)
Ltac exact_ops :=
  cbv beta iota delta
    [s_zero s_one s_of_int32 s_add s_sub s_mul s_div s_neg s_two
     scalar_Qc literals_Qc].

Ltac exact_red :=
  cbv beta iota zeta delta
    [msh_frustum msh_ortho msh_project msh_unproject
     msh_quat_to_mat3 msh_quat_to_mat4 scaling translating unit_quat];
  msh_red; exact_ops.

Ltac exact_red_in H :=
  cbv beta iota zeta delta [unit_quat] in H;
  msh_red in H;
  cbv beta iota delta
    [s_zero s_one s_of_int32 s_add s_sub s_mul s_div s_neg s_two
     scalar_Qc literals_Qc] in H.

Section ExactFormulas.
Import QArith Qcanon Field.
Local Open Scope Qc_scope.

Lemma Qc_of_Z_0 : Qc_of_Z 0 = 0.
Proof.
  reflexivity.
Qed.

Lemma Qc_of_Z_1 : Qc_of_Z 1 = 1.
Proof.
  reflexivity.
Qed.

Lemma Qc_of_Z_2 : Qc_of_Z 2 = 1 + 1.
Proof.
  apply Qc_is_canon. reflexivity.
Qed.

Lemma Qc_recip (x : Qc) : x <> 0 -> x * (1 / x) = 1.
Proof.
  intros H. field. exact H.
Qed.

Lemma Qc_recip_nonzero (x : Qc) : x <> 0 -> 1 / x <> 0.
Proof.
  intros H E. apply (Qc_recip x) in H. rewrite E in H.
  revert H. replace (x * 0) with 0 by ring. discriminate.
Qed.

Ltac literals := rewrite ?Qc_of_Z_0, ?Qc_of_Z_1, ?Qc_of_Z_2 in *.

(** The entries of the goal, one polynomial identity each. *)
Ltac by_ring := exact_red; literals; by_members; split_all; ring.

(** The divisors [field] asks about: a hypothesis, or the literal 2. *)
Ltac field_sides :=
  split_all;
  first [ assumption
        | let E := fresh "E" in
          intro E; apply (f_equal this) in E; vm_compute in E; discriminate E ].

Lemma exact_inverse_mat2 (m : msh_mat2_t Qc) :
  msh_mat2_determinant m <> s_zero ->
  msh_mat2_mul m (msh_mat2_inverse m) = msh_mat2_identity /\
  msh_mat2_mul (msh_mat2_inverse m) m = msh_mat2_identity.
Proof.
  intros H. exact_red. exact_red_in H. literals.
  match goal with |- context [1 / ?D] =>
    assert (Hk : D * (1 / D) = 1)
      by (apply Qc_recip; intro E; apply H; rewrite <- E; ring);
    set (k := 1 / D) in *; clearbody k
  end.
  split; by_members; split_all; first [ ring | rewrite <- Hk; ring ].
Qed.

Lemma exact_inverse_mat3 (m : msh_mat3_t Qc) :
  msh_mat3_determinant m <> s_zero ->
  msh_mat3_mul m (msh_mat3_inverse m) = msh_mat3_identity /\
  msh_mat3_mul (msh_mat3_inverse m) m = msh_mat3_identity.
Proof.
  intros H. exact_red. exact_red_in H. literals.
  match goal with |- context [1 / ?D] =>
    assert (Hk : D * (1 / D) = 1)
      by (apply Qc_recip; intro E; apply H; rewrite <- E; ring);
    set (k := 1 / D) in *; clearbody k
  end.
  split; by_members; split_all; first [ ring | rewrite <- Hk; ring ].
Qed.

Lemma exact_inverse_mat4 (m : msh_mat4_t Qc) :
  msh_mat4_determinant m <> s_zero ->
  msh_mat4_mul m (msh_mat4_inverse m) = msh_mat4_identity /\
  msh_mat4_mul (msh_mat4_inverse m) m = msh_mat4_identity.
Proof.
  intros H. exact_red. exact_red_in H. literals.
  match goal with |- context [1 / ?D] =>
    assert (Hk : D * (1 / D) = 1)
      by (apply Qc_recip; intro E; apply H; rewrite <- E; ring);
    set (k := 1 / D) in *; clearbody k
  end.
  split; by_members; split_all; first [ ring | rewrite <- Hk; ring ].
Qed.

(** X25.  In exact arithmetic the three inverse functions compute the
    inverse: for a matrix whose determinant is not zero, the product of
    the matrix and the result, in either order, is the identity matrix. *)
Theorem inverse_exact :
  (forall m : msh_mat2_t Qc, msh_mat2_determinant m <> s_zero ->
     msh_mat2_mul m (msh_mat2_inverse m) = msh_mat2_identity /\
     msh_mat2_mul (msh_mat2_inverse m) m = msh_mat2_identity) /\
  (forall m : msh_mat3_t Qc, msh_mat3_determinant m <> s_zero ->
     msh_mat3_mul m (msh_mat3_inverse m) = msh_mat3_identity /\
     msh_mat3_mul (msh_mat3_inverse m) m = msh_mat3_identity) /\
  (forall m : msh_mat4_t Qc, msh_mat4_determinant m <> s_zero ->
     msh_mat4_mul m (msh_mat4_inverse m) = msh_mat4_identity /\
     msh_mat4_mul (msh_mat4_inverse m) m = msh_mat4_identity).
Proof.
  split_all.
  - exact exact_inverse_mat2.
  - exact exact_inverse_mat3.
  - exact exact_inverse_mat4.
Qed.

Lemma inverse_exact_witness :
  msh_mat4_determinant exact_mat4 <> s_zero /\
  msh_mat4_mul exact_mat4 (msh_mat4_inverse exact_mat4) = msh_mat4_identity /\
  msh_mat4_mul (msh_mat4_inverse exact_mat4) exact_mat4 = msh_mat4_identity.
Proof.
  assert (H : msh_mat4_determinant exact_mat4 <> s_zero)
    by (intro E; apply (f_equal this) in E; vm_compute in E; discriminate E).
  split; [exact H |].
  exact (proj2 (proj2 inverse_exact) exact_mat4 H).
Defined.

(** X26.  In exact arithmetic the determinant functions are invariant
    under transposition, multiplicative over the matrix product, and 1 on
    the identity. *)
Theorem determinant_exact :
  (forall m : msh_mat2_t Qc,
     msh_mat2_determinant (msh_mat2_transpose m) = msh_mat2_determinant m) /\
  (forall m : msh_mat3_t Qc,
     msh_mat3_determinant (msh_mat3_transpose m) = msh_mat3_determinant m) /\
  (forall m : msh_mat4_t Qc,
     msh_mat4_determinant (msh_mat4_transpose m) = msh_mat4_determinant m) /\
  (forall a b : msh_mat2_t Qc,
     msh_mat2_determinant (msh_mat2_mul a b) =
     (msh_mat2_determinant a * msh_mat2_determinant b)%S) /\
  (forall a b : msh_mat3_t Qc,
     msh_mat3_determinant (msh_mat3_mul a b) =
     (msh_mat3_determinant a * msh_mat3_determinant b)%S) /\
  (forall a b : msh_mat4_t Qc,
     msh_mat4_determinant (msh_mat4_mul a b) =
     (msh_mat4_determinant a * msh_mat4_determinant b)%S) /\
  msh_mat2_determinant (msh_mat2_identity : msh_mat2_t Qc) = s_one /\
  msh_mat3_determinant (msh_mat3_identity : msh_mat3_t Qc) = s_one /\
  msh_mat4_determinant (msh_mat4_identity : msh_mat4_t Qc) = s_one.
Proof.
  split_all; intros; exact_red; literals.
  all: ring.
Qed.


Lemma mat4_vec4_mul_compose (a b : msh_mat4_t Qc) (v : msh_vec4_t Qc) :
  msh_mat4_vec4_mul (msh_mat4_mul a b) v =
  msh_mat4_vec4_mul a (msh_mat4_vec4_mul b v).
Proof.
  by_ring.
Qed.

Lemma mat4_vec4_mul_identity (v : msh_vec4_t Qc) :
  msh_mat4_vec4_mul msh_mat4_identity v = v.
Proof.
  by_ring.
Qed.

Lemma mat4_vec4_mul_scalar (m : msh_mat4_t Qc) (v : msh_vec4_t Qc) (s : Qc) :
  msh_mat4_vec4_mul m (msh_vec4_scalar_mul v s) =
  msh_vec4_scalar_mul (msh_mat4_vec4_mul m v) s.
Proof.
  by_ring.
Qed.

(** X27.  In exact arithmetic the matrix products are associative and
    the matrix-vector products turn the product of two matrices into the
    composition of the two maps; [msh_translate] and [msh_scale] multiply
    their matrix on the right by a translation and by a diagonal matrix;
    a translation moves a point ([is_point = 1]) by the vector and leaves
    a direction ([is_point = 0]) alone. *)
Theorem composition_exact :
  (forall (a b : msh_mat2_t Qc) v,
     msh_mat2_vec2_mul (msh_mat2_mul a b) v =
     msh_mat2_vec2_mul a (msh_mat2_vec2_mul b v)) /\
  (forall (a b : msh_mat3_t Qc) v,
     msh_mat3_vec3_mul (msh_mat3_mul a b) v =
     msh_mat3_vec3_mul a (msh_mat3_vec3_mul b v)) /\
  (forall (a b : msh_mat4_t Qc) v,
     msh_mat4_vec4_mul (msh_mat4_mul a b) v =
     msh_mat4_vec4_mul a (msh_mat4_vec4_mul b v)) /\
  (forall a b c : msh_mat2_t Qc,
     msh_mat2_mul (msh_mat2_mul a b) c = msh_mat2_mul a (msh_mat2_mul b c)) /\
  (forall a b c : msh_mat3_t Qc,
     msh_mat3_mul (msh_mat3_mul a b) c = msh_mat3_mul a (msh_mat3_mul b c)) /\
  (forall a b c : msh_mat4_t Qc,
     msh_mat4_mul (msh_mat4_mul a b) c = msh_mat4_mul a (msh_mat4_mul b c)) /\
  (forall (m : msh_mat4_t Qc) t, msh_translate m t = msh_mat4_mul m (translating t)) /\
  (forall (m : msh_mat4_t Qc) s, msh_scale m s = msh_mat4_mul m (scaling s)) /\
  (forall t v : msh_vec3_t Qc,
     msh_mat4_vec3_mul (msh_translate msh_mat4_identity t) v 1 = msh_vec3_add v t) /\
  (forall t v : msh_vec3_t Qc,
     msh_mat4_vec3_mul (msh_translate msh_mat4_identity t) v 0 = v) /\
  (forall s v : msh_vec3_t Qc,
     msh_mat4_vec3_mul (msh_scale msh_mat4_identity s) v 1 = msh_vec3_mul s v).
Proof.
  split_all; intros.
  all: by_ring.
Qed.

(** The diagonal of the rotation matrix of a unit quaternion, with the
    literal 1 replaced by the squared norm. *)
Lemma unit_diagonal (a b c d : Qc) :
  a * a + b * b + c * c + d * d = 1 ->
  1 - (1 + 1) * (b * b + c * c) = a * a + d * d - b * b - c * c.
Proof.
  intros H.
  transitivity (a * a + b * b + c * c + d * d - (1 + 1) * (b * b + c * c));
    [ rewrite H; reflexivity | ring ].
Qed.

Lemma Qc_sq_one (n : Qc) : n = 1 -> n * n = 1.
Proof.
  intros ->. ring.
Qed.

Lemma quat_norm_sq_mul (a b : msh_quat_t Qc) :
  msh_quat_norm_sq (msh_quat_mul a b) = (msh_quat_norm_sq a * msh_quat_norm_sq b)%S.
Proof.
  exact_red. ring.
Qed.

Lemma unit_quat_mul (a b : msh_quat_t Qc) :
  unit_quat a -> unit_quat b -> unit_quat (msh_quat_mul a b).
Proof.
  unfold unit_quat. intros Ha Hb. rewrite quat_norm_sq_mul, Ha, Hb.
  exact_ops. literals. ring.
Qed.

(** For a unit quaternion the literal 1 on the diagonal of the rotation
    matrix is the squared norm. *)
Lemma quat_to_mat3_unit (q : msh_quat_t Qc) :
  unit_quat q ->
  msh_quat_to_mat3 q =
  (let x := q_x q in let y := q_y q in let z := q_z q in let w := q_w q in
   msh_mat3 (x * x + w * w - y * y - z * z) (s_two * (x * y + z * w))
            (s_two * (x * z - y * w))
            (s_two * (x * y - z * w)) (y * y + w * w - x * x - z * z)
            (s_two * (y * z + x * w))
            (s_two * (x * z + y * w)) (s_two * (y * z - x * w))
            (z * z + w * w - x * x - y * y))%S.
Proof.
  destruct q as [x y z w]. intros H. exact_red. exact_red_in H. literals.
  rewrite (unit_diagonal x y z w) by (rewrite <- H; ring).
  rewrite (unit_diagonal y x z w) by (rewrite <- H; ring).
  rewrite (unit_diagonal z x y w) by (rewrite <- H; ring).
  reflexivity.
Qed.

Lemma quat_to_mat3_orthogonal (q : msh_quat_t Qc) :
  unit_quat q ->
  msh_mat3_mul (msh_mat3_transpose (msh_quat_to_mat3 q)) (msh_quat_to_mat3 q) =
    msh_mat3_identity.
Proof.
  intros H. rewrite (quat_to_mat3_unit q H).
  apply Qc_sq_one in H. exact_red. exact_red_in H. literals.
  by_members; split_all;
    first [ ring | etransitivity; [ | exact H ]; ring ].
Qed.

Lemma Qc_cube_one (n : Qc) : n = 1 -> n * n * n = 1.
Proof.
  intros ->. ring.
Qed.

Lemma quat_to_mat3_determinant (q : msh_quat_t Qc) :
  unit_quat q -> msh_mat3_determinant (msh_quat_to_mat3 q) = s_one.
Proof.
  intros H. rewrite (quat_to_mat3_unit q H).
  apply Qc_cube_one in H. exact_red. exact_red_in H. literals.
  etransitivity; [ | exact H ]; ring.
Qed.

Lemma quat_to_mat3_mul (a b : msh_quat_t Qc) :
  unit_quat a -> unit_quat b ->
  msh_quat_to_mat3 (msh_quat_mul a b) =
  msh_mat3_mul (msh_quat_to_mat3 a) (msh_quat_to_mat3 b).
Proof.
  intros Ha Hb.
  rewrite (quat_to_mat3_unit _ (unit_quat_mul a b Ha Hb)).
  rewrite (quat_to_mat3_unit a Ha), (quat_to_mat3_unit b Hb).
  by_ring.
Qed.

(** X28.  In exact arithmetic the quaternion product is associative
    and multiplicative for the squared norm, the identity quaternion is
    neutral for it, and a quaternion times its conjugate is its squared
    norm.  The matrix of a unit quaternion is a rotation matrix (its
    transpose is its inverse, its determinant is 1), and the matrix of
    the product of two unit quaternions is the product of their
    matrices. *)
Theorem quaternion_algebra_exact :
  (forall a b c : msh_quat_t Qc,
     msh_quat_mul (msh_quat_mul a b) c = msh_quat_mul a (msh_quat_mul b c)) /\
  (forall a b : msh_quat_t Qc,
     msh_quat_norm_sq (msh_quat_mul a b) =
     (msh_quat_norm_sq a * msh_quat_norm_sq b)%S) /\
  (forall q : msh_quat_t Qc,
     msh_quat_mul q msh_quat_identity = q /\ msh_quat_mul msh_quat_identity q = q) /\
  (forall q : msh_quat_t Qc,
     msh_quat_mul q (msh_quat_conjugate q) =
     msh_quat s_zero s_zero s_zero (msh_quat_norm_sq q)) /\
  (forall q : msh_quat_t Qc, unit_quat q ->
     msh_mat3_mul (msh_mat3_transpose (msh_quat_to_mat3 q)) (msh_quat_to_mat3 q) =
       msh_mat3_identity /\
     msh_mat3_determinant (msh_quat_to_mat3 q) = s_one) /\
  (forall a b : msh_quat_t Qc, unit_quat a -> unit_quat b ->
     unit_quat (msh_quat_mul a b) /\
     msh_quat_to_mat3 (msh_quat_mul a b) =
       msh_mat3_mul (msh_quat_to_mat3 a) (msh_quat_to_mat3 b)).
Proof.
  split_all.
  - intros; by_ring.
  - intros; by_ring.
  - intros; split; by_ring.
  - intros; by_ring.
  - intros q H. split.
    + now apply quat_to_mat3_orthogonal.
    + now apply quat_to_mat3_determinant.
  - intros a b Ha Hb. split.
    + now apply unit_quat_mul.
    + now apply quat_to_mat3_mul.
Qed.

Lemma quaternion_algebra_exact_witness :
  unit_quat exact_quat_i /\ unit_quat exact_quat_j /\
  msh_quat_to_mat3 (msh_quat_mul exact_quat_i exact_quat_j) =
  msh_mat3_mul (msh_quat_to_mat3 exact_quat_i) (msh_quat_to_mat3 exact_quat_j).
Proof.
  assert (Ha : unit_quat exact_quat_i) by (apply Qc_is_canon; reflexivity).
  assert (Hb : unit_quat exact_quat_j) by (apply Qc_is_canon; reflexivity).
  split; [exact Ha |]. split; [exact Hb |].
  destruct quaternion_algebra_exact as (_ & _ & _ & _ & _ & H).
  exact (proj2 (H exact_quat_i exact_quat_j Ha Hb)).
Defined.

(** X29.  In exact arithmetic, with [right - left], [top - bottom] and
    [z_far - z_near] not zero: [msh_ortho] maps the corner
    [(left, bottom, -z_near)] of the view box to [(-1, -1, -1)] and the
    corner [(right, top, -z_far)] to [(1, 1, 1)]; [msh_frustum] maps the
    corners of the near rectangle to clip coordinates [x = -w], [y = -w]
    and [x = w], [y = w], every point of the near plane to [z = -w] with
    [w = z_near], and every point of the far plane to [z = w] with
    [w = z_far]. *)
Theorem projection_exact (left right bottom top z_near z_far : Qc) :
  (right - left)%S <> s_zero -> (top - bottom)%S <> s_zero ->
  (z_far - z_near)%S <> s_zero ->
  msh_mat4_vec4_mul (msh_ortho left right bottom top z_near z_far)
    (msh_vec4 left bottom (- z_near) s_one)%S =
    (msh_vec4 (- s_one) (- s_one) (- s_one) s_one)%S /\
  msh_mat4_vec4_mul (msh_ortho left right bottom top z_near z_far)
    (msh_vec4 right top (- z_far) s_one)%S =
    msh_vec4 s_one s_one s_one s_one /\
  msh_mat4_vec4_mul (msh_frustum left right bottom top z_near z_far)
    (msh_vec4 left bottom (- z_near) s_one)%S =
    (msh_vec4 (- z_near) (- z_near) (- z_near) z_near)%S /\
  msh_mat4_vec4_mul (msh_frustum left right bottom top z_near z_far)
    (msh_vec4 right top (- z_near) s_one)%S =
    (msh_vec4 z_near z_near (- z_near) z_near)%S /\
  (forall x y : Qc,
     v4_z (msh_mat4_vec4_mul (msh_frustum left right bottom top z_near z_far)
             (msh_vec4 x y (- z_near) s_one)%S) = (- z_near)%S /\
     v4_w (msh_mat4_vec4_mul (msh_frustum left right bottom top z_near z_far)
             (msh_vec4 x y (- z_near) s_one)%S) = z_near) /\
  (forall x y : Qc,
     v4_z (msh_mat4_vec4_mul (msh_frustum left right bottom top z_near z_far)
             (msh_vec4 x y (- z_far) s_one)%S) = z_far /\
     v4_w (msh_mat4_vec4_mul (msh_frustum left right bottom top z_near z_far)
             (msh_vec4 x y (- z_far) s_one)%S) = z_far).
Proof.
  intros Hx Hy Hz. exact_red_in Hx. exact_red_in Hy. exact_red_in Hz.
  split_all; intros; exact_red; literals; by_members; split_all;
    field; assumption.
Qed.

Lemma projection_exact_witness :
  msh_mat4_vec4_mul
    (msh_ortho (Qc_of_Z 0) (Qc_of_Z 4) (Qc_of_Z 0) (Qc_of_Z 3) (Qc_of_Z 1) (Qc_of_Z 9))
    (msh_vec4 (Qc_of_Z 4) (Qc_of_Z 3) (- Qc_of_Z 9) s_one)%S =
  msh_vec4 s_one s_one s_one s_one.
Proof.
  refine (proj1 (proj2
    (projection_exact (Qc_of_Z 0) (Qc_of_Z 4) (Qc_of_Z 0) (Qc_of_Z 3)
       (Qc_of_Z 1) (Qc_of_Z 9) _ _ _)));
    intro E; apply (f_equal this) in E; vm_compute in E; discriminate E.
Defined.

(** The window coordinates of [msh_project], taken back by the first
    statements of [msh_unproject]. *)
Lemma unproject_window (c viewport : msh_vec4_t Qc) :
  v4_z viewport <> s_zero -> v4_w viewport <> s_zero -> v4_w c <> s_zero ->
  (let tmp := msh_vec4_scalar_div c (v4_w c) in
   let win :=
     msh_vec3 (v4_x viewport + (v4_z viewport * (v4_x tmp + s_one)) / s_two)
              (v4_y viewport + (v4_w viewport * (v4_y tmp + s_one)) / s_two)
              ((v4_z tmp + s_one) / s_two) in
   msh_vec4 ((s_two * (v3_x win - v4_x viewport)) / v4_z viewport - s_one)
            ((s_two * (v3_y win - v4_y viewport)) / v4_w viewport - s_one)
            (s_two * v3_z win - s_one)
            s_one)%S =
  msh_vec4_scalar_mul c (s_one / v4_w c)%S.
Proof.
  destruct c as [cx cy cz cw], viewport as [vx vy vz vw]. intros Hz Hw Hc.
  exact_red_in Hz. exact_red_in Hw. exact_red_in Hc.
  exact_red. literals. by_members; split_all; field; field_sides.
Qed.

Lemma scalar_div_rescaled (v : msh_vec4_t Qc) (r : Qc) :
  r <> s_zero -> v4_w v <> s_zero ->
  msh_vec4_scalar_div (msh_vec4_scalar_mul v r) (v4_w (msh_vec4_scalar_mul v r)) =
  msh_vec4_scalar_div v (v4_w v).
Proof.
  destruct v as [x y z w]. intros Hr Hw. exact_red_in Hr. exact_red_in Hw.
  exact_red. literals. by_members; split_all; field; field_sides.
Qed.

(** X30.  In exact arithmetic [msh_unproject] undoes [msh_project]: for
    an invertible product of the two matrices, a viewport with width and
    height not zero, and an object point whose [w] and whose clip
    coordinate [w] are not zero, unprojecting the projected point gives
    the point divided by its [w]. *)
Theorem unproject_project_exact
  (obj : msh_vec4_t Qc) (modelview project : msh_mat4_t Qc) (viewport : msh_vec4_t Qc) :
  msh_mat4_determinant (msh_mat4_mul project modelview) <> s_zero ->
  v4_z viewport <> s_zero -> v4_w viewport <> s_zero ->
  v4_w (msh_mat4_vec4_mul (msh_mat4_mul project modelview) obj) <> s_zero ->
  v4_w obj <> s_zero ->
  msh_unproject (msh_project obj modelview project viewport)
                modelview project viewport =
  msh_vec4_scalar_div obj (v4_w obj).
Proof.
  intros Hdet Hz Hw Hc Ho.
  pose proof (unproject_window _ viewport Hz Hw Hc) as E. cbv zeta in E.
  unfold msh_unproject, msh_project. cbv zeta. rewrite E.
  rewrite mat4_vec4_mul_scalar, <- mat4_vec4_mul_compose.
  rewrite (proj2 (exact_inverse_mat4 _ Hdet)), mat4_vec4_mul_identity.
  apply scalar_div_rescaled; [ | exact Ho ].
  apply Qc_recip_nonzero. exact Hc.
Qed.

Lemma unproject_project_exact_witness :
  msh_unproject
    (msh_project (exact_vec4 1 2 3 1) msh_mat4_identity exact_mat4
       (exact_vec4 0 0 640 480))
    msh_mat4_identity exact_mat4 (exact_vec4 0 0 640 480) =
  msh_vec4_scalar_div (exact_vec4 1 2 3 1) (v4_w (exact_vec4 1 2 3 1)).
Proof.
  apply unproject_project_exact;
    intro E; apply (f_equal this) in E; vm_compute in E; discriminate E.
Defined.
End ExactFormulas.
